(** * VBoxInstance: the VirtualBox session registry of libcernvm

    A shallow embedding of [src/Hypervisor/Virtualbox/VBoxInstance.cpp]
    and the properties of it that the specification states.

    Conventions of the embedding:
    - the object graph is explicit: session objects live in a store and
      are named by handles ([HVSessionPtr] is a shared pointer), so the
      registry and the open list can refer to the same object, or to two
      objects carrying the same uuid;
    - everything outside the class (the VBoxManage command line, the
      runtime configuration directory, the user, the download service) is
      a record [Host] of answers, with the few parts that the code changes;
    - calls on collaborators that return nothing (progress feedback,
      alerts, [abort], [hvNotifyDestroyed]) are recorded in a log;
    - a C++ exception ends a function with [Throw];
    - the named mutexes and the crash-report macros carry no data and are
      left out. *)

From Stdlib Require Import ZArith String Ascii Bool Lia List DecimalString.
From stdpp Require Import base option list strings gmap sorting relations.

Local Open Scope nat_scope.

(** String concatenation simplifies on a literal prefix. *)
Arguments String.append !_ _ : simpl nomatch.

(* ================================================================== *)
(** * Results of functions that may throw *)
(* ================================================================== *)

(** [out_of_range] is what [std::string::substr] throws.  The other three
    are not exceptions but ends without a defined result: a call through
    an empty shared pointer, a read past the end of a vector, and a loop
    that is still running when the iteration budget of the model is
    spent. *)
Inductive exn :=
| out_of_range | null_dereference | index_out_of_bounds | diverges.

Inductive result (A : Type) :=
| Ok (a : A)
| Throw (e : exn).
Arguments Ok {A} a.
Arguments Throw {A} e.

#[global] Instance result_ret : MRet result := fun A a => Ok a.
#[global] Instance result_bind : MBind result := fun A B k r =>
  match r with
  | Ok a => k a
  | Throw e => Throw e
  end.

Lemma bind_Ok {A B} (a : A) (k : A -> result B) : (Ok a ≫= k) = k a.
Proof. reflexivity. Qed.

Lemma bind_Throw {A B} (e : exn) (k : A -> result B) : (Throw e ≫= k) = Throw e.
Proof. reflexivity. Qed.

(* ================================================================== *)
(** * std::string *)
(* ================================================================== *)

Module Str.

(** [size_t] arithmetic wraps around; the width is that of the 64-bit
    targets. *)
Definition size_t (z : Z) : Z := (z mod 2 ^ 64)%Z.
Definition npos : Z := (2 ^ 64 - 1)%Z.

Definition size (s : string) : Z := Z.of_nat (String.length s).

(** [starts_with p s]: the characters of [p] are the first ones of [s]. *)
Fixpoint starts_with (p s : string) : bool :=
  match p, s with
  | EmptyString, _ => true
  | String _ _, EmptyString => false
  | String a p', String b s' => Ascii.eqb a b && starts_with p' s'
  end.

(** [s.find(p)]: the position of the first occurrence, [None] for
    [string::npos]. *)
Fixpoint find (s p : string) : option nat :=
  if starts_with p s then Some 0
  else match s with
       | EmptyString => None
       | String _ s' => S <$> find s' p
       end.

Fixpoint drop (n : nat) (s : string) : string :=
  match n, s with
  | 0, _ => s
  | S _, EmptyString => EmptyString
  | S n', String _ s' => drop n' s'
  end.

Fixpoint take (n : nat) (s : string) : string :=
  match n, s with
  | 0, _ => EmptyString
  | S _, EmptyString => EmptyString
  | S n', String c s' => String c (take n' s')
  end.

(** [s.substr(pos, n)]: throws when [pos > size()], otherwise the
    characters [pos .. pos + min(n, size() - pos)). *)
Definition substr (s : string) (pos n : Z) : result string :=
  if (size s <? pos)%Z then Throw out_of_range
  else Ok (take (Z.to_nat (Z.min n (size s - pos))) (drop (Z.to_nat pos) s)).

(** [s.substr(pos)], the count defaulting to [npos]. *)
Definition substr_from (s : string) (pos : Z) : result string :=
  substr s pos npos.

(** [p] occurs in [s] at offset [i]. *)
Definition occurs_at (p s : string) (i : nat) : Prop :=
  i <= String.length s /\ starts_with p (drop i s) = true.

Definition dquote : string := String (ascii_of_nat 34) EmptyString.
Definition nl : string := String (ascii_of_nat 10) EmptyString.

Definition of_int (z : Z) : string := NilZero.string_of_int (Z.to_int z).

End Str.

(* ================================================================== *)
(** * Status codes, session states, configuration maps *)
(* ================================================================== *)

(** Modelled from the spec: the [HVE_*] macros are defined in
    [CernVM/Hypervisor.h], which is not among the sources.  The error
    taxonomy of the specification (section 7) names them; [HVE_OK] is
    what the code compares exit codes with and what [return 0] yields,
    [HVE_code] stands for any other integer a collaborator may hand back. *)
Inductive HVE :=
| HVE_OK
| HVE_ALREADY_EXISTS
| HVE_QUERY_ERROR
| HVE_EXTERNAL_ERROR
| HVE_NOT_VALIDATED
| HVE_NOT_TRUSTED
| HVE_code (z : Z).

Definition HVE_eqb (a b : HVE) : bool :=
  match a, b with
  | HVE_OK, HVE_OK | HVE_ALREADY_EXISTS, HVE_ALREADY_EXISTS
  | HVE_QUERY_ERROR, HVE_QUERY_ERROR | HVE_EXTERNAL_ERROR, HVE_EXTERNAL_ERROR
  | HVE_NOT_VALIDATED, HVE_NOT_VALIDATED | HVE_NOT_TRUSTED, HVE_NOT_TRUSTED => true
  | HVE_code x, HVE_code y => (x =? y)%Z
  | _, _ => false
  end.

(** Modelled from the spec: the [SS_*] constants are declared in the same
    absent header; section 3 lists the lifecycle states.  The code under
    study only ever compares with [SS_MISSING]. *)
Inductive SessionState :=
| SS_MISSING | SS_CREATED | SS_RUNNING | SS_SAVED | SS_PAUSED | SS_ABORTED.

Definition is_missing (s : SessionState) : bool :=
  match s with SS_MISSING => true | _ => false end.

(** A [ParameterMap] / [LocalConfig]: string keys to string values. *)
Abbreviation Config := (gmap string string).

Module Cfg.

Definition contains (c : Config) (k : string) : bool :=
  bool_decide (is_Some (c !! k)).

(** [get(k, def)]; the one-argument [get(k)] defaults to the empty string. *)
Definition get_or (c : Config) (k def : string) : string :=
  default def (c !! k).

Definition get (c : Config) (k : string) : string := get_or c k EmptyString.

Definition set (c : Config) (k v : string) : Config := <[k:=v]> c.

End Cfg.

(* ================================================================== *)
(** * The object graph and the world around the instance *)
(* ================================================================== *)

(** A handle on a session object ([HVSessionPtr]). *)
Definition ptr := nat.

(** The members of [HVSession] that [VBoxInstance] reads or writes.
    [instances] is a C++ [int]; [local_state] stands for
    [local->getNum<int>("state")]. *)
Record HVSession := mkHVSession {
  uuid : string;
  parameters : Config;
  local_state : SessionState;
  instances : Z;
}.

Record Version := mkVersion {
  major : Z; minor : Z; build : Z; verString : string;
}.

(** What [exec] hands back: the exit code, the captured output lines and
    the captured error text. *)
Record ExecResult := mkExec {
  exit_code : Z;
  out_lines : list string;
  err_text : string;
}.

(** A progress task: the path of [begin] labels from the task the caller
    passed in.  A [FiniteTaskPtr] is an optional task, [None] when empty. *)
Definition Task := list string.

Inductive Event :=
| PfSetMax (t : Task) (n : Z)
| PfDoing (t : Task) (msg : string)
| PfDone (t : Task) (msg : string)
| PfFail (t : Task) (msg : string) (code : option HVE)
| PfComplete (t : Task) (msg : string)
| PfMarkLengthy (t : Task) (b : bool)
| PfBegin (t : Task) (label : string)
| UiConfirm (title : string)
| UiConfirmLicense (title : string)
| UiAlert (title msg : string)
| Exec (cmd : string)
| System (cmdline : string)
| FetchConfig
| Download (url file : string)
| Sha256 (file : string)
| Remove (file : string)
| ConfigClear (name : string)
| SessionAbort (p : ptr)
| NotifyDestroyed (p : ptr).

(** Everything the instance talks to. *)
Record Host := mkHost {
  (* the VBoxManage command line *)
  vboxExists : bool;
  hv_answer : string -> ExecResult;
  hv_extpacks : list string;
  hv_installer : Z * list string;
  (* the runtime configuration directory: file name and content *)
  disk : list (string * Config);
  (* the temporary directory *)
  files : list string;
  (* the keystore, the download provider, the hashing of a file *)
  hvConfig : HVE * Config;
  downloadFile : HVE;
  sha256_file : string -> string;
  (* the user: [true] is [UI_OK] *)
  ui_confirm : bool;
  ui_confirmLicense : bool;
  (* the Linux driver repair *)
  terminalCmdline : string;
  system_result : Z;
  hv_after_setup : string -> ExecResult;
}.

(** The instance (its members as in [VBoxInstance.h]), the session
    store, the host and the log. *)
Record World := mkWorld {
  sessions : list (string * ptr);
  openSessions : list ptr;
  sessionLoaded : bool;
  vboxDrvKernelLoaded : bool;
  reflectionValid : bool;
  version : Version;
  hvGuestAdditions : string;
  heap : ptr -> HVSession;
  next : ptr;
  host : Host;
  log : list Event;
}.

(** Helpers of [CernVM/Utilities.h], [LocalConfig] and [ParameterMap] that
    the functions below call and whose code is not among the sources. *)
Record Utilities := mkUtilities {
  tokenize : list string -> ascii -> list (string * string);
  trimSplit : string -> list string;
  hex_ston : string -> Z;
  ston : string -> Z;
  parseLines : list string -> Config;
  systemPath : string -> string;
  getFilename : string -> string;
  getTmpDir : string;
  version_set : string -> Version;
  getState : Config -> SessionState;
}.

(** Field updates. *)
Definition set_sessions v (w : World) : World :=
  mkWorld v (openSessions w) (sessionLoaded w) (vboxDrvKernelLoaded w) (reflectionValid w) (version w) (hvGuestAdditions w) (heap w) (next w) (host w) (log w).
Definition set_openSessions v (w : World) : World :=
  mkWorld (sessions w) v (sessionLoaded w) (vboxDrvKernelLoaded w) (reflectionValid w) (version w) (hvGuestAdditions w) (heap w) (next w) (host w) (log w).
Definition set_sessionLoaded v (w : World) : World :=
  mkWorld (sessions w) (openSessions w) v (vboxDrvKernelLoaded w) (reflectionValid w) (version w) (hvGuestAdditions w) (heap w) (next w) (host w) (log w).
Definition set_vboxDrvKernelLoaded v (w : World) : World :=
  mkWorld (sessions w) (openSessions w) (sessionLoaded w) v (reflectionValid w) (version w) (hvGuestAdditions w) (heap w) (next w) (host w) (log w).
Definition set_reflectionValid v (w : World) : World :=
  mkWorld (sessions w) (openSessions w) (sessionLoaded w) (vboxDrvKernelLoaded w) v (version w) (hvGuestAdditions w) (heap w) (next w) (host w) (log w).
Definition set_version v (w : World) : World :=
  mkWorld (sessions w) (openSessions w) (sessionLoaded w) (vboxDrvKernelLoaded w) (reflectionValid w) v (hvGuestAdditions w) (heap w) (next w) (host w) (log w).
Definition set_hvGuestAdditions v (w : World) : World :=
  mkWorld (sessions w) (openSessions w) (sessionLoaded w) (vboxDrvKernelLoaded w) (reflectionValid w) (version w) v (heap w) (next w) (host w) (log w).
Definition set_heap v (w : World) : World :=
  mkWorld (sessions w) (openSessions w) (sessionLoaded w) (vboxDrvKernelLoaded w) (reflectionValid w) (version w) (hvGuestAdditions w) v (next w) (host w) (log w).
Definition set_next v (w : World) : World :=
  mkWorld (sessions w) (openSessions w) (sessionLoaded w) (vboxDrvKernelLoaded w) (reflectionValid w) (version w) (hvGuestAdditions w) (heap w) v (host w) (log w).
Definition set_host v (w : World) : World :=
  mkWorld (sessions w) (openSessions w) (sessionLoaded w) (vboxDrvKernelLoaded w) (reflectionValid w) (version w) (hvGuestAdditions w) (heap w) (next w) v (log w).
Definition set_log v (w : World) : World :=
  mkWorld (sessions w) (openSessions w) (sessionLoaded w) (vboxDrvKernelLoaded w) (reflectionValid w) (version w) (hvGuestAdditions w) (heap w) (next w) (host w) v.
Definition set_hv_answer v (h : Host) : Host :=
  mkHost (vboxExists h) v (hv_extpacks h) (hv_installer h) (disk h) (files h) (hvConfig h) (downloadFile h) (sha256_file h) (ui_confirm h) (ui_confirmLicense h) (terminalCmdline h) (system_result h) (hv_after_setup h).
Definition set_hv_extpacks v (h : Host) : Host :=
  mkHost (vboxExists h) (hv_answer h) v (hv_installer h) (disk h) (files h) (hvConfig h) (downloadFile h) (sha256_file h) (ui_confirm h) (ui_confirmLicense h) (terminalCmdline h) (system_result h) (hv_after_setup h).
Definition set_disk v (h : Host) : Host :=
  mkHost (vboxExists h) (hv_answer h) (hv_extpacks h) (hv_installer h) v (files h) (hvConfig h) (downloadFile h) (sha256_file h) (ui_confirm h) (ui_confirmLicense h) (terminalCmdline h) (system_result h) (hv_after_setup h).
Definition set_files v (h : Host) : Host :=
  mkHost (vboxExists h) (hv_answer h) (hv_extpacks h) (hv_installer h) (disk h) v (hvConfig h) (downloadFile h) (sha256_file h) (ui_confirm h) (ui_confirmLicense h) (terminalCmdline h) (system_result h) (hv_after_setup h).

Definition emit (e : Event) (w : World) : World := set_log (log w ++ [e]) w.

(** A call on an optional progress task does nothing when the task is empty. *)
Definition pf_emit (pf : option Task) (e : Task -> Event) (w : World) : World :=
  match pf with
  | Some t => emit (e t) w
  | None => w
  end.

(** [pf->begin<...>(label)]: the child task, empty when [pf] is. *)
Definition pf_begin (pf : option Task) (label : string) (w : World)
  : option Task * World :=
  match pf with
  | Some t => (Some (t ++ [label]), emit (PfBegin t label) w)
  | None => (None, w)
  end.

Definition deref (w : World) (p : ptr) : HVSession := heap w p.

Definition store (p : ptr) (s : HVSession) (w : World) : World :=
  set_heap (fun q => if Nat.eqb q p then s else heap w q) w.

(* ================================================================== *)
(** * The command adapter *)
(* ================================================================== *)

(** Modelled from the spec: [HVInstance::exec] is not among the sources.
    Section 4.1: [execute(commandLine, config)] returns the exit code with
    the captured output and error lines.  The host answers a command from
    [hv_answer]; the listing of extension packs is the one part of the
    hypervisor that a command of this file changes, so it is kept apart
    and replaced when the installer succeeds. *)
Definition exec (cmd : string) (w : World) : ExecResult * World :=
  let h := host w in
  let w1 := emit (Exec cmd) w in
  if String.eqb cmd "list extpacks" then
    (mkExec (exit_code (hv_answer h cmd)) (hv_extpacks h)
            (err_text (hv_answer h cmd)), w1)
  else if Str.starts_with "extpack install " cmd then
    let '(code, listing) := hv_installer h in
    (mkExec code [] EmptyString,
     if (code =? 0)%Z then set_host (set_hv_extpacks listing h) w1 else w1)
  else (hv_answer h cmd, w1).

(* ================================================================== *)
(** * Guest properties *)
(* ================================================================== *)

(** [VBoxInstance::getProperty] *)
Definition getProperty (uuid name : string) (w : World)
  : result (string * World) :=
  let '(r, w1) :=
    exec ("guestproperty get " +:+ uuid +:+ " " +:+ Str.dquote +:+ name
            +:+ Str.dquote) w in
  if negb (exit_code r =? 0)%Z then Ok (EmptyString, w1)
  else match out_lines r with
       | [] => Ok (EmptyString, w1)
       | value :: _ =>
           head ← Str.substr value 0 6;
           if String.eqb head "Value:" then
             v ← Str.substr_from value 7; Ok (v, w1)
           else Ok (EmptyString, w1)
       end.

(** The body of the loop of [VBoxInstance::getAllProperties] on one line:
    [None] when the line is skipped by one of the [continue]s. *)
Definition parse_property (line : string) : result (option (string * string)) :=
  match Str.find line "Name: " with
  | None => Ok None
  | Some kBegin =>
      match Str.find line ", value:" with
      | None => Ok None
      | Some kEnd =>
          match Str.find line ", timestamp:" with
          | None => Ok None
          | Some vEnd =>
              let kBegin := Str.size_t (Z.of_nat kBegin + 6) in
              vKey ← Str.substr line kBegin (Str.size_t (Z.of_nat kEnd - kBegin));
              let vBegin := Str.size_t (Z.of_nat kEnd + 9) in
              vValue ← Str.substr line vBegin (Str.size_t (Z.of_nat vEnd - vBegin));
              Ok (Some (vKey, vValue))
          end
      end
  end.

Fixpoint collect_properties (lines : list string) (ans : gmap string string)
  : result (gmap string string) :=
  match lines with
  | [] => Ok ans
  | line :: rest =>
      o ← parse_property line;
      collect_properties rest
        (match o with
         | Some (vKey, vValue) => <[vKey:=vValue]> ans
         | None => ans
         end)
  end.

(** [VBoxInstance::getAllProperties] *)
Definition getAllProperties (uuid : string) (w : World)
  : result (gmap string string * World) :=
  let '(r, w1) := exec ("guestproperty enumerate " +:+ uuid) w in
  if (exit_code r =? 0)%Z then
    ans ← collect_properties (out_lines r) ∅; Ok (ans, w1)
  else Ok (∅, w1).

(* ================================================================== *)
(** * Capabilities *)
(* ================================================================== *)

(** The [cpu] part of [HVINFO_CAPS].  [vendor] is the array [char[13]]:
    a list of thirteen bytes; the feature words and [v] are C++ [int]s. *)
Record HVINFO_CPUID := mkCpuid {
  vendor : list Z;
  featuresA : Z; featuresB : Z; featuresC : Z; featuresD : Z;
  stepping : Z; model : Z; family : Z; type : Z; exmodel : Z; exfamily : Z;
  hasVM : bool; hasVT : bool; has64bit : bool;
}.

Record HVINFO_CAPS := mkCaps {
  cpu : HVINFO_CPUID;
  max_cpus : Z; max_memory : Z; max_disk : Z;
}.

Definition set_vendor v (c : HVINFO_CPUID) : HVINFO_CPUID :=
  mkCpuid v (featuresA c) (featuresB c) (featuresC c) (featuresD c)
    (stepping c) (model c) (family c) (type c) (exmodel c) (exfamily c)
    (hasVM c) (hasVT c) (has64bit c).

(** An [int] converted to [unsigned int], as [v & 0xFF000000] does. *)
Definition to_unsigned (v : Z) : Z := (v mod 2 ^ 32)%Z.

(** The four assignments [vendor[i] = v & 0xFF; ... vendor[i+3] =
    (v & 0xFF000000) >> 24]. *)
Definition put4 (i : nat) (v : Z) (a : list Z) : list Z :=
  let a := <[i := Z.land v 0xFF]> a in
  let a := <[i + 1 := Z.shiftr (Z.land v 0xFF00) 8]> a in
  let a := <[i + 2 := Z.shiftr (Z.land v 0xFF0000) 16]> a in
  <[i + 3 := Z.shiftr (Z.land (to_unsigned v) 0xFF000000) 24]> a.

(** [parts[i]]; reading past the end of the vector has no defined result. *)
Definition at_index (parts : list string) (i : nat) : result string :=
  match parts !! i with
  | Some s => Ok s
  | None => Throw index_out_of_bounds
  end.

Section Capabilities.

Context (U : Utilities).

(** The body of the loop over the lines of [list hostcpuids]. *)
Definition cpuid_line (line : string) (c : HVINFO_CPUID) : result HVINFO_CPUID :=
  let parts := trimSplit U line in
  if Nat.eqb (length parts) 0 then Ok c
  else
    leaf ← at_index parts 0;
    if String.eqb leaf "00000000" then
      ebx ← at_index parts 2;
      let a := put4 0 (hex_ston U ebx) (vendor c) in
      edx ← at_index parts 4;
      let a := put4 4 (hex_ston U edx) a in
      ecx ← at_index parts 3;
      let a := put4 8 (hex_ston U ecx) a in
      Ok (set_vendor (<[12 := 0%Z]> a) c)
    else if String.eqb leaf "00000001" then
      ecx ← at_index parts 3;
      edx ← at_index parts 4;
      eax ← at_index parts 1;
      let v := hex_ston U eax in
      Ok (mkCpuid (vendor c) (hex_ston U ecx) (hex_ston U edx)
            (featuresC c) (featuresD c)
            (Z.land v 0xF)
            (Z.shiftr (Z.land v 0xF0) 4)
            (Z.shiftr (Z.land v 0xF00) 8)
            (Z.shiftr (Z.land v 0x3000) 12)
            (Z.shiftr (Z.land v 0xF0000) 16)
            (Z.shiftr (Z.land v 0xFF00000) 20)
            (hasVM c) (hasVT c) (has64bit c))
    else if String.eqb leaf "80000001" then
      ecx ← at_index parts 3;
      edx ← at_index parts 4;
      Ok (mkCpuid (vendor c) (featuresA c) (featuresB c)
            (hex_ston U ecx) (hex_ston U edx)
            (stepping c) (model c) (family c) (type c) (exmodel c)
            (exfamily c) (hasVM c) (hasVT c) (has64bit c))
    else Ok c.

Fixpoint cpuid_lines (lines : list string) (c : HVINFO_CPUID)
  : result HVINFO_CPUID :=
  match lines with
  | [] => Ok c
  | line :: rest => c' ← cpuid_line line c; cpuid_lines rest c'
  end.

(** "Update flags" *)
Definition update_flags (c : HVINFO_CPUID) : HVINFO_CPUID :=
  mkCpuid (vendor c) (featuresA c) (featuresB c) (featuresC c) (featuresD c)
    (stepping c) (model c) (family c) (type c) (exmodel c) (exfamily c)
    false
    (negb (Z.land (featuresA c) 0x20 =? 0)%Z
     || negb (Z.land (featuresC c) 0x2 =? 0)%Z)
    (negb (Z.land (featuresC c) 0x20000000 =? 0)%Z).

(** The limits read from [list systemproperties]. *)
Definition limits (data : Config) (c : HVINFO_CPUID) : HVINFO_CAPS :=
  let memory :=
    match data !! "Maximum guest RAM size" with
    | Some s => ston U s | None => 1024%Z end in
  let disk :=
    match data !! "Virtual disk limit (info)" with
    | Some s => (ston U s ÷ 1024)%Z | None => 2048%Z end in
  let cpus :=
    match data !! "Maximum guest CPU count" with
    | Some s => ston U s | None => 1%Z end in
  mkCaps c cpus memory disk.

(** [VBoxInstance::getCapabilities]: the status and the content of
    [*caps] on return. *)
Definition getCapabilities (caps : HVINFO_CAPS) (w : World)
  : result (HVE * HVINFO_CAPS * World) :=
  let '(r, w1) := exec "list hostcpuids" w in
  if negb (exit_code r =? 0)%Z then Ok (HVE_QUERY_ERROR, caps, w1)
  else if Nat.eqb (length (out_lines r)) 0 then Ok (HVE_EXTERNAL_ERROR, caps, w1)
  else
    c ← cpuid_lines (out_lines r) (cpu caps);
    let c := update_flags c in
    let caps1 := mkCaps c (max_cpus caps) (max_memory caps) (max_disk caps) in
    let '(r2, w2) := exec "list systemproperties" w1 in
    if negb (exit_code r2 =? 0)%Z then Ok (HVE_QUERY_ERROR, caps1, w2)
    else if Nat.eqb (length (out_lines r2)) 0 then
      Ok (HVE_EXTERNAL_ERROR, caps1, w2)
    else Ok (HVE_OK, limits (parseLines U (out_lines r2)) c, w2).

End Capabilities.

(* ================================================================== *)
(** * The session registry *)
(* ================================================================== *)

(** [std::map<std::string, HVSessionPtr>]: the entries in ascending key
    order, which is the order an iterator visits them in. *)
Module Reg.

(** [m.find(k)] *)
Fixpoint find (m : list (string * ptr)) (k : string) : option ptr :=
  match m with
  | [] => None
  | (k', p) :: m' => if String.eqb k k' then Some p else find m' k
  end.

(** [m[k] = p] *)
Fixpoint assign (m : list (string * ptr)) (k : string) (p : ptr)
  : list (string * ptr) :=
  match m with
  | [] => [(k, p)]
  | (k', p') :: m' =>
      match String.compare k k' with
      | Eq => (k, p) :: m'
      | Lt => (k, p) :: (k', p') :: m'
      | Gt => (k', p') :: assign m' k p
      end
  end.

(** [m.erase(i)] for the first iterator [i] whose key is [k]. *)
Fixpoint erase (m : list (string * ptr)) (k : string) : list (string * ptr) :=
  match m with
  | [] => []
  | (k', p) :: m' => if String.eqb k k' then m' else (k', p) :: erase m' k
  end.

End Reg.

(** The position of the first element of a list of open sessions whose
    uuid is [u]: the scan [for (jt = openSessions.begin(); ...)]. *)
Fixpoint find_open (w : World) (u : string) (l : list ptr) : option nat :=
  match l with
  | [] => None
  | openSess :: l' =>
      if String.eqb u (uuid (deref w openSess)) then Some 0
      else S <$> find_open w u l'
  end.

(** Modelled from the spec: [LocalConfig] is not among the sources.
    Section 6: the descriptor store holds one record per session under a
    reserved name prefix and supports enumeration by prefix and full
    deletion.  [forRuntime] opens the record of a name (empty when there
    is none), [enumFiles] lists the names with a prefix, [config_clear]
    deletes a record, [config_write] stores one. *)
Fixpoint forRuntime_in (d : list (string * Config)) (name : string) : Config :=
  match d with
  | [] => ∅
  | (n, c) :: d' => if String.eqb name n then c else forRuntime_in d' name
  end.

Definition forRuntime (name : string) (w : World) : Config :=
  forRuntime_in (disk (host w)) name.

Definition enumFiles (prefix : string) (w : World) : list string :=
  List.filter (Str.starts_with prefix) (disk (host w)).*1.

Definition config_clear (name : string) (w : World) : World :=
  let h := host w in
  emit (ConfigClear name)
    (set_host
       (set_disk (List.filter (fun e => negb (String.eqb name e.1)) (disk h)) h)
       w).

Fixpoint config_write_in (d : list (string * Config)) (name : string) (c : Config)
  : list (string * Config) :=
  match d with
  | [] => [(name, c)]
  | (n, c') :: d' =>
      if String.eqb name n then (n, c) :: d' else (n, c') :: config_write_in d' name c
  end.

Definition config_write (name : string) (c : Config) (w : World) : World :=
  let h := host w in
  set_host (set_disk (config_write_in (disk h) name c) h) w.

Definition set_instances (n : Z) (s : HVSession) : HVSession :=
  mkHVSession (uuid s) (parameters s) (local_state s) n.

Definition set_local_state (v : SessionState) (s : HVSession) : HVSession :=
  mkHVSession (uuid s) (parameters s) v (instances s).

Section Registry.

Context (U : Utilities).

(** Modelled from the spec: the constructors of [HVSession] and
    [VBoxSession] are not among the sources.  Section 3: a session is
    reconstructed from a persisted descriptor, which carries its
    internalId, its lifecycle state and its parameters; a new session
    has no open handle. *)
Definition new_session (cfg : Config) : HVSession :=
  mkHVSession (Cfg.get cfg "uuid") cfg (getState U cfg) 0.

(** [make_shared<VBoxSession>(cfg, ...)]: a new object in the store. *)
Definition make_session (cfg : Config) (w : World) : ptr * World :=
  let p := next w in
  (p, set_next (S p) (store p (new_session cfg) w)).

(** [VBoxInstance::allocateSession]; [guid] is what [newGUID()] returns. *)
Definition allocateSession (guid : string) (w : World) : ptr * World :=
  let name := "vbsess-" +:+ guid in
  let cfg := Cfg.set (forRuntime name w) "uuid" guid in
  let w1 := config_write name cfg w in
  let '(session, w2) := make_session cfg w1 in
  (session, set_sessions (Reg.assign (sessions w2) guid session) w2).

(** [VBoxInstance::sessionDelete] *)
Definition sessionDelete (session : ptr) (w : World) : World :=
  let uuid := uuid (deref w session) in
  match Reg.find (sessions w) uuid with
  | None => w
  | Some sess =>
      let w1 :=
        match find_open w uuid (openSessions w) with
        | Some jt =>
            emit (NotifyDestroyed sess)
              (set_openSessions (delete jt (openSessions w)) w)
        | None => w
        end in
      let w2 := set_sessions (Reg.erase (sessions w1) uuid) w1 in
      config_clear ("vbsess-" +:+ uuid) w2
  end.

(** [VBoxInstance::sessionClose] *)
Definition sessionClose (session : ptr) (w : World) : World :=
  let s := deref w session in
  let n := (instances s - 1)%Z in
  let w1 := store session (set_instances n s) w in
  if (0 <? n)%Z then w1
  else
    let w2 := emit (SessionAbort session) w1 in
    let w3 :=
      match find_open w2 (uuid s) (openSessions w2) with
      | Some jt => set_openSessions (delete jt (openSessions w2)) w2
      | None => w2
      end in
    if is_missing (local_state (deref w3 session))
    then sessionDelete session w3
    else w3.

(** Modelled from the spec: [HVInstance::sessionOpen] and
    [VBoxSession::open] are not among the sources.  Section 4.3: open
    returns a checked-out session (creating or reusing as appropriate),
    increments openRefCount, attaches progress plumbing, and triggers
    the session's own state-refresh; section 3: the open list holds the
    currently open sessions, by identity, in open order.  [id] names
    the session wanted, [refreshed] is the lifecycle state the refresh
    finds. *)
Definition sessionOpen (id : string) (refreshed : SessionState) (w : World)
  : ptr * World :=
  let '(sess, w1) :=
    match Reg.find (sessions w) id with
    | Some sess => (sess, w)
    | None => allocateSession id w
    end in
  let s := deref w1 sess in
  let w2 :=
    store sess
      (set_local_state refreshed (set_instances (instances s + 1)%Z s)) w1 in
  let w3 :=
    match find_open w2 (uuid s) (openSessions w2) with
    | Some _ => w2
    | None => set_openSessions (openSessions w2 ++ [sess]) w2
    end in
  (sess, w3).

(** ** loadSessions *)

(** [1] Load session registry from the disk. *)
Fixpoint load_from_disk (names : list string) (w : World) : World :=
  match names with
  | [] => w
  | sessName :: rest =>
      let sessConfig := forRuntime sessName w in
      load_from_disk rest
        (if negb (Cfg.contains sessConfig "name") then w
         else if negb (Cfg.contains sessConfig "uuid") then w
         else
           let '(p, w1) := make_session sessConfig w in
           set_sessions
             (Reg.assign (sessions w1) (Cfg.get sessConfig "uuid") p) w1)
  end.

(** [2] Collect the running VM info, from the pairs [tokenize] returns. *)
Fixpoint collect_vms (vms : list (string * string)) (vboxVms : gmap string string)
  : result (gmap string string) :=
  match vms with
  | [] => Ok vboxVms
  | (name, uuid) :: rest =>
      name ← Str.substr name 1 (Str.size_t (Str.size name - 3));
      uuid ← Str.substr uuid 0 (Str.size_t (Str.size uuid - 1));
      if Str.find name "<inaccessible>" is Some _ then collect_vms rest vboxVms
      else collect_vms rest (<[uuid := name]> (delete uuid vboxVms))
  end.

(** [3] Remove the VMs that are not registered in the hypervisor.
    [it] is the position of the iterator; after a removal the iterator
    is put at [begin()] and then advanced by the loop header.  [None]
    when the loop is still running after [fuel] iterations. *)
Fixpoint remove_unregistered (fuel : nat) (vboxVms : gmap string string)
  (it : nat) (w : World) : option World :=
  match fuel with
  | 0 => None
  | S fuel =>
      match sessions w !! it with
      | None => Some w
      | Some (_, sess) =>
          if vboxVms !! Cfg.get (parameters (deref w sess)) "vboxid" is None then
            let w1 := sessionDelete sess w in
            if Nat.eqb (length (sessions w1)) 0 then Some w1
            else remove_unregistered fuel vboxVms 1 w1
          else remove_unregistered fuel vboxVms (S it) w
      end
  end.

(** [4] Check if some of the currently open sessions was lost. *)
Fixpoint release_lost (fuel : nat) (it : nat) (w : World) : option World :=
  match fuel with
  | 0 => None
  | S fuel =>
      match openSessions w !! it with
      | None => Some w
      | Some sess =>
          if Reg.find (sessions w) (uuid (deref w sess)) is None then
            let w1 := emit (NotifyDestroyed sess) w in
            let w2 := set_openSessions (delete it (openSessions w1)) w1 in
            if Nat.eqb (length (openSessions w2)) 0 then Some w2
            else release_lost fuel 1 w2
          else release_lost fuel (S it) w
      end
  end.

(** Iterations that suffice for a loop over [n] elements that, at each
    iteration, advances or removes an element and restarts. *)
Definition loop_fuel (n : nat) : nat := n * n + n + 1.

Definition run_loop (r : option World) : result World :=
  match r with
  | Some w => Ok w
  | None => Throw diverges
  end.

(** [VBoxInstance::loadSessions] *)
Definition loadSessions (pf : option Task) (w : World) : result (HVE * World) :=
  let w := pf_emit pf (fun t => PfSetMax t 4) w in
  let w := pf_emit pf (fun t => PfDoing t "Loading sessions from disk") w in
  let w := if negb (Nat.eqb (length (sessions w)) 0) then set_sessions [] w else w in
  let w := load_from_disk (enumFiles "vbsess-" w) w in
  let '(r, w) := exec "list vms" w in
  if negb (exit_code r =? 0)%Z then Ok (HVE_QUERY_ERROR, w)
  else
    let w := pf_emit pf (fun t => PfDone t "Sessions loaded") w in
    let w := pf_emit pf (fun t => PfDoing t "Loading sessions from hypervisor") w in
    vboxVms ← collect_vms (tokenize U (out_lines r) "{"%char) ∅;
    let w := pf_emit pf (fun t => PfDone t "Sessions loaded") w in
    let w := pf_emit pf (fun t => PfDoing t "Cleaning-up expired sessions") w in
    w ← run_loop
          (remove_unregistered (loop_fuel (length (sessions w))) vboxVms 0 w);
    let w := pf_emit pf (fun t => PfDone t "Sessions cleaned-up") w in
    let w := pf_emit pf (fun t => PfDoing t "Releasing old open sessions") w in
    w ← run_loop (release_lost (loop_fuel (length (openSessions w))) 0 w);
    let w := pf_emit pf (fun t => PfDone t "Old open sessions released") w in
    Ok (HVE_OK, w).

End Registry.

(* ================================================================== *)
(** * The extension pack *)
(* ================================================================== *)

Definition contains_text (l pat : string) : bool :=
  if Str.find l pat is Some _ then true else false.

(** [VBoxInstance::hasExtPack] *)
Definition hasExtPack (w : World) : bool * World :=
  let '(r, w1) := exec "list extpacks" w in
  (existsb (fun l => contains_text l "Oracle VM VirtualBox Extension Pack")
     (out_lines r), w1).

(** Modelled from the spec: the download provider and [remove] act on the
    temporary directory, which is outside the sources.  Section 4.5: the
    download transfers the artifact to a temporary path; cleanup deletes
    the temporary artifact. *)
Definition download_to (url file : string) (w : World) : HVE * World :=
  let h := host w in
  let w1 := emit (Download url file) w in
  match downloadFile h with
  | HVE_OK => (HVE_OK, set_host (set_files (file :: files h) h) w1)
  | res => (res, w1)
  end.

Definition remove_file (file : string) (w : World) : World :=
  let h := host w in
  emit (Remove file)
    (set_host
       (set_files (List.filter (fun f => negb (String.eqb file f)) (files h)) h) w).

Section Readiness.

Context (U : Utilities).

(** [true] where the code is compiled with [__linux__] defined. *)
Context (linux : bool).

(** The command the installer is started with. *)
Definition install_cmd (tmpExtpackFile : string) : string :=
  "extpack install " +:+ Str.dquote +:+ tmpExtpackFile +:+ Str.dquote.

(** "vbox-major.minor.build" *)
Definition version_key (v : Version) : string :=
  "vbox-" +:+ Str.of_int (major v) +:+ "." +:+ Str.of_int (minor v)
    +:+ "." +:+ Str.of_int (build v).

(** [VBoxInstance::installExtPack], in the order of the source: the
    last phases first, since each phase ends by entering the next. *)

(** "Install extpack on virtualbox", "Cleanup", "Complete". *)
Definition install_pack (pf : option Task) (tmpExtpackFile : string) (w : World)
  : HVE * World :=
  let w := pf_emit pf (fun t => PfDoing t "Installing extension pack") w in
  let w := pf_emit pf (fun t => PfMarkLengthy t true) w in
  let '(r, w) := exec (install_cmd tmpExtpackFile) w in
  if negb (exit_code r =? 0)%Z then
    let w := pf_emit pf
               (fun t => PfFail t "Extension pack failed to install"
                           (Some HVE_EXTERNAL_ERROR)) w in
    (HVE_EXTERNAL_ERROR, pf_emit pf (fun t => PfMarkLengthy t false) w)
  else
    let w := pf_emit pf (fun t => PfMarkLengthy t false) w in
    let w := pf_emit pf (fun t => PfDone t "Installed extension pack") w in
    let w := pf_emit pf (fun t => PfDoing t "Cleaning-up") w in
    let w := remove_file tmpExtpackFile w in
    let w := pf_emit pf (fun t => PfDone t "Cleaned-up") w in
    (HVE_OK,
     pf_emit pf (fun t => PfComplete t "Extension pack installed successfully") w).

(** "Validate checksum" *)
Definition validate_pack (pf : option Task) (expected tmpExtpackFile : string)
  (w : World) : HVE * World :=
  let w := pf_emit pf (fun t => PfDoing t "Validating extension pack integrity") w in
  let w := emit (Sha256 tmpExtpackFile) w in
  let checksum := sha256_file (host w) tmpExtpackFile in
  if negb (String.eqb checksum expected) then
    (HVE_NOT_VALIDATED,
     pf_emit pf
       (fun t => PfFail t "Extension pack integrity was not validated"
                   (Some HVE_NOT_VALIDATED)) w)
  else
    let w := pf_emit pf (fun t => PfDone t "Extension pack integrity validated") w in
    install_pack pf tmpExtpackFile w.

(** "Verify integrity of the data", "Download extension pack" *)
Definition download_pack (pf : option Task) (data : Config) (w : World)
  : HVE * World :=
  let kExtpackUrl := version_key (version w) +:+ "-extpack" in
  let kExtpackChecksum := version_key (version w) +:+ "-extpackChecksum" in
  if negb (Cfg.contains data kExtpackUrl) then
    (HVE_EXTERNAL_ERROR,
     pf_emit pf (fun t => PfFail t "No extensions package URL found"
                            (Some HVE_EXTERNAL_ERROR)) w)
  else if negb (Cfg.contains data kExtpackChecksum) then
    (HVE_EXTERNAL_ERROR,
     pf_emit pf (fun t => PfFail t "No extensions package checksum found"
                            (Some HVE_EXTERNAL_ERROR)) w)
  else
    let '(downloadPf, w) := pf_begin pf "Downloading extension pack" w in
    let tmpExtpackFile :=
      getTmpDir U +:+ "/" +:+ getFilename U (Cfg.get data kExtpackUrl) in
    let '(res, w) := download_to (Cfg.get data kExtpackUrl) tmpExtpackFile w in
    if negb (HVE_eqb res HVE_OK) then
      (res, pf_emit pf (fun t => PfFail t "Unable to download extension pack"
                                   (Some res)) w)
    else validate_pack pf (Cfg.get data kExtpackChecksum) tmpExtpackFile w.

(** The entry: "If we already have an extension pack, complete",
    "Contact the information point". *)
Definition installExtPack (pf : option Task) (w : World) : HVE * World :=
  let w := pf_emit pf (fun t => PfSetMax t 5) w in
  let w := pf_emit pf
             (fun t => PfDoing t "Preparing for extension pack installation") w in
  let '(has, w) := hasExtPack w in
  if has then
    (HVE_ALREADY_EXISTS, pf_emit pf (fun t => PfComplete t "Already installed") w)
  else
    let '(downloadPf, w) := pf_begin pf "Downloading hypervisor configuration" w in
    let w := emit FetchConfig w in
    let '(res, data) := hvConfig (host w) in
    if negb (HVE_eqb res HVE_OK) then
      if HVE_eqb res HVE_NOT_VALIDATED || HVE_eqb res HVE_NOT_TRUSTED then
        (res, pf_emit pf
                (fun t => PfFail t "Hypervisor configuration integrity check failed"
                            (Some res)) w)
      else
        (res, pf_emit pf
                (fun t => PfFail t "Unable to fetch hypervisor configuration"
                            (Some res)) w)
    else download_pack pf data w.

(** ** validateIntegrity *)

(** The scan of the lines of [--version]: whether the loop runs to its
    end (rather than returning false), and the value of
    [vboxDrvKernelLoaded] it leaves. *)
Fixpoint scan_version (out : list string) (drv : bool) : bool * bool :=
  match out with
  | [] => (true, drv)
  | sit :: rest =>
      if contains_text sit "WARNING" then
        if linux && contains_text sit "vboxdrv kernel module is not loaded" then
          if contains_text sit "ERROR" then (false, false)
          else scan_version rest false
        else (false, drv)
      else if contains_text sit "ERROR" then (false, drv)
      else scan_version rest drv
  end.

(** [VBoxInstance::validateIntegrity] *)
Definition validateIntegrity (w : World) : bool * World :=
  if negb (vboxExists (host w)) then (false, set_reflectionValid false w)
  else
    let '(r, w) := exec "--version" w in
    let drv0 := if linux then true else vboxDrvKernelLoaded w in
    let '(ok, drv) := scan_version (out_lines r) drv0 in
    let w := set_vboxDrvKernelLoaded drv w in
    if negb ok then (false, w)
    else if negb (String.eqb (err_text r) EmptyString) then (false, w)
    else
      let w :=
        match last (out_lines r) with
        | Some l => set_version (version_set U l) w
        | None => w
        end in
      let w := set_hvGuestAdditions EmptyString w in
      let '(r2, w) := exec "list systemproperties" w in
      let w :=
        if (exit_code r2 =? 0)%Z then
          match parseLines U (out_lines r2) !! "Default Guest Additions ISO" with
          | Some iso => set_hvGuestAdditions (systemPath U iso) w
          | None => w
          end
        else w in
      (true, set_reflectionValid true w).

(** ** waitTillReady *)

(** [ui->alert(...)]: [ui] is [true] when the caller passed a user
    interaction object. *)
Definition ui_alert (ui : bool) (title msg : string) (w : World) : result World :=
  if ui then Ok (emit (UiAlert title msg) w) else Throw null_dereference.

(** [system(cmdline)]: the repair command runs in a terminal; the
    hypervisor answers from [hv_after_setup] from then on. *)
Definition system (cmdline : string) (w : World) : Z * World :=
  let h := host w in
  (system_result h, set_host (set_hv_answer (hv_after_setup h) h)
                      (emit (System cmdline) w)).

Definition setup_hint : string :=
  Str.nl +:+ Str.nl +:+ "sudo /etc/init.d/vboxdrv setup".

(** The block under [#ifdef __linux__]: [true] to go on, [false] for
    [return false]. *)
Definition check_driver (pf : option Task) (ui : bool) (w : World)
  : result (bool * World) :=
  if negb linux || vboxDrvKernelLoaded w then Ok (true, w)
  else
    let refused :=
      if ui then negb (ui_confirm (host w)) else false in
    let w := if ui then emit (UiConfirm "Virtualbox kernel driver problem") w else w in
    if refused then
      let w := emit (UiAlert "Virtualbox kernel driver problem"
                 ("Try to run the following command and then try again:"
                    +:+ setup_hint)) w in
      Ok (false, pf_emit pf
                   (fun t => PfFail t "vboxdrv kernel module is not loaded" None) w)
    else if String.eqb (terminalCmdline (host w)) EmptyString then
      w ← ui_alert ui "Could not fix the problem"
            ("We could not open a terminal for you. Please run the following command and try again:"
               +:+ setup_hint) w;
      Ok (false, pf_emit pf
                   (fun t => PfFail t "Could not find a usable terminal emulator"
                               None) w)
    else
      let cmdline := terminalCmdline (host w) +:+ Str.dquote
                       +:+ "sudo /etc/init.d/vboxdrv setup" +:+ Str.dquote in
      let '(res, w) := system cmdline w in
      if (res <? 0)%Z then
        w ← ui_alert ui "Could not fix the problem"
              "Unable to install virtualbox kernel driver. Please make sure you have your linux kernel headers installed and try again." w;
        Ok (false, pf_emit pf
                     (fun t => PfFail t "Virtualbox driver installation failed"
                                 None) w)
      else
        let '(valid, w) := validateIntegrity w in
        if negb valid || negb (vboxDrvKernelLoaded w) then
          w ← ui_alert ui "Could not fix the problem"
                "Unable to install virtualbox kernel driver. Please try to uninstall and re-install Virtualbox manually!" w;
          Ok (false,
              pf_emit pf
                (fun t => PfFail t
                   "Could not validate hypervisor integrity after install" None) w)
        else Ok (true, w).

(** The delayed loading of the sessions. *)
Definition load_phase (pf : option Task) (w : World) : result World :=
  if negb (sessionLoaded w) then
    let '(pfLoading, w) := pf_begin pf "Loading sessions" w in
    '(_, w) ← loadSessions U pfLoading w;
    Ok (set_sessionLoaded true w)
  else Ok (pf_emit pf (fun t => PfDone t "Sessions are loaded") w).

(** "By the way, check if we have the extension pack installed", to
    the end of the function. *)
Definition extpack_phase (pf : option Task) (ui : bool) (w : World)
  : bool * World :=
  let '(has, w) := hasExtPack w in
  if negb has then
    let '(pfInstall, w) := pf_begin pf "Installing extension pack" w in
    let denied := if ui then negb (ui_confirmLicense (host w)) else false in
    let w :=
      if ui then
        emit (UiConfirmLicense
                "VirtualBox Personal Use and Evaluation License (PUEL)") w
      else w in
    if denied then
      (false,
       pf_emit pf (fun t => PfFail t "User denied Oracle PUEL license" None) w)
    else
      let '(_, w) := installExtPack pfInstall w in
      (true, pf_emit pf (fun t => PfComplete t "Hypervisor is ready") w)
  else
    let w := pf_emit pf (fun t => PfDone t "Extension pack is installed") w in
    (true, pf_emit pf (fun t => PfComplete t "Hypervisor is ready") w).

(** [VBoxInstance::waitTillReady] *)
Definition waitTillReady (pf : option Task) (ui : bool) (w : World)
  : result (bool * World) :=
  let w := pf_emit pf (fun t => PfSetMax t 3) w in
  '(go, w) ← check_driver pf ui w;
  if negb go then Ok (false, w)
  else
    let w := pf_emit pf (fun t => PfDone t "VirtualBox driver in place") w in
    w ← load_phase pf w;
    Ok (extpack_phase pf ui w).

End Readiness.

(* ================================================================== *)
(** * Facts about strings *)
(* ================================================================== *)

Module StrFacts.
Import Str.

Lemma starts_with_app p r : starts_with p (p +:+ r) = true.
Proof.
  induction p as [|a p IH]; simpl; [done|].
  by rewrite Ascii.eqb_refl, IH.
Qed.

Lemma starts_with_inv p s :
  starts_with p s = true -> s = p +:+ drop (String.length p) s.
Proof.
  revert s; induction p as [|a p IH]; intros [|b s]; simpl; try done.
  intros [Hab Hp]%andb_true_iff. apply Ascii.eqb_eq in Hab as ->.
  simpl. f_equal. by apply IH.
Qed.

Lemma starts_with_length p s :
  starts_with p s = true -> String.length p <= String.length s.
Proof.
  revert s; induction p as [|a p IH]; intros [|b s]; simpl; try done; try lia.
  intros [_ Hp]%andb_true_iff. apply IH in Hp. lia.
Qed.

Lemma length_app a b :
  String.length (a +:+ b) = String.length a + String.length b.
Proof. induction a; simpl; congruence. Qed.

Lemma length_drop n s : String.length (drop n s) = String.length s - n.
Proof. revert s; induction n; intros [|c s]; simpl; auto. Qed.

Lemma length_take n s : String.length (take n s) = min n (String.length s).
Proof. revert s; induction n; intros [|c s]; simpl; auto. Qed.

Lemma take_drop n s : take n s +:+ drop n s = s.
Proof. revert s; induction n; intros [|c s]; simpl; auto. by rewrite IHn. Qed.

Lemma drop_app a b : drop (String.length a) (a +:+ b) = b.
Proof. induction a; simpl; auto. Qed.

Lemma take_app a b : take (String.length a) (a +:+ b) = a.
Proof. induction a; simpl; auto. by rewrite IHa. Qed.

Lemma drop_drop n m s : drop n (drop m s) = drop (m + n) s.
Proof.
  revert s; induction m; intros s; simpl; [done|].
  destruct s; simpl; [by destruct n|]. apply IHm.
Qed.

Lemma occurs_at_bound p s i :
  occurs_at p s i -> i + String.length p <= String.length s.
Proof.
  intros [Hi Hp]. apply starts_with_length in Hp.
  rewrite length_drop in Hp. lia.
Qed.

(** [p] occurs at offset [i] exactly when [s] splits around it there. *)
Lemma occurs_at_split p s i :
  occurs_at p s i <-> exists a b, s = a +:+ p +:+ b /\ String.length a = i.
Proof.
  split.
  - intros [Hi Hp]. exists (take i s), (drop (String.length p) (drop i s)).
    split.
    + rewrite <- (starts_with_inv _ _ Hp). by rewrite take_drop.
    + rewrite length_take. lia.
  - intros (a & b & -> & <-). split.
    + rewrite length_app. lia.
    + rewrite drop_app. apply starts_with_app.
Qed.

(** [find] returns the first occurrence. *)
Lemma find_Some s p i :
  find s p = Some i ->
  occurs_at p s i /\ forall j, j < i -> ~ occurs_at p s j.
Proof.
  revert i; induction s as [|c s IH]; intros i; simpl.
  - destruct (starts_with p "") eqn:E; [|done].
    intros [= <-]. split; [by split|]. intros j Hj; lia.
  - destruct (starts_with p (String c s)) eqn:E.
    + intros [= <-]. split; [split; [simpl; lia|done]|]. intros j Hj; lia.
    + destruct (find s p) as [k|] eqn:Ek; simpl; [|done].
      intros [= <-]. destruct (IH k eq_refl) as [[Hk Hp] Hfirst]. split.
      * split; [simpl; lia|done].
      * intros [|j] Hj [Hj1 Hj2]; simpl in *; [congruence|].
        apply (Hfirst j); [lia|]. split; [lia|done].
Qed.

Lemma find_None s p : find s p = None -> forall j, ~ occurs_at p s j.
Proof.
  induction s as [|c s IH]; simpl.
  - destruct (starts_with p "") eqn:E; [done|].
    intros _ [|j] [Hj Hp]; simpl in *; [congruence|lia].
  - destruct (starts_with p (String c s)) eqn:E; [done|].
    destruct (find s p) eqn:Ek; simpl; [done|].
    intros _ [|j] [Hj Hp]; simpl in *; [congruence|].
    apply (IH eq_refl j). split; [lia|done].
Qed.

(** A text that occurs somewhere is found. *)
Lemma find_is_Some s p a b : s = a +:+ p +:+ b -> is_Some (find s p).
Proof.
  intros Hs. destruct (find s p) eqn:E; [by eexists|].
  exfalso. apply (find_None _ _ E (String.length a)).
  apply occurs_at_split. by exists a, b.
Qed.

Lemma size_t_small z : (0 <= z < 2 ^ 64)%Z -> size_t z = z.
Proof. intros. unfold size_t. by apply Z.mod_small. Qed.


(** [substr] to the end of the string. *)
Lemma substr_to_end s (a : nat) n :
  a <= String.length s -> (Z.of_nat (String.length s) <= n)%Z ->
  substr s (Z.of_nat a) n = Ok (drop a s).
Proof.
  intros H Hn. unfold substr, size.
  destruct (Z.ltb_spec (Z.of_nat (String.length s)) (Z.of_nat a)); [lia|].
  rewrite Nat2Z.id. f_equal.
  rewrite <- (take_drop (Z.to_nat (Z.of_nat (String.length s) - Z.of_nat a)) (drop a s)) at 2.
  rewrite Z.min_r by lia.
  assert (Hd: drop (Z.to_nat (Z.of_nat (String.length s) - Z.of_nat a)) (drop a s) = "").
  { rewrite drop_drop.
    assert (Hl: String.length (drop (a + Z.to_nat (Z.of_nat (String.length s) - Z.of_nat a)) s) = 0)
      by (rewrite length_drop; lia).
    by destruct (drop _ s). }
  rewrite Hd. clear. generalize (take (Z.to_nat (Z.of_nat (String.length s) - Z.of_nat a)) (drop a s)).
  induction s0; simpl; congruence.
Qed.

(** [substr] returns when the position is not past the end. *)
Lemma substr_defined s pos n :
  (pos <= size s)%Z -> exists r, substr s pos n = Ok r.
Proof.
  intros H. unfold substr. destruct (Z.ltb_spec (size s) pos); [lia|eauto].
Qed.

End StrFacts.

(* ================================================================== *)
(** * Sample worlds *)
(* ================================================================== *)

(** Stand-ins for the absent helpers, used where a statement is
    evaluated on a concrete world: whitespace splitting and hexadecimal
    reading are written out, the rest is inert. *)
Module Sample.

Fixpoint split_ws (s : string) (cur : string) : list string :=
  match s with
  | EmptyString => if String.eqb cur "" then [] else [cur]
  | String c s' =>
      if Ascii.eqb c " " || Ascii.eqb c (ascii_of_nat 9) then
        (if String.eqb cur "" then [] else [cur]) ++ split_ws s' ""
      else split_ws s' (cur +:+ String c "")
  end.

Definition hex_digit (c : ascii) : Z :=
  let n := Z.of_nat (nat_of_ascii c) in
  if (48 <=? n)%Z && (n <=? 57)%Z then n - 48
  else if (97 <=? n)%Z && (n <=? 102)%Z then n - 87
  else if (65 <=? n)%Z && (n <=? 70)%Z then n - 55
  else 0.

Fixpoint hex_value (s : string) (acc : Z) : Z :=
  match s with
  | EmptyString => acc
  | String c s' => hex_value s' (16 * acc + hex_digit c)
  end.

Definition utilities : Utilities :=
  mkUtilities (fun _ _ => []) (fun line => split_ws line "")
    (fun s => hex_value s 0) (fun _ => 0%Z) (fun _ => ∅) (fun s => s)
    (fun s => s) "/tmp" (fun s => mkVersion 4 3 12 s) (fun _ => SS_CREATED).

Definition no_answer : string -> ExecResult := fun _ => mkExec 0 [] "".

(** A host whose hypervisor answers every command with [answer], with
    the descriptors [d], no extension pack and a consenting user. *)
Definition host_with (answer : string -> ExecResult) (d : list (string * Config))
  : Host :=
  mkHost true answer [] (0%Z, ["Pack no. 1: Oracle VM VirtualBox Extension Pack"])
    d [] (HVE_OK, ∅) HVE_OK (fun _ => "") true true "xterm -e " 0%Z answer.

Definition blank_session : HVSession := mkHVSession "" ∅ SS_MISSING 0.

(** An instance that has just been constructed. *)
Definition fresh (h : Host) : World :=
  mkWorld [] [] false true true (mkVersion 4 3 12 "4.3.12") ""
    (fun _ => blank_session) 0 h [].

End Sample.

(* ================================================================== *)
(** * Guest properties: statements *)
(* ================================================================== *)

(** [p] occurs somewhere in [s]. *)
Definition has_text (s p : string) : Prop := exists a b, s = a +:+ p +:+ b.



(** The command line of [getProperty]. *)
Definition getProperty_cmd (uuid name : string) : string :=
  "guestproperty get " +:+ uuid +:+ " " +:+ Str.dquote +:+ name +:+ Str.dquote.


(** A hypervisor that prints the value line without anything after the
    colon. *)
Definition bare_value_host : Host :=
  Sample.host_with (fun _ => mkExec 0 ["Value:"] "") [].

(** A hypervisor that prints one well-formed property line. *)
Definition foo_bar_host : Host :=
  Sample.host_with
    (fun _ => mkExec 0 ["Name: foo, value: bar, timestamp: 123"] "") [].



Section PropertyFacts.
Import Str StrFacts.


Lemma has_text_find s p : has_text s p <-> is_Some (find s p).
Proof.
  split.
  - intros (a & b & Hs). by eapply find_is_Some.
  - intros [i Hi]. apply find_Some in Hi as [Hi _].
    apply occurs_at_split in Hi as (a & b & Hs & _). by exists a, b.
Qed.


(** A query that is neither the pack listing nor the installer is
    answered by the hypervisor as it is. *)
Lemma exec_query cmd w :
  String.eqb cmd "list extpacks" = false ->
  starts_with "extpack install " cmd = false ->
  exec cmd w = (hv_answer (host w) cmd, emit (Exec cmd) w).
Proof. intros H1 H2. unfold exec. by rewrite H1, H2. Qed.

Lemma take_min n s : take (Nat.min n (String.length s)) s = take n s.
Proof. revert s; induction n; intros [|c s]; simpl; auto. by rewrite IHn. Qed.

Lemma substr_head s (n : nat) : substr s 0 (Z.of_nat n) = Ok (take n s).
Proof.
  unfold substr, size. destruct (Z.ltb_spec (Z.of_nat (String.length s)) 0); [lia|].
  simpl. f_equal. rewrite Z.sub_0_r, <- Nat2Z.inj_min, Nat2Z.id. apply take_min.
Qed.

Lemma eqb_take_prefix p s :
  String.eqb (take (String.length p) s) p = starts_with p s.
Proof.
  revert s; induction p as [|a p IH]; intros [|b s]; simpl; try done.
  rewrite (Ascii.eqb_sym b a). by rewrite IH.
Qed.

(** [getProperty] answers the empty string when the query fails, prints
    nothing, or prints a first line that does not begin with "Value:". *)
Lemma getProperty_empty uuid name w :
  let r := hv_answer (host w) (getProperty_cmd uuid name) in
  exit_code r <> 0%Z \/ out_lines r = [] \/
    (exists l rest, out_lines r = l :: rest /\ starts_with "Value:" l = false) ->
  getProperty uuid name w = Ok ("", emit (Exec (getProperty_cmd uuid name)) w).
Proof.
  intros r H. unfold getProperty. fold (getProperty_cmd uuid name).
  rewrite exec_query by done. fold r.
  destruct (Z.eqb_spec (exit_code r) 0) as [E|E]; simpl; [|done].
  destruct H as [H|[H|(l & rest & H & Hl)]]; [done|by rewrite H|].
  rewrite H. change 6%Z with (Z.of_nat (String.length "Value:")).
  rewrite substr_head, bind_Ok. by rewrite eqb_take_prefix, Hl.
Qed.

(** [getProperty] answers what follows the first seven characters of a
    first line that begins with "Value:" and has that many (the length
    of a string is within [size_t]). *)
Lemma getProperty_value uuid name w l rest :
  let r := hv_answer (host w) (getProperty_cmd uuid name) in
  exit_code r = 0%Z -> out_lines r = l :: rest ->
  starts_with "Value:" l = true -> 7 <= String.length l ->
  (size l <= npos)%Z ->
  getProperty uuid name w
  = Ok (drop 7 l, emit (Exec (getProperty_cmd uuid name)) w).
Proof.
  intros r E H Hl Hlen Hsz. unfold getProperty. fold (getProperty_cmd uuid name).
  rewrite exec_query by done. fold r. rewrite E, H. simpl negb. cbv iota.
  change 6%Z with (Z.of_nat (String.length "Value:")).
  rewrite substr_head, bind_Ok, eqb_take_prefix, Hl. unfold substr_from.
  change 7%Z with (Z.of_nat 7). by rewrite substr_to_end; [|lia|].
Qed.

(** [getProperty] throws when the first line is "Value:" and no more. *)
Lemma getProperty_throws uuid name w rest :
  let r := hv_answer (host w) (getProperty_cmd uuid name) in
  exit_code r = 0%Z -> out_lines r = "Value:" :: rest ->
  getProperty uuid name w = Throw out_of_range.
Proof.
  intros r E H. unfold getProperty. fold (getProperty_cmd uuid name).
  rewrite exec_query by done. fold r. by rewrite E, H.
Qed.

(** C10, evaluated where the code departs from it: the query succeeds
    and prints the line "Value:" with nothing after the colon; the
    prefix test passes, [substr(7)] is asked for a position past the
    end of a six-character string, and [getProperty] ends with
    [std::out_of_range] instead of returning a string. *)
Theorem getProperty_bare_value_throws :
  getProperty "b7a1" "/VirtualBox/GuestInfo/OS/Product"
    (Sample.fresh bare_value_host)
  = Throw out_of_range.
Proof. reflexivity. Qed.

(** ** getAllProperties *)








End PropertyFacts.

(* ================================================================== *)
(** * Capabilities: statements *)
(* ================================================================== *)



(** The fields of [line] when it is a row of [leaf]. *)
Definition row_of (U : Utilities) (leaf line : string) : option (list string) :=
  match trimSplit U line with
  | [] => None
  | p0 :: ps => if String.eqb p0 leaf then Some (p0 :: ps) else None
  end.

(** The last row of [leaf] in the listing: the one whose values stay. *)
Fixpoint last_row (U : Utilities) (leaf : string) (lines : list string)
  : option (list string) :=
  match lines with
  | [] => None
  | line :: rest =>
      match last_row U leaf rest with
      | Some row => Some row
      | None => row_of U leaf line
      end
  end.

(** A row of one of the three leaves that are read carries the leaf and
    the four registers. *)
Definition row_ok (U : Utilities) (line : string) : Prop :=
  forall leaf, In leaf ["00000000"; "00000001"; "80000001"] ->
    forall row, row_of U leaf line = Some row -> 5 <= length row.



(** The rows VBoxManage prints on an Intel host with VT-x and long mode. *)
Definition intel_rows : list string :=
  ["Host CPUIDs:";
   "";
   "Leaf no.  EAX      EBX      ECX      EDX";
   "00000000  0000000d 756e6547 6c65746e 49656e69";
   "00000001  000306a9 02100800 7fbae3ff bfebfbff";
   "80000001  00000000 00000000 00000001 28100800"].

Definition intel_host : Host :=
  Sample.host_with (fun _ => mkExec 0 intel_rows "") [].

Definition blank_caps : HVINFO_CAPS :=
  mkCaps (mkCpuid (replicate 13 0%Z) 0 0 0 0 0 0 0 0 0 0 false false false) 0 0 0.

Section CapabilityFacts.

Local Open Scope Z_scope.








Lemma put4_length i v a : length (put4 i v a) = length a.
Proof. unfold put4. by rewrite !length_insert. Qed.

Local Close Scope Z_scope.

Context (U : Utilities).




End CapabilityFacts.


Example intel_vendor :
  match getCapabilities Sample.utilities blank_caps (Sample.fresh intel_host) with
  | Ok (code, caps', _) =>
      Some (code, vendor (cpu caps'), hasVT (cpu caps'), has64bit (cpu caps'))
  | Throw _ => None
  end
  = Some (HVE_OK,
          [71; 101; 110; 117; 105; 110; 101; 73; 110; 116; 101; 108; 0]%Z,
          true, false).
Proof. vm_compute. reflexivity. Qed.

(* ================================================================== *)
(** * The registry: statements *)
(* ================================================================== *)

(** The hypervisor identity of a session: its "vboxid" parameter. *)
Definition vboxid_of (w : World) (p : ptr) : string :=
  Cfg.get (parameters (deref w p)) "vboxid".

(** The session is in the registry, under its uuid. *)
Definition registered (w : World) (p : ptr) : Prop :=
  is_Some (Reg.find (sessions w) (uuid (deref w p))).

(** Every session of the open list is in the registry. *)
Definition open_in_registry (w : World) : Prop :=
  forall p, p ∈ openSessions w -> registered w p.

(** No session of the registry lacks its VM in the map of live VMs. *)
Definition no_orphans (vboxVms : gmap string string) (w : World) : Prop :=
  forall k p, (k, p) ∈ sessions w -> is_Some (vboxVms !! vboxid_of w p).

(** The order of [std::string]: [operator<]. *)
Definition str_lt (a b : string) : Prop := String.compare a b = Lt.

(** The uuids of a list of sessions. *)
Definition uuids (w : World) (l : list ptr) : list string :=
  (fun p => uuid (deref w p)) <$> l.

(** The list of open sessions without the first one whose uuid is [u]. *)
Definition erase_open (w : World) (u : string) (l : list ptr) : list ptr :=
  match find_open w u l with
  | Some jt => delete jt l
  | None => l
  end.

(** What holds of the object graph between two operations: the registry
    is a map (keys ascending), it files every session under the uuid of
    the session, handles point into the store, the open list holds
    sessions of the registry, one per uuid. *)
Record consistent (w : World) : Prop := mkConsistent {
  reg_sorted : StronglySorted str_lt (sessions w).*1;
  reg_keys : forall k p, (k, p) ∈ sessions w -> p < next w /\ uuid (deref w p) = k;
  open_alloc : forall p, p ∈ openSessions w -> p < next w;
  open_reg : open_in_registry w;
  open_nodup : NoDup (uuids w (openSessions w));
}.

(** All counters of open handles are at least zero. *)
Definition counts_nonneg (w : World) : Prop :=
  forall p, (0 <= instances (deref w p))%Z.

Section RegFacts.

Lemma ascii_compare_lt_trans a b c :
  Ascii.compare a b = Lt -> Ascii.compare b c = Lt -> Ascii.compare a c = Lt.
Proof.
  unfold Ascii.compare. rewrite !N.compare_lt_iff. apply N.lt_trans.
Qed.

Lemma compare_refl s : String.compare s s = Eq.
Proof.
  pose proof (String.compare_antisym s s) as H.
  by destruct (String.compare s s).
Qed.

Lemma str_lt_trans a b c : str_lt a b -> str_lt b c -> str_lt a c.
Proof.
  unfold str_lt. revert b c; induction a as [|x a IH]; intros [|y b] [|z c];
    simpl; try done.
  destruct (Ascii.compare x y) eqn:Exy; try done;
    destruct (Ascii.compare y z) eqn:Eyz; try done.
  - apply Ascii.compare_eq_iff in Exy as ->, Eyz as ->.
    rewrite (proj2 (N.compare_eq_iff _ _) eq_refl : Ascii.compare z z = Eq).
    apply IH.
  - apply Ascii.compare_eq_iff in Exy as ->. by rewrite Eyz.
  - apply Ascii.compare_eq_iff in Eyz as <-. by rewrite Exy.
  - by rewrite (ascii_compare_lt_trans _ _ _ Exy Eyz).
Qed.

Lemma str_lt_irrefl a : ~ str_lt a a.
Proof. unfold str_lt. by rewrite compare_refl. Qed.

Lemma compare_cases k k' :
  (String.compare k k' = Eq /\ k = k') \/
  (str_lt k k' /\ k <> k') \/ (str_lt k' k /\ k <> k').
Proof.
  destruct (String.compare k k') eqn:E.
  - left. split; [done|]. by apply String.compare_eq_iff.
  - right; left. split; [done|]. intros ->. by rewrite compare_refl in E.
  - right; right. rewrite String.compare_antisym in E.
    unfold str_lt. destruct (String.compare k' k) eqn:E'; try done.
    split; [done|]. intros ->. by rewrite compare_refl in E'.
Qed.

Lemma find_assign m k p x :
  Reg.find (Reg.assign m k p) x = if String.eqb x k then Some p else Reg.find m x.
Proof.
  induction m as [|[k' p'] m IH]; simpl; [done|].
  destruct (compare_cases k k') as [[E ->]|[[E N]|[E N]]].
  - rewrite E. simpl. by destruct (String.eqb x k').
  - rewrite E. simpl. by destruct (String.eqb x k).
  - unfold str_lt in E. rewrite String.compare_antisym, E. simpl. rewrite IH.
    destruct (String.eqb_spec x k') as [->|]; [|done].
    by rewrite (proj2 (String.eqb_neq _ _)).
Qed.

Lemma elem_of_assign m k p e : e ∈ Reg.assign m k p -> e = (k, p) \/ e ∈ m.
Proof.
  induction m as [|[k' p'] m IH]; simpl.
  - intros ->%list_elem_of_singleton. by left.
  - destruct (String.compare k k'); rewrite ?elem_of_cons; naive_solver.
Qed.

Lemma elem_of_assign_new m k p : (k, p) ∈ Reg.assign m k p.
Proof.
  induction m as [|[k' p'] m IH]; simpl; [by left|].
  destruct (String.compare k k'); [by left|by left|by right].
Qed.

Lemma find_elem_of m k p : Reg.find m k = Some p -> (k, p) ∈ m.
Proof.
  induction m as [|[k' p'] m IH]; simpl; [done|].
  destruct (String.eqb_spec k k') as [->|]; [intros [= ->]; by left|].
  intros H. right. by apply IH.
Qed.

Lemma elem_of_find m k p : (k, p) ∈ m -> is_Some (Reg.find m k).
Proof.
  induction m as [|[k' p'] m IH]; [by intros ?%elem_of_nil|].
  intros [[= <- <-]|H]%elem_of_cons; simpl.
  - rewrite String.eqb_refl. by eexists.
  - destruct (String.eqb k k'); [by eexists|by apply IH].
Qed.

Lemma find_is_Some_key m k : is_Some (Reg.find m k) <-> k ∈ m.*1.
Proof.
  split.
  - intros [p Hp%find_elem_of]. apply list_elem_of_fmap. by exists (k, p).
  - intros ([k' p] & -> & H)%list_elem_of_fmap. by eapply elem_of_find.
Qed.

Lemma elem_of_erase m k e : e ∈ Reg.erase m k -> e ∈ m.
Proof.
  induction m as [|[k' p'] m IH]; simpl; [done|].
  destruct (String.eqb k k'); rewrite ?elem_of_cons; naive_solver.
Qed.

Lemma find_erase_ne m k x : x <> k -> Reg.find (Reg.erase m k) x = Reg.find m x.
Proof.
  intros N. induction m as [|[k' p'] m IH]; simpl; [done|].
  destruct (String.eqb_spec k k') as [<-|]; simpl.
  - by rewrite (proj2 (String.eqb_neq _ _) N).
  - by rewrite IH.
Qed.

Lemma length_erase m k :
  is_Some (Reg.find m k) -> S (length (Reg.erase m k)) = length m.
Proof.
  induction m as [|[k' p'] m IH]; simpl; [by intros [? ?]|].
  destruct (String.eqb k k'); [done|]. intros H. simpl. by rewrite IH.
Qed.

Lemma erase_id m k : Reg.find m k = None -> Reg.erase m k = m.
Proof.
  induction m as [|[k' p'] m IH]; simpl; [done|].
  destruct (String.eqb k k'); [done|]. intros H. by rewrite IH.
Qed.

Lemma sorted_assign m k p :
  StronglySorted str_lt m.*1 -> StronglySorted str_lt (Reg.assign m k p).*1.
Proof.
  induction m as [|[k' p'] m IH]; simpl; intros Hs.
  - repeat constructor.
  - apply StronglySorted_inv in Hs as [Hs Hall].
    destruct (compare_cases k k') as [[E ->]|[[E N]|[E N]]].
    + rewrite E. simpl. by constructor.
    + rewrite E. simpl. constructor; [by constructor|].
      constructor; [done|]. eapply Forall_impl; [done|].
      intros x Hx. by eapply str_lt_trans.
    + unfold str_lt in E. rewrite String.compare_antisym, E. simpl.
      constructor; [by apply IH|].
      apply Forall_forall. intros x ([x' q] & -> & Hin)%list_elem_of_fmap.
      apply elem_of_assign in Hin as [[= -> ->]|Hin]; [done|].
      rewrite Forall_forall in Hall. apply Hall.
      apply list_elem_of_fmap. by exists (x', q).
Qed.

Lemma sorted_erase m k :
  StronglySorted str_lt m.*1 -> StronglySorted str_lt (Reg.erase m k).*1.
Proof.
  induction m as [|[k' p'] m IH]; simpl; intros Hs; [done|].
  apply StronglySorted_inv in Hs as [Hs Hall].
  destruct (String.eqb k k'); [done|]. simpl. constructor; [by apply IH|].
  apply Forall_forall. intros x ([x' q] & -> & Hin)%list_elem_of_fmap.
  rewrite Forall_forall in Hall. apply Hall.
  apply list_elem_of_fmap. exists (x', q). split; [done|]. by eapply elem_of_erase.
Qed.

(** In a map, erasing a key leaves no entry for it. *)
Lemma find_erase_eq m k :
  StronglySorted str_lt m.*1 -> Reg.find (Reg.erase m k) k = None.
Proof.
  induction m as [|[k' p'] m IH]; simpl; intros Hs; [done|].
  apply StronglySorted_inv in Hs as [Hs Hall].
  destruct (String.eqb_spec k k') as [<-|N]; simpl.
  - destruct (Reg.find m k) eqn:E; [|done].
    apply find_elem_of in E. rewrite Forall_forall in Hall.
    destruct (str_lt_irrefl k). apply Hall. apply list_elem_of_fmap.
    by eexists (k, _).
  - rewrite (proj2 (String.eqb_neq _ _) N). by apply IH.
Qed.

End RegFacts.

(** Two worlds that give every handle the same uuid. *)
Definition uuid_same (w w' : World) : Prop :=
  forall p, uuid (deref w' p) = uuid (deref w p).

Section OpenListFacts.

Lemma erase_open_cons w u p l :
  erase_open w u (p :: l)
  = if String.eqb u (uuid (deref w p)) then l else p :: erase_open w u l.
Proof.
  unfold erase_open. simpl. destruct (String.eqb u _); [done|].
  by destruct (find_open w u l).
Qed.

Lemma find_open_ext w w' u l :
  uuid_same w w' -> find_open w' u l = find_open w u l.
Proof. intros H. induction l as [|p l IH]; simpl; [done|]. by rewrite H, IH. Qed.

Lemma erase_open_ext w w' u l :
  uuid_same w w' -> erase_open w' u l = erase_open w u l.
Proof. intros H. unfold erase_open. by rewrite (find_open_ext w w'). Qed.

Lemma uuids_ext w w' l : uuid_same w w' -> uuids w' l = uuids w l.
Proof. intros H. unfold uuids. apply list_fmap_ext. intros _ p _. apply H. Qed.

Lemma find_open_None w u l : find_open w u l = None <-> u ∉ uuids w l.
Proof.
  induction l as [|p l IH]; simpl.
  - split; [intros _ ?%elem_of_nil; done|done].
  - rewrite not_elem_of_cons.
    destruct (String.eqb_spec u (uuid (deref w p))) as [->|N].
    + split; [done|]. by intros [? _].
    + destruct (find_open w u l); simpl; naive_solver.
Qed.

Lemma erase_open_sublist w u l : erase_open w u l `sublist_of` l.
Proof.
  unfold erase_open. destruct (find_open w u l); [apply sublist_delete|done].
Qed.

Lemma erase_open_gone w u l : NoDup (uuids w l) -> u ∉ uuids w (erase_open w u l).
Proof.
  induction l as [|p l IH]; [intros _ ?%elem_of_nil; done|].
  rewrite erase_open_cons. simpl. intros [Hp Hl]%NoDup_cons.
  destruct (String.eqb_spec u (uuid (deref w p))) as [->|N]; [done|].
  simpl. rewrite not_elem_of_cons. split; [done|by apply IH].
Qed.

Lemma sublist_uuids w l1 l2 :
  l1 `sublist_of` l2 -> uuids w l1 `sublist_of` uuids w l2.
Proof. intros H. unfold uuids. by apply fmap_sublist. Qed.

(** The position the scan of step 4 erases is a sublist step too. *)
Lemma length_delete_lt {A} (l : list A) i x :
  l !! i = Some x -> S (length (delete i l)) = length l.
Proof. intros H. rewrite length_delete by by eexists. apply lookup_lt_Some in H. lia. Qed.

End OpenListFacts.

Section SessionFacts.

(** What [sessionDelete] leaves of the instance. *)
Lemma sessionDelete_fields session w :
  let u := uuid (deref w session) in
  let w' := sessionDelete session w in
  heap w' = heap w /\ next w' = next w /\
  sessions w' = Reg.erase (sessions w) u /\
  openSessions w'
  = (if Reg.find (sessions w) u is Some _
     then erase_open w u (openSessions w) else openSessions w).
Proof.
  unfold sessionDelete, erase_open. simpl.
  destruct (Reg.find (sessions w) (uuid (deref w session))) eqn:E.
  - by destruct (find_open w _ (openSessions w)).
  - by rewrite erase_id.
Qed.

(** Changes that keep a world consistent: the registry and the store
    limit stay, no uuid changes, the open list loses elements at most. *)
Lemma consistent_ext w w' :
  consistent w -> sessions w' = sessions w -> next w' = next w ->
  uuid_same w w' -> openSessions w' `sublist_of` openSessions w ->
  consistent w'.
Proof.
  intros [Hs Hk Ha Hr Hn] Es En Eu Ho. split.
  - by rewrite Es.
  - intros k p. rewrite Es, En. unfold deref in *. rewrite Eu. apply Hk.
  - intros p Hp. rewrite En. apply Ha. by eapply elem_of_sublist.
  - intros p Hp. unfold registered. rewrite Es. unfold deref in *. rewrite Eu.
    apply Hr. by eapply elem_of_sublist.
  - rewrite (uuids_ext w w') by done. eapply sublist_NoDup; [done|by apply sublist_uuids].
Qed.


(** [sessionClose], with the scan of the open list read off [erase_open]. *)
Lemma sessionClose_eq session w :
  let s := deref w session in
  let n := (instances s - 1)%Z in
  let w1 := store session (set_instances n s) w in
  let w3 := set_openSessions (erase_open w (uuid s) (openSessions w))
              (emit (SessionAbort session) w1) in
  sessionClose session w
  = if (0 <? n)%Z then w1
    else if is_missing (local_state s) then sessionDelete session w3 else w3.
Proof.
  intros s n w1 w3. unfold sessionClose. fold s n w1.
  destruct (0 <? n)%Z; [done|].
  assert (E: find_open (emit (SessionAbort session) w1) (uuid s)
               (openSessions (emit (SessionAbort session) w1))
             = find_open w (uuid s) (openSessions w)).
  { apply find_open_ext. intros p. unfold deref, w1, emit, store. simpl.
    by destruct (Nat.eqb_spec p session) as [->|]. }
  rewrite E. unfold w3, erase_open.
  destruct (find_open w (uuid s) (openSessions w)); unfold deref; simpl;
    by rewrite Nat.eqb_refl.
Qed.

Lemma store_uuid_same p s w :
  uuid s = uuid (deref w p) -> uuid_same w (store p s w).
Proof.
  intros E q. unfold deref, store. simpl.
  by destruct (Nat.eqb_spec q p) as [->|].
Qed.

Lemma sessionClose_uuid_same session w : uuid_same w (sessionClose session w).
Proof.
  rewrite sessionClose_eq.
  set (w1 := store session _ w).
  assert (H1: uuid_same w w1) by by apply store_uuid_same.
  destruct (0 <? _)%Z; [done|].
  match goal with |- context [sessionDelete session ?x] => set (w3 := x) end.
  destruct (is_missing _); [|done].
  intros p. destruct (sessionDelete_fields session w3) as (Eh & _).
  unfold deref. rewrite Eh. apply H1.
Qed.


Context (U : Utilities).

(** What [allocateSession] does to the instance. *)
Lemma allocateSession_fields guid w :
  let p := (allocateSession U guid w).1 in
  let w' := (allocateSession U guid w).2 in
  p = next w /\ next w' = S (next w) /\
  sessions w' = Reg.assign (sessions w) guid p /\
  openSessions w' = openSessions w /\
  (forall q, q <> p -> heap w' q = heap w q) /\
  uuid (heap w' p) = guid /\ instances (heap w' p) = 0%Z.
Proof.
  unfold allocateSession, make_session, store, new_session. simpl.
  repeat split; try done.
  - intros q Hq. by destruct (Nat.eqb_spec q (next w)).
  - rewrite Nat.eqb_refl. simpl. unfold Cfg.get, Cfg.get_or, Cfg.set.
    by rewrite lookup_insert_eq.
  - by rewrite Nat.eqb_refl.
Qed.

Lemma consistent_allocate guid w :
  consistent w -> consistent (allocateSession U guid w).2.
Proof.
  intros [Hs Hk Ha Hr Hn].
  destruct (allocateSession_fields guid w) as (Ep & En & Es & Eo & Eh & Eu & _).
  set (p := (allocateSession U guid w).1) in *.
  set (w' := (allocateSession U guid w).2) in *.
  assert (Hold: forall q, q < next w -> heap w' q = heap w q)
    by (intros q Hq; apply Eh; lia).
  split.
  - rewrite Es. by apply sorted_assign.
  - intros k q. rewrite Es, En. intros [[= -> ->]|H]%elem_of_assign.
    + split; [lia|done].
    + destruct (Hk k q H) as [Hq Hu]. unfold deref in *.
      rewrite Hold by done. split; [lia|done].
  - intros q. rewrite Eo, En. intros Hq%Ha. lia.
  - intros q. rewrite Eo. intros Hq. unfold registered, deref.
    rewrite Es, find_assign, Hold by by apply Ha.
    destruct (String.eqb _ guid); [by eexists|by apply Hr].
  - rewrite Eo. replace (uuids w' (openSessions w)) with (uuids w (openSessions w));
      [done|].
    unfold uuids. apply list_fmap_ext. intros _ q Hq%list_elem_of_lookup_2.
    unfold deref. by rewrite Hold by by apply Ha.
Qed.

(** The second half of [sessionOpen]: the counter, the refreshed state
    and the entry in the open list. *)
Lemma consistent_checkout w1 sess s' :
  consistent w1 -> sess < next w1 -> registered w1 sess ->
  uuid s' = uuid (deref w1 sess) ->
  let w2 := store sess s' w1 in
  consistent
    (match find_open w2 (uuid (deref w1 sess)) (openSessions w2) with
     | Some _ => w2
     | None => set_openSessions (openSessions w2 ++ [sess]) w2
     end).
Proof.
  intros C1 Hlt Hreg Hu w2.
  assert (H2: uuid_same w1 w2) by by apply store_uuid_same.
  assert (C2: consistent w2) by by apply (consistent_ext w1).
  destruct (find_open w2 _ _) eqn:E; [done|].
  apply find_open_None in E. destruct C2 as [Hs Hk Ha Hr Hn]. split; simpl.
  - done.
  - apply Hk.
  - intros p [Hp| ->%list_elem_of_singleton]%elem_of_app; [by apply Ha|done].
  - intros p [Hp| ->%list_elem_of_singleton]%elem_of_app; [by apply Hr|].
    unfold registered in *.
    change (is_Some (Reg.find (sessions w1) (uuid (deref w2 sess)))).
    by rewrite (H2 sess).
  - change (NoDup (uuids w2 (openSessions w2 ++ [sess]))).
    unfold uuids in *. rewrite fmap_app. apply NoDup_app. split; [done|].
    split; [|apply NoDup_singleton].
    intros x Hx ->%list_elem_of_singleton. apply E. by rewrite <- (H2 sess).
Qed.

Lemma consistent_open id refreshed w :
  consistent w -> consistent (sessionOpen U id refreshed w).2.
Proof.
  intros Hc. unfold sessionOpen.
  destruct (Reg.find (sessions w) id) as [sess|] eqn:E.
  - apply find_elem_of in E. destruct (reg_keys w Hc _ _ E) as [Hlt Hu].
    simpl. apply consistent_checkout; try done.
    unfold registered. rewrite Hu. by eapply elem_of_find.
  - destruct (allocateSession_fields id w) as (Ep & En & Es & Eo & Eh & Eu & _).
    pose proof (consistent_allocate id w Hc) as C1.
    destruct (allocateSession U id w) as [sess w1]. simpl in *.
    apply consistent_checkout; try done.
    + lia.
    + unfold registered, deref. rewrite Eu, Es, find_assign, String.eqb_refl.
      by eexists.
Qed.

End SessionFacts.


(** A host whose hypervisor refuses every command. *)
Definition failing_host : Host :=
  Sample.host_with (fun _ => mkExec 1 [] "VBoxManage: error") [].

(** The instance after a session has been opened under the name "a". *)
Definition one_open_session : World :=
  (sessionOpen Sample.utilities "a" SS_CREATED (Sample.fresh failing_host)).2.


Lemma fresh_consistent h : consistent (Sample.fresh h).
Proof.
  split; simpl.
  - constructor.
  - by intros k p ?%elem_of_nil.
  - by intros p ?%elem_of_nil.
  - by intros p ?%elem_of_nil.
  - constructor.
Qed.



Section CloseFacts.

Context (U : Utilities).

Lemma is_missing_true s : is_missing s = true <-> s = SS_MISSING.
Proof. by destruct s. Qed.

Lemma sessionDelete_log session w e :
  e ∈ log w -> e ∈ log (sessionDelete session w).
Proof.
  intros H. unfold sessionDelete. destruct (Reg.find _ _); [|done].
  destruct (find_open _ _ _); unfold config_clear, emit; simpl;
    rewrite !elem_of_app; auto.
Qed.

(** What [sessionOpen] hands back. *)
Lemma sessionOpen_fields id refreshed w :
  consistent w ->
  let p := (sessionOpen U id refreshed w).1 in
  let w1 := (sessionOpen U id refreshed w).2 in
  Reg.find (sessions w1) id = Some p /\ uuid (deref w1 p) = id /\
  local_state (deref w1 p) = refreshed /\
  instances (deref w1 p)
  = (match Reg.find (sessions w) id with
     | Some q => instances (deref w q)
     | None => 0
     end + 1)%Z.
Proof.
  intros Hc. unfold sessionOpen.
  destruct (Reg.find (sessions w) id) as [sess|] eqn:E.
  - destruct (reg_keys w Hc _ _ (find_elem_of _ _ _ E)) as [_ Hu].
    destruct (find_open _ _ _); unfold deref, store in *; simpl;
      by rewrite Nat.eqb_refl.
  - destruct (allocateSession_fields U id w) as (Ep & En & Es & Eo & Eh & Eu & Ei).
    destruct (allocateSession U id w) as [sess w1]. simpl in *.
    assert (Reg.find (sessions w1) id = Some sess)
      by (by rewrite Es, find_assign, String.eqb_refl).
    destruct (find_open _ _ _); unfold deref, store in *; simpl;
      rewrite Nat.eqb_refl; simpl; by rewrite ?Ei.
Qed.

(** C4 (as amended).  [close] decrements the counter of the session.
    While the counter stays positive nothing else happens.  Otherwise
    (the counter is now zero, or negative when the session had no open
    handle) the session is aborted and leaves the open list, and it is
    deleted from the registry when its state is Missing, and only then.
    So, in a consistent state, opening a session that has no open
    handle and closing it at once deletes it exactly when the state
    found by the refresh is Missing, and leaves it registered with a
    counter of zero otherwise. *)
Theorem sessionClose_spec :
  (forall session w,
      let s := deref w session in
      let n := (instances s - 1)%Z in
      let w' := sessionClose session w in
      instances (deref w' session) = n /\
      ((0 < n)%Z -> w' = store session (set_instances n s) w) /\
      ((n <= 0)%Z ->
       SessionAbort session ∈ log w' /\
       openSessions w' `sublist_of` erase_open w (uuid s) (openSessions w) /\
       (local_state s = SS_MISSING ->
        sessions w' = Reg.erase (sessions w) (uuid s)) /\
       (local_state s <> SS_MISSING ->
        sessions w' = sessions w /\
        openSessions w' = erase_open w (uuid s) (openSessions w)))) /\
  (forall id refreshed w,
      consistent w ->
      (forall q, Reg.find (sessions w) id = Some q -> instances (deref w q) = 0%Z) ->
      let p := (sessionOpen U id refreshed w).1 in
      let w2 := sessionClose p (sessionOpen U id refreshed w).2 in
      (Reg.find (sessions w2) id = None <-> refreshed = SS_MISSING) /\
      (refreshed <> SS_MISSING ->
       Reg.find (sessions w2) id = Some p /\ instances (deref w2 p) = 0%Z)).
Proof.
  split.
  - intros session w s n w'. unfold w'. rewrite sessionClose_eq. fold s n.
    set (w1 := store session (set_instances n s) w).
    set (w3 := set_openSessions _ _).
    assert (H1: deref w1 session = set_instances n s)
      by (unfold deref, w1, store; simpl; by rewrite Nat.eqb_refl).
    destruct (sessionDelete_fields session w3) as (Eh & En & Es & Eo).
    assert (Hu3: uuid (deref w3 session) = uuid s) by (unfold w3, deref; simpl; by rewrite Nat.eqb_refl).
    rewrite Hu3 in Es, Eo.
    assert (Hlog: SessionAbort session ∈ log w3).
    { unfold w3, w1, emit, store. simpl.
      rewrite elem_of_app, list_elem_of_singleton. by right. }
    destruct (Z.ltb_spec 0 n) as [Hn|Hn].
    + split; [by rewrite H1|]. split; [done|lia].
    + destruct (is_missing (local_state s)) eqn:Em.
      * split; [unfold deref; rewrite Eh;
                change (heap w3 session) with (deref w1 session); by rewrite H1|].
        split; [lia|]. intros _.
        split; [|split; [|split]].
        -- by apply sessionDelete_log.
        -- rewrite Eo. destruct (Reg.find _ _); [|done]. apply erase_open_sublist.
        -- done.
        -- intros N. apply is_missing_true in Em. done.
      * split; [change (deref w3 session) with (deref w1 session); by rewrite H1|].
        split; [lia|]. intros _.
        split; [done|]. split; [done|]. split; [|done].
        intros Hm%is_missing_true. congruence.
  - intros id refreshed w Hc Hzero p w2.
    destruct (sessionOpen_fields id refreshed w Hc) as (Ef & Eu & El & Ei).
    pose proof (consistent_open U id refreshed w Hc) as C1.
    fold p in Ef, Eu, El, Ei. unfold w2. clear w2.
    set (w1 := (sessionOpen U id refreshed w).2) in *.
    assert (Ei1: instances (deref w1 p) = 1%Z).
    { rewrite Ei. destruct (Reg.find (sessions w) id) eqn:E; [|done].
      by rewrite (Hzero _ eq_refl). }
    rewrite sessionClose_eq. rewrite Ei1, Eu, El.
    change (0 <? 1 - 1)%Z with false. cbv iota.
    set (w3 := set_openSessions _ _).
    destruct (sessionDelete_fields p w3) as (Eh & En & Es & Eo).
    assert (Hu3: uuid (deref w3 p) = id) by (unfold w3, deref; simpl; by rewrite Nat.eqb_refl).
    rewrite Hu3 in Es.
    destruct (is_missing refreshed) eqn:Em.
    + apply is_missing_true in Em. split.
      * split; [done|]. intros _. rewrite Es. apply find_erase_eq.
        apply (reg_sorted w1 C1).
      * done.
    + assert (refreshed <> SS_MISSING)
        by (intros Hm%is_missing_true; congruence).
      change (sessions w3) with (sessions w1). rewrite Ef. split.
      * split; [done|done].
      * intros _. split; [done|]. unfold w3, deref. simpl. by rewrite Nat.eqb_refl.
Qed.

End CloseFacts.

Lemma sessionClose_spec_witness :
  let p := (sessionOpen Sample.utilities "a" SS_CREATED (Sample.fresh failing_host)).1 in
  let w2 := sessionClose p
              (sessionOpen Sample.utilities "a" SS_CREATED (Sample.fresh failing_host)).2 in
  (Reg.find (sessions w2) "a" = None <-> SS_CREATED = SS_MISSING) /\
  (SS_CREATED <> SS_MISSING ->
   Reg.find (sessions w2) "a" = Some p /\ instances (deref w2 p) = 0%Z).
Proof.
  apply (proj2 (sessionClose_spec Sample.utilities) "a" SS_CREATED
           (Sample.fresh failing_host));
    [apply fresh_consistent | intros q Hq; discriminate].
Defined.

(** The instance after a session has been allocated under the uuid "a"
    and not opened. *)
Definition one_allocated_session : World :=
  (allocateSession Sample.utilities "a" (Sample.fresh failing_host)).2.

(** The instance after the session "a", whose state is Missing, has been
    opened twice. *)
Definition two_handles : World :=
  (sessionOpen Sample.utilities "a" SS_MISSING
     (sessionOpen Sample.utilities "a" SS_MISSING (Sample.fresh failing_host)).2).2.

(** C4 as it was stated fails twice.  Closing a session that has no open
    handle aborts it although its counter does not reach zero: it goes
    from 0 to -1.  And an open followed at once by a close does not
    delete a Missing session that has another open handle: the counter
    goes from 2 to 1 and nothing else happens. *)
Lemma sessionClose_aborts_below_zero :
  (instances (deref one_allocated_session 0) = 0%Z /\
   instances (deref (sessionClose 0 one_allocated_session) 0) = (-1)%Z /\
   SessionAbort 0 ∈ log (sessionClose 0 one_allocated_session)) /\
  (local_state (deref two_handles 0) = SS_MISSING /\
   Reg.find (sessions (sessionClose 0 two_handles)) "a" = Some 0 /\
   instances (deref (sessionClose 0 two_handles) 0) = 1%Z).
Proof.
  split; (split; [vm_compute; reflexivity|split; [vm_compute; reflexivity|]]).
  - apply list_elem_of_In. vm_compute. by left.
  - vm_compute. reflexivity.
Qed.

(** C5 as it was stated fails: [close] on a session whose counter is
    zero leaves the counter at -1. *)
Lemma sessionClose_drives_count_negative :
  counts_nonneg one_allocated_session /\
  ~ counts_nonneg (sessionClose 0 one_allocated_session).
Proof.
  split.
  - intros p. unfold one_allocated_session, deref. simpl.
    by destruct (Nat.eqb p 0).
  - intros H. specialize (H 0). by vm_compute in H.
Qed.

(* ================================================================== *)
(** * loadSessions: statements *)
(* ================================================================== *)

(** The descriptor [name] is one that step 1 turns into a session of
    uuid [k]: it has a name and a uuid. *)
Definition descriptor_of (w : World) (name k : string) : Prop :=
  Cfg.contains (forRuntime name w) "name" = true /\
  Cfg.contains (forRuntime name w) "uuid" = true /\
  Cfg.get (forRuntime name w) "uuid" = k.

(** Every entry of the registry files a session under its uuid. *)
Definition reg_keyed (w : World) : Prop :=
  forall k p, (k, p) ∈ sessions w -> p < next w /\ uuid (deref w p) = k.

(** The events [loadSessions] may log before it asks for the list of VMs. *)
Definition load_prologue (pf : option Task) : list Event :=
  match pf with
  | Some t => [PfSetMax t 4; PfDoing t "Loading sessions from disk"]
  | None => []
  end.

(** Step 1 on one descriptor. *)
Definition load_one (U : Utilities) (sessName : string) (w : World) : World :=
  let sessConfig := forRuntime sessName w in
  if negb (Cfg.contains sessConfig "name") then w
  else if negb (Cfg.contains sessConfig "uuid") then w
  else
    let '(p, w1) := make_session U sessConfig w in
    set_sessions (Reg.assign (sessions w1) (Cfg.get sessConfig "uuid") p) w1.

Section LoadFacts.

Context (U : Utilities).

Lemma load_from_disk_cons n rest w :
  load_from_disk U (n :: rest) w = load_from_disk U rest (load_one U n w).
Proof. reflexivity. Qed.

Lemma load_one_fields n w :
  let w' := load_one U n w in
  host w' = host w /\ openSessions w' = openSessions w /\ log w' = log w /\
  next w <= next w' /\
  (forall q, q < next w -> heap w' q = heap w q) /\
  (forall q, next w <= q < next w' ->
             instances (heap w' q) = 0%Z /\ uuid (heap w' q) = Cfg.get (forRuntime n w) "uuid") /\
  ((sessions w' = sessions w /\ next w' = next w /\ forall k, ~ descriptor_of w n k) \/
   (sessions w' = Reg.assign (sessions w) (Cfg.get (forRuntime n w) "uuid") (next w)
    /\ next w' = S (next w)
    /\ descriptor_of w n (Cfg.get (forRuntime n w) "uuid"))).
Proof.
  unfold load_one, descriptor_of.
  destruct (Cfg.contains (forRuntime n w) "name") eqn:E1; simpl.
  2:{ repeat split; try done; try lia. left. repeat split; try done. by intros k [? _]. }
  destruct (Cfg.contains (forRuntime n w) "uuid") eqn:E2; simpl.
  2:{ repeat split; try done; try lia. left. repeat split; try done. by intros k (_ & ? & _). }
  repeat split; try done; try lia.
  - intros q Hq. destruct (Nat.eqb_spec q (next w)); [lia|done].
  - destruct H as [H1 H2]. assert (q = next w) as -> by lia. by rewrite Nat.eqb_refl.
  - destruct H as [H1 H2]. assert (q = next w) as -> by lia. by rewrite Nat.eqb_refl.
  - by right.
Qed.

Lemma forRuntime_host n w w' : host w' = host w -> forRuntime n w' = forRuntime n w.
Proof. unfold forRuntime. by intros ->. Qed.

Lemma descriptor_of_host n k w w' :
  host w' = host w -> descriptor_of w' n k <-> descriptor_of w n k.
Proof. intros H. unfold descriptor_of. by rewrite (forRuntime_host n w w' H). Qed.

(** Step 1 touches neither the host, nor the open list, nor the log,
    nor the sessions that exist. *)
Lemma load_from_disk_frame names w :
  let w' := load_from_disk U names w in
  host w' = host w /\ openSessions w' = openSessions w /\ log w' = log w /\
  next w <= next w' /\ (forall q, q < next w -> heap w' q = heap w q).
Proof.
  revert w; induction names as [|n rest IH]; intros w; [by repeat split|].
  rewrite load_from_disk_cons.
  destruct (load_one_fields n w) as (H1 & H2 & H3 & H4 & H5 & _).
  destruct (IH (load_one U n w)) as (I1 & I2 & I3 & I4 & I5).
  cbv zeta. rewrite I1, I2, I3. repeat split; try done; [lia|].
  intros q Hq. rewrite I5 by lia. by apply H5.
Qed.

(** The keys of the registry after step 1: those it had, and the uuids
    of the descriptors that have a name and a uuid. *)
Lemma load_from_disk_keys names w k :
  is_Some (Reg.find (sessions (load_from_disk U names w)) k) <->
  is_Some (Reg.find (sessions w) k) \/
  exists n, n ∈ names /\ descriptor_of w n k.
Proof.
  revert w; induction names as [|n rest IH]; intros w.
  - simpl. split; [by left|]. intros [?|(n & ?%elem_of_nil & _)]; done.
  - rewrite load_from_disk_cons, IH.
    destruct (load_one_fields n w) as (H1 & _ & _ & _ & _ & _ & Hs).
    assert (Hd: forall n' k', descriptor_of (load_one U n w) n' k' <-> descriptor_of w n' k')
      by (intros; by apply descriptor_of_host).
    setoid_rewrite Hd. setoid_rewrite elem_of_cons.
    destruct Hs as [(Es & _ & Hno)|(Es & _ & Hyes)]; rewrite Es.
    + split; [naive_solver|]. intros [?|(n' & [->|?] & ?)]; [by left| |naive_solver].
      by destruct (Hno k).
    + rewrite find_assign.
      destruct (String.eqb_spec k (Cfg.get (forRuntime n w) "uuid")) as [->|N].
      * split; [|intros _; left; by eexists]. intros _. right. by exists n; split; [left|].
      * split; [naive_solver|]. intros [?|(n' & [->|?] & Hn')]; [by left| |naive_solver].
        destruct Hn' as (_ & _ & Hn'). congruence.
Qed.

Lemma load_from_disk_keyed names w :
  reg_keyed w -> reg_keyed (load_from_disk U names w).
Proof.
  revert w; induction names as [|n rest IH]; intros w Hk; [done|].
  rewrite load_from_disk_cons. apply IH.
  destruct (load_one_fields n w) as (_ & _ & _ & H4 & H5 & H6 & Hs).
  intros k p. unfold deref.
  destruct Hs as [(Es & En & _)|(Es & En & _)]; rewrite Es.
  - intros H. destruct (Hk k p H) as [Hp Hu]. rewrite H5 by done. split; [lia|done].
  - intros [[= -> ->]|H]%elem_of_assign.
    + split; [lia|]. apply H6. lia.
    + destruct (Hk k p H) as [Hp Hu]. rewrite H5 by done. split; [lia|done].
Qed.

Lemma load_from_disk_counts names w :
  counts_nonneg w -> counts_nonneg (load_from_disk U names w).
Proof.
  revert w; induction names as [|n rest IH]; intros w Hc; [done|].
  rewrite load_from_disk_cons. apply IH.
  destruct (load_one_fields n w) as (_ & _ & _ & H4 & H5 & H6 & _).
  intros p. unfold deref. destruct (Nat.lt_ge_cases p (next w)) as [Hp|Hp].
  - rewrite H5 by done. apply Hc.
  - destruct (Nat.lt_ge_cases p (next (load_one U n w))) as [Hq|Hq].
    + destruct (H6 p) as [-> _]; [lia|done].
    + unfold load_one.
      destruct (negb _); [apply Hc|]. destruct (negb _); [apply Hc|].
      simpl. destruct (Nat.eqb_spec p (next w)); [done|apply Hc].
Qed.

End LoadFacts.

Section LoopFacts.

Lemma reg_keyed_delete session w : reg_keyed w -> reg_keyed (sessionDelete session w).
Proof.
  intros Hk k p. destruct (sessionDelete_fields session w) as (Eh & En & Es & _).
  unfold deref. rewrite Es, En, Eh. intros H%elem_of_erase. by apply Hk.
Qed.

(** Steps 3 and 4 create no session and change none. *)
Lemma remove_unregistered_frame fuel vms it w w' :
  remove_unregistered fuel vms it w = Some w' ->
  heap w' = heap w /\ next w' = next w.
Proof.
  revert it w; induction fuel as [|fuel IH]; intros it w; simpl; [done|].
  destruct (sessions w !! it) as [[k sess]|]; [|by intros [= <-]].
  destruct (vms !! _).
  - apply IH.
  - destruct (sessionDelete_fields sess w) as (Eh & En & _).
    destruct (Nat.eqb _ 0); [by intros [= <-]|].
    intros H%IH. by rewrite <- Eh, <- En.
Qed.

Lemma release_lost_frame fuel it w w' :
  release_lost fuel it w = Some w' ->
  heap w' = heap w /\ next w' = next w /\ sessions w' = sessions w.
Proof.
  revert it w; induction fuel as [|fuel IH]; intros it w; simpl; [done|].
  destruct (openSessions w !! it) as [sess|]; [|by intros [= <-]].
  destruct (Reg.find _ _).
  - apply IH.
  - destruct (Nat.eqb _ 0); [by intros [= <-]|]. by intros H%IH.
Qed.

(** Step 3 ends: each iteration advances the iterator or removes an
    entry of the registry. *)
Lemma remove_unregistered_terminates vms fuel it w :
  reg_keyed w ->
  length (sessions w) * length (sessions w) + (length (sessions w) - it) < fuel ->
  is_Some (remove_unregistered fuel vms it w).
Proof.
  revert it w; induction fuel as [|fuel IH]; intros it w Hk Hf; [lia|]. simpl.
  destruct (sessions w !! it) as [[k sess]|] eqn:E; [|by eexists].
  pose proof (lookup_lt_Some _ _ _ E) as Hit.
  destruct (vms !! _).
  - apply IH; [done|lia].
  - destruct (sessionDelete_fields sess w) as (_ & _ & Es & _).
    apply list_elem_of_lookup_2 in E. destruct (Hk k sess E) as [_ Hu].
    rewrite Hu in Es.
    pose proof (length_erase (sessions w) k (elem_of_find _ _ _ E)) as Hlen.
    rewrite <- Es in Hlen.
    destruct (Nat.eqb _ 0); [by eexists|].
    apply IH; [by apply reg_keyed_delete|]. nia.
Qed.

(** Step 4 ends, for the same reason. *)
Lemma release_lost_terminates fuel it w :
  length (openSessions w) * length (openSessions w)
    + (length (openSessions w) - it) < fuel ->
  is_Some (release_lost fuel it w).
Proof.
  revert it w; induction fuel as [|fuel IH]; intros it w Hf; [lia|]. simpl.
  destruct (openSessions w !! it) as [sess|] eqn:E; [|by eexists].
  pose proof (lookup_lt_Some _ _ _ E) as Hit.
  destruct (Reg.find _ _).
  - apply IH. lia.
  - pose proof (length_delete_lt _ _ _ E) as Hlen.
    destruct (Nat.eqb _ 0); [by eexists|].
    apply IH. simpl. nia.
Qed.

Lemma clear_sessions w :
  (if negb (Nat.eqb (length (sessions w)) 0) then set_sessions [] w else w)
  = set_sessions [] w.
Proof. destruct w as [s]. by destruct s. Qed.

Lemma pf_emit_log pf e w : exists evs, log (pf_emit pf e w) = log w ++ evs.
Proof. destruct pf; simpl; [by eexists|exists []; by rewrite app_nil_r]. Qed.

End LoopFacts.

(** The world when step 1 is over. *)
Definition loaded (U : Utilities) (pf : option Task) (w : World) : World :=
  load_from_disk U (enumFiles "vbsess-" w)
    (set_sessions []
       (pf_emit pf (fun t => PfDoing t "Loading sessions from disk")
          (pf_emit pf (fun t => PfSetMax t 4) w))).

(** Steps 2 to 4, from the world in which the list of VMs has been read. *)
Definition reconcile (U : Utilities) (pf : option Task) (lines : list string)
  (w : World) : result (HVE * World) :=
  let w := pf_emit pf (fun t => PfDone t "Sessions loaded") w in
  let w := pf_emit pf (fun t => PfDoing t "Loading sessions from hypervisor") w in
  vboxVms ← collect_vms (tokenize U lines "{"%char) ∅;
  let w := pf_emit pf (fun t => PfDone t "Sessions loaded") w in
  let w := pf_emit pf (fun t => PfDoing t "Cleaning-up expired sessions") w in
  w ← run_loop (remove_unregistered (loop_fuel (length (sessions w))) vboxVms 0 w);
  let w := pf_emit pf (fun t => PfDone t "Sessions cleaned-up") w in
  let w := pf_emit pf (fun t => PfDoing t "Releasing old open sessions") w in
  w ← run_loop (release_lost (loop_fuel (length (openSessions w))) 0 w);
  let w := pf_emit pf (fun t => PfDone t "Old open sessions released") w in
  Ok (HVE_OK, w).

(** Two descriptors whose VMs are gone, and a hypervisor that lists no VM. *)
Definition two_orphans_disk : list (string * Config) :=
  [("vbsess-a", <["name" := "alpha"]> (<["uuid" := "a"]> (<["vboxid" := "vm-1"]> ∅)));
   ("vbsess-b", <["name" := "beta"]> (<["uuid" := "b"]> (<["vboxid" := "vm-2"]> ∅)))].

Definition two_orphans_host : Host :=
  Sample.host_with Sample.no_answer two_orphans_disk.

Section LoadSessionsFacts.

Context (U : Utilities).

Lemma pf_emit_frame pf e w :
  let w' := pf_emit pf e w in
  host w' = host w /\ sessions w' = sessions w /\ openSessions w' = openSessions w
  /\ heap w' = heap w /\ next w' = next w.
Proof. by destruct pf. Qed.

Lemma loadSessions_eq pf w :
  let r := hv_answer (host w) "list vms" in
  let w1 := emit (Exec "list vms") (loaded U pf w) in
  loadSessions U pf w
  = if negb (exit_code r =? 0)%Z then Ok (HVE_QUERY_ERROR, w1)
    else reconcile U pf (out_lines r) w1.
Proof.
  intros r w1. unfold loadSessions. rewrite clear_sessions.
  rewrite (exec_query "list vms") by done.
  assert (E: enumFiles "vbsess-"
               (set_sessions []
                  (pf_emit pf (fun t => PfDoing t "Loading sessions from disk")
                     (pf_emit pf (fun t => PfSetMax t 4) w)))
             = enumFiles "vbsess-" w) by by destruct pf.
  rewrite E. fold (loaded U pf w).
  assert (Eh: host (loaded U pf w) = host w).
  { unfold loaded.
    destruct (load_from_disk_frame U (enumFiles "vbsess-" w)
                (set_sessions []
                   (pf_emit pf (fun t => PfDoing t "Loading sessions from disk")
                      (pf_emit pf (fun t => PfSetMax t 4) w)))) as (-> & _).
    by destruct pf. }
  rewrite Eh. fold r. fold w1. by destruct (negb _).
Qed.

(** The world when step 1 is over, against the world before. *)
Lemma loaded_fields pf w :
  let w1 := loaded U pf w in
  host w1 = host w /\ openSessions w1 = openSessions w /\
  log w1 = log w ++ load_prologue pf /\
  next w <= next w1 /\ (forall q, q < next w -> heap w1 q = heap w q) /\
  (forall k, is_Some (Reg.find (sessions w1) k) <->
             exists n, n ∈ enumFiles "vbsess-" w /\ descriptor_of w n k) /\
  reg_keyed w1 /\ (counts_nonneg w -> counts_nonneg w1).
Proof.
  unfold loaded.
  set (w0 := set_sessions [] _).
  assert (H0: host w0 = host w /\ openSessions w0 = openSessions w /\
              log w0 = log w ++ load_prologue pf /\ next w0 = next w /\
              heap w0 = heap w /\ sessions w0 = []).
  { unfold w0. destruct pf; simpl; rewrite <- ?app_assoc, ?app_nil_r; by repeat split. }
  destruct H0 as (E1 & E2 & E3 & E4 & E5 & E6).
  destruct (load_from_disk_frame U (enumFiles "vbsess-" w) w0) as (F1 & F2 & F3 & F4 & F5).
  cbv zeta. rewrite F1, F2, F3, E1, E2, E3. split_and!; try done.
  - lia.
  - intros q Hq. rewrite F5 by lia. by rewrite E5.
  - intros k. split.
    + rewrite load_from_disk_keys, E6. simpl. intros [[? ?]|(n & Hn & Hd)]; [done|].
      exists n. split; [done|]. by apply (descriptor_of_host n k w w0).
    + intros (n & Hn & Hd). apply load_from_disk_keys. right. exists n.
      split; [done|]. by apply (descriptor_of_host n k w w0).
  - apply load_from_disk_keyed. intros k p. rewrite E6. by intros ?%elem_of_nil.
  - intros Hc. apply load_from_disk_counts. intros p. unfold deref. rewrite E5. apply Hc.
Qed.



(** [loadSessions] returns, or throws what [substr] throws on a
    malformed listing: its two loops end. *)
Lemma loadSessions_returns pf w :
  (exists c w', loadSessions U pf w = Ok (c, w')) \/
  loadSessions U pf w = Throw out_of_range.
Proof.
  rewrite loadSessions_eq.
  destruct (loaded_fields pf w) as (_ & _ & _ & _ & _ & _ & Hk & _).
  destruct (negb _); [left; eauto|].
  unfold reconcile. destruct (collect_vms _ _) as [vms|[]] eqn:Ec;
    [|by right| | |].
  - rewrite bind_Ok.
    match goal with |- context [remove_unregistered ?f vms 0 ?x] =>
      destruct (remove_unregistered_terminates vms f 0 x) as [w2 E2] end.
    { intros k p. destruct pf; apply Hk. }
    { unfold loop_fuel. lia. }
    rewrite E2. simpl run_loop. rewrite bind_Ok.
    match goal with |- context [release_lost ?f 0 ?x] =>
      destruct (release_lost_terminates f 0 x) as [w3 E3] end.
    { unfold loop_fuel. lia. }
    rewrite E3. simpl run_loop. rewrite bind_Ok. left. eauto.
  - exfalso. revert Ec. generalize (∅ : gmap string string).
    induction (tokenize U _ _) as [|[name uuid] rest IH]; intros m; simpl; [done|].
    unfold Str.substr.
    destruct (Str.size name <? 1)%Z; [done|]. rewrite bind_Ok.
    destruct (Str.size uuid <? 0)%Z; [done|]. rewrite bind_Ok.
    destruct (Str.find _ _); apply IH.
  - exfalso. revert Ec. generalize (∅ : gmap string string).
    induction (tokenize U _ _) as [|[name uuid] rest IH]; intros m; simpl; [done|].
    unfold Str.substr.
    destruct (Str.size name <? 1)%Z; [done|]. rewrite bind_Ok.
    destruct (Str.size uuid <? 0)%Z; [done|]. rewrite bind_Ok.
    destruct (Str.find _ _); apply IH.
  - exfalso. revert Ec. generalize (∅ : gmap string string).
    induction (tokenize U _ _) as [|[name uuid] rest IH]; intros m; simpl; [done|].
    unfold Str.substr.
    destruct (Str.size name <? 1)%Z; [done|]. rewrite bind_Ok.
    destruct (Str.size uuid <? 0)%Z; [done|]. rewrite bind_Ok.
    destruct (Str.find _ _); apply IH.
Qed.

End LoadSessionsFacts.


(** C1, evaluated where the code departs from it: two persisted
    sessions, "a" and "b", whose VMs the hypervisor no longer lists.  The
    pass completes; step 3 deletes "a", puts its iterator back on the
    first entry, which is now "b", and the loop header advances it past
    "b" before "b" is looked at.  "b" stays in the registry although its
    vboxid is not in the map of live VMs built by the same pass. *)
Theorem loadSessions_leaves_orphan :
  exists w' vboxVms,
    loadSessions Sample.utilities None (Sample.fresh two_orphans_host)
    = Ok (HVE_OK, w') /\
    collect_vms
      (tokenize Sample.utilities
         (out_lines (hv_answer two_orphans_host "list vms")) "{"%char) ∅
    = Ok vboxVms /\
    (sessions w').*1 = ["b"] /\
    ~ no_orphans vboxVms w'.
Proof.
  eexists _, _. split; [vm_compute; reflexivity|].
  split; [vm_compute; reflexivity|]. split; [vm_compute; reflexivity|].
  intros H. destruct (H "b" 1) as [v Hv]; [vm_compute; by left|].
  by vm_compute in Hv.
Qed.

(** One operation of the life of an instance, [close] being applied only
    to a session that has an open handle.  The world outside may change
    between two operations. *)
Inductive counted_op (U : Utilities) : World -> World -> Prop :=
| cop_host h w : counted_op U w (set_host h w)
| cop_allocate guid w : counted_op U w (allocateSession U guid w).2
| cop_open id refreshed w : counted_op U w (sessionOpen U id refreshed w).2
| cop_close session w :
    (1 <= instances (deref w session))%Z ->
    counted_op U w (sessionClose session w)
| cop_delete session w : counted_op U w (sessionDelete session w)
| cop_load pf w c w' :
    loadSessions U pf w = Ok (c, w') -> counted_op U w w'.

Section CountFacts.

Context (U : Utilities).

Lemma counts_ext w w' : heap w' = heap w -> counts_nonneg w -> counts_nonneg w'.
Proof. intros E H p. unfold deref. rewrite E. apply H. Qed.

Lemma counts_store p s w :
  (0 <= instances s)%Z -> counts_nonneg w -> counts_nonneg (store p s w).
Proof.
  intros Hs H q. unfold deref, store. simpl. destruct (Nat.eqb q p); [done|apply H].
Qed.

Lemma counts_allocate guid w :
  counts_nonneg w -> counts_nonneg (allocateSession U guid w).2.
Proof.
  intros H q.
  destruct (allocateSession_fields U guid w) as (_ & _ & _ & _ & Eh & _ & Ei).
  unfold deref. destruct (decide (q = (allocateSession U guid w).1)) as [->|N].
  - by rewrite Ei.
  - rewrite Eh by done. apply H.
Qed.

Lemma counts_open id refreshed w :
  counts_nonneg w -> counts_nonneg (sessionOpen U id refreshed w).2.
Proof.
  intros H. unfold sessionOpen.
  assert (Hc: forall sess w1, counts_nonneg w1 ->
    counts_nonneg
      (let s := deref w1 sess in
       let w2 := store sess
                   (set_local_state refreshed (set_instances (instances s + 1)%Z s)) w1 in
       match find_open w2 (uuid s) (openSessions w2) with
       | Some _ => w2
       | None => set_openSessions (openSessions w2 ++ [sess]) w2
       end)).
  { intros sess w1 H1. cbv zeta.
    assert (H2: counts_nonneg
                  (store sess
                     (set_local_state refreshed
                        (set_instances (instances (deref w1 sess) + 1)%Z (deref w1 sess))) w1)).
    { apply counts_store; [|done]. simpl. specialize (H1 sess). lia. }
    by destruct (find_open _ _ _). }
  destruct (Reg.find (sessions w) id) as [sess|].
  - by apply Hc.
  - pose proof (counts_allocate id w H) as H1.
    destruct (allocateSession U id w) as [sess w1]. by apply Hc.
Qed.

Lemma counts_delete session w :
  counts_nonneg w -> counts_nonneg (sessionDelete session w).
Proof.
  apply counts_ext. by destruct (sessionDelete_fields session w) as (-> & _).
Qed.

Lemma counts_close session w :
  (1 <= instances (deref w session))%Z ->
  counts_nonneg w -> counts_nonneg (sessionClose session w).
Proof.
  intros H1 H. rewrite sessionClose_eq.
  set (w1 := store session _ w).
  assert (C1: counts_nonneg w1) by (apply counts_store; [simpl; lia|done]).
  destruct (0 <? _)%Z; [done|]. destruct (is_missing _); [|done].
  by apply counts_delete.
Qed.

Lemma counts_reconcile pf lines w c w' :
  reconcile U pf lines w = Ok (c, w') -> counts_nonneg w -> counts_nonneg w'.
Proof.
  unfold reconcile. destruct (collect_vms _ _) as [vms|]; [|done]. rewrite bind_Ok.
  destruct (remove_unregistered _ _ _ _) as [w2|] eqn:E2; [|done].
  simpl run_loop. rewrite bind_Ok.
  destruct (release_lost _ _ _) as [w3|] eqn:E3; [|done].
  simpl run_loop. rewrite bind_Ok. intros [= _ <-] H.
  apply remove_unregistered_frame in E2 as [E2 _].
  apply release_lost_frame in E3 as [E3 _].
  apply (counts_ext w); [|done].
  destruct pf; simpl in *; by rewrite E3, E2.
Qed.

Lemma counts_load pf w c w' :
  loadSessions U pf w = Ok (c, w') -> counts_nonneg w -> counts_nonneg w'.
Proof.
  rewrite loadSessions_eq. intros E H.
  destruct (loaded_fields U pf w) as (_ & _ & _ & _ & _ & _ & _ & Hc).
  assert (H1: counts_nonneg (emit (Exec "list vms") (loaded U pf w)))
    by (apply (counts_ext (loaded U pf w)); [done|by apply Hc]).
  destruct (negb _); [by injection E as <- <-|].
  by eapply counts_reconcile.
Qed.

(** C5 (as amended).  Along any sequence of allocate, open, close,
    delete and loadSessions in which [close] is applied only to
    sessions that have an open handle (a counter of at least one), no
    counter of open handles is ever negative. *)
Theorem counts_stay_nonneg w w' :
  counts_nonneg w -> rtc (counted_op U) w w' -> counts_nonneg w'.
Proof.
  intros H Hsteps. induction Hsteps as [w|w w1 w2 Hop _ IH]; [done|].
  apply IH. destruct Hop.
  - done.
  - by apply counts_allocate.
  - by apply counts_open.
  - by apply counts_close.
  - by apply counts_delete.
  - by eapply counts_load.
Qed.

End CountFacts.

Lemma counts_stay_nonneg_witness :
  counts_nonneg (sessionClose 0 one_open_session).
Proof.
  apply (counts_stay_nonneg Sample.utilities (Sample.fresh failing_host)).
  - intros p. simpl. lia.
  - eapply rtc_l; [apply (cop_open _ "a" SS_CREATED)|].
    eapply rtc_l; [apply (cop_close _ 0); by vm_compute|]. apply rtc_refl.
Defined.

(* ================================================================== *)
(** * The extension pack: statements *)
(* ================================================================== *)

(** The listing of extension packs names the Oracle pack. *)
Definition pack_listed (h : Host) : bool :=
  existsb (fun l => contains_text l "Oracle VM VirtualBox Extension Pack")
    (hv_extpacks h).

(** The temporary file the pack of the running version is downloaded to. *)
Definition extpack_file (U : Utilities) (w : World) : string :=
  getTmpDir U +:+ "/" +:+
  getFilename U (Cfg.get (hvConfig (host w)).2 (version_key (version w) +:+ "-extpack")).

(** The checksum the trusted configuration gives for the running version. *)
Definition expected_checksum (w : World) : string :=
  Cfg.get (hvConfig (host w)).2 (version_key (version w) +:+ "-extpackChecksum").

(** The configuration, the download and the request reach the
    validation of the checksum. *)
Definition reaches_validation (w : World) : Prop :=
  pack_listed (host w) = false /\
  (hvConfig (host w)).1 = HVE_OK /\
  Cfg.contains (hvConfig (host w)).2 (version_key (version w) +:+ "-extpack") = true /\
  Cfg.contains (hvConfig (host w)).2
    (version_key (version w) +:+ "-extpackChecksum") = true /\
  downloadFile (host w) = HVE_OK.

(** A host whose download is not the file the configuration vouches for. *)
Definition tampered_host : Host :=
  mkHost true Sample.no_answer []
    (0%Z, ["Pack no. 1: Oracle VM VirtualBox Extension Pack"]) [] []
    (HVE_OK,
     <["vbox-4.3.12-extpack" := "http://cernvm.cern.ch/releases/ext-4.3.12.vbox-extpack"]>
       (<["vbox-4.3.12-extpackChecksum" := "9f1a"]> ∅))
    HVE_OK (fun _ => "0000") true true "xterm -e " 0%Z Sample.no_answer.

(** An event that is neither the removal of a file nor a command other
    than the listing of the packs. *)
Definition quiet_event (e : Event) : bool :=
  match e with
  | Remove _ => false
  | Exec cmd => String.eqb cmd "list extpacks"
  | _ => true
  end.

(** An event that is not the removal of a file. *)
Definition keeping_event (e : Event) : bool :=
  match e with
  | Remove _ => false
  | _ => true
  end.

(** From [w] to [w'] the log has grown by events that satisfy [P]. *)
Definition adds (P : Event -> bool) (w w' : World) : Prop :=
  exists evs, log w' = log w ++ evs /\ forallb P evs = true.

Section ExtPackFacts.

Context (U : Utilities).

Lemma hasExtPack_eq w :
  hasExtPack w = (pack_listed (host w), emit (Exec "list extpacks") w).
Proof. reflexivity. Qed.

Lemma adds_refl P w : adds P w w.
Proof. exists []. by rewrite app_nil_r. Qed.

Lemma adds_trans P w1 w2 w3 : adds P w1 w2 -> adds P w2 w3 -> adds P w1 w3.
Proof.
  intros (e1 & E1 & F1) (e2 & E2 & F2). exists (e1 ++ e2).
  rewrite E2, E1, <- app_assoc. split; [done|].
  rewrite forallb_app. by rewrite F1, F2.
Qed.

Lemma adds_emit P e w : P e = true -> adds P w (emit e w).
Proof. intros H. exists [e]. split; [done|]. simpl. by rewrite H. Qed.

Lemma adds_pf_emit P pf k w : (forall t, P (k t) = true) -> adds P w (pf_emit pf k w).
Proof. intros H. destruct pf; [by apply adds_emit|apply adds_refl]. Qed.

Lemma adds_pf_begin P pf l w :
  (forall t, P (PfBegin t l) = true) -> adds P w (pf_begin pf l w).2.
Proof. intros H. destruct pf; [by apply adds_emit|apply adds_refl]. Qed.

Lemma adds_elem P w w' e : adds P w w' -> e ∈ log w' -> e ∈ log w \/ P e = true.
Proof.
  intros (evs & -> & F) [?|H]%elem_of_app; [by left|right].
  rewrite forallb_forall in F. apply F. by apply list_elem_of_In.
Qed.

Lemma adds_weaken (P Q : Event -> bool) w w' :
  (forall e, P e = true -> Q e = true) -> adds P w w' -> adds Q w w'.
Proof.
  intros H (evs & E & F). exists evs. split; [done|].
  rewrite forallb_forall in *. auto.
Qed.

Lemma pf_emit_host pf k w : host (pf_emit pf k w) = host w.
Proof. by destruct pf. Qed.

Lemma pf_emit_version pf k w : version (pf_emit pf k w) = version w.
Proof. by destruct pf. Qed.

Lemma pf_begin_host pf l w : host (pf_begin pf l w).2 = host w.
Proof. by destruct pf. Qed.

Lemma pf_begin_version pf l w : version (pf_begin pf l w).2 = version w.
Proof. by destruct pf. Qed.

(** The installer command is answered by the installer. *)
Lemma exec_install file w :
  exec (install_cmd file) w
  = (mkExec (hv_installer (host w)).1 [] "",
     if ((hv_installer (host w)).1 =? 0)%Z
     then set_host (set_hv_extpacks (hv_installer (host w)).2 (host w))
            (emit (Exec (install_cmd file)) w)
     else emit (Exec (install_cmd file)) w).
Proof. unfold exec, install_cmd. simpl. by destruct (hv_installer (host w)). Qed.

(** A checksum that differs stops the pipeline: nothing is installed,
    nothing is removed. *)
Lemma validate_pack_mismatch pf expected file w :
  sha256_file (host w) file <> expected ->
  let r := validate_pack pf expected file w in
  r.1 = HVE_NOT_VALIDATED /\ host r.2 = host w /\ version r.2 = version w /\
  adds quiet_event w r.2.
Proof.
  intros Hs. unfold validate_pack. cbv zeta.
  assert (E: sha256_file
               (host (emit (Sha256 file)
                 (pf_emit pf (fun t => PfDoing t "Validating extension pack integrity") w)))
               file = sha256_file (host w) file) by by destruct pf.
  rewrite E. rewrite (proj2 (String.eqb_neq _ _) Hs). simpl.
  split; [done|]. split; [by destruct pf|]. split; [by destruct pf|].
  eapply adds_trans; [|by apply adds_pf_emit].
  eapply adds_trans; [|by apply adds_emit]. by apply adds_pf_emit.
Qed.

(** Whatever the installer does, a file is removed on the path that
    ends with [HVE_OK] only. *)
Lemma install_pack_keeps pf file w :
  let r := install_pack pf file w in
  r.1 = HVE_OK \/ adds keeping_event w r.2.
Proof.
  unfold install_pack. cbv zeta. rewrite exec_install.
  destruct (_ =? 0)%Z; simpl; [by left|right].
  repeat (first [apply adds_refl
                | eapply adds_trans; [|by apply adds_pf_emit]
                | eapply adds_trans; [|by apply adds_emit]]).
Qed.

Lemma validate_pack_keeps pf expected file w :
  let r := validate_pack pf expected file w in
  r.1 = HVE_OK \/ adds keeping_event w r.2.
Proof.
  unfold validate_pack. cbv zeta. destruct (negb _).
  - right. simpl.
    repeat (first [apply adds_refl
                  | eapply adds_trans; [|by apply adds_pf_emit]
                  | eapply adds_trans; [|by apply adds_emit]]).
  - match goal with |- context [install_pack pf file ?x] =>
      destruct (install_pack_keeps pf file x) as [H|H]; [by left|right];
      eapply adds_trans; [|exact H] end.
    repeat (first [apply adds_refl
                  | eapply adds_trans; [|by apply adds_pf_emit]
                  | eapply adds_trans; [|by apply adds_emit]]).
Qed.

Lemma download_to_fields url file w :
  let r := download_to url file w in
  version r.2 = version w /\ hv_extpacks (host r.2) = hv_extpacks (host w) /\
  sha256_file (host r.2) = sha256_file (host w) /\
  hv_installer (host r.2) = hv_installer (host w) /\
  adds quiet_event w r.2 /\ r.1 = downloadFile (host w) /\
  (r.1 = HVE_OK -> files (host r.2) = file :: files (host w)).
Proof.
  unfold download_to. cbv zeta.
  destruct (downloadFile (host w)); simpl; split_and!; try done;
    by apply adds_emit.
Qed.

Local Arguments install_pack : simpl never.
Local Arguments validate_pack : simpl never.
Local Arguments download_pack : simpl never.
Local Arguments version_key : simpl never.
Local Arguments download_to : simpl never.

Ltac adds_steps :=
  repeat (first [apply adds_refl
                | eapply adds_trans; [|by apply adds_pf_emit]
                | eapply adds_trans; [|by apply adds_pf_begin]
                | eapply adds_trans; [|by apply adds_emit]]).

Lemma download_pack_keeps pf data w :
  let r := download_pack U pf data w in
  r.1 = HVE_OK \/ adds keeping_event w r.2.
Proof.
  unfold download_pack. cbv zeta.
  destruct (negb _); [right; simpl; adds_steps|].
  destruct (negb _); [right; simpl; adds_steps|].
  destruct (pf_begin pf _ w) as [dpf w1] eqn:E1.
  assert (A1: adds keeping_event w w1)
    by (replace w1 with (pf_begin pf "Downloading extension pack" w).2
          by (by rewrite E1); by apply adds_pf_begin).
  match goal with |- context [download_to ?u ?f w1] =>
    destruct (download_to_fields u f w1) as (_ & _ & _ & _ & A2 & _);
    destruct (download_to u f w1) as [res w2] end.
  simpl in A2.
  assert (A3: adds keeping_event w w2).
  { eapply adds_trans; [exact A1|]. eapply adds_weaken; [|exact A2].
    by intros []. }
  destruct (negb _).
  - right. simpl. eapply adds_trans; [exact A3|]. by apply adds_pf_emit.
  - match goal with |- context [validate_pack pf ?e ?f w2] =>
      destruct (validate_pack_keeps pf e f w2) as [H|H]; [by left|right] end.
    by eapply adds_trans.
Qed.

Lemma installExtPack_keeps pf w :
  let r := installExtPack U pf w in
  r.1 = HVE_OK \/ adds keeping_event w r.2.
Proof.
  unfold installExtPack. cbv zeta. rewrite hasExtPack_eq.
  destruct (pack_listed _); [right; simpl; adds_steps|].
  set (w0 := emit (Exec "list extpacks") _).
  assert (A0: adds keeping_event w w0) by (unfold w0; adds_steps).
  destruct (pf_begin pf _ w0) as [dpf w1] eqn:E1.
  assert (A1: adds keeping_event w w1).
  { eapply adds_trans; [exact A0|].
    replace w1 with (pf_begin pf "Downloading hypervisor configuration" w0).2
      by (by rewrite E1). by apply adds_pf_begin. }
  destruct (hvConfig _) as [res data].
  destruct (negb _).
  - right. destruct (_ || _); simpl; (eapply adds_trans; [exact A1|]); adds_steps.
  - match goal with |- context [download_pack U pf data ?x] =>
      destruct (download_pack_keeps pf data x) as [H|H]; [by left|right];
      eapply adds_trans; [|exact H] end.
    eapply adds_trans; [exact A1|]. by apply adds_emit.
Qed.

Lemma download_pack_mismatch pf data w :
  let url := Cfg.get data (version_key (version w) +:+ "-extpack") in
  let expected := Cfg.get data (version_key (version w) +:+ "-extpackChecksum") in
  let file := getTmpDir U +:+ "/" +:+ getFilename U url in
  Cfg.contains data (version_key (version w) +:+ "-extpack") = true ->
  Cfg.contains data (version_key (version w) +:+ "-extpackChecksum") = true ->
  downloadFile (host w) = HVE_OK ->
  sha256_file (host w) file <> expected ->
  let r := download_pack U pf data w in
  r.1 = HVE_NOT_VALIDATED /\ adds quiet_event w r.2 /\
  hv_extpacks (host r.2) = hv_extpacks (host w) /\
  files (host r.2) = file :: files (host w).
Proof.
  intros url expected file H1 H2 H3 H4. unfold download_pack. cbv zeta.
  rewrite H1, H2. simpl negb. cbv iota.
  destruct (pf_begin pf _ w) as [dpf w1] eqn:E1.
  assert (F1: w1 = (pf_begin pf "Downloading extension pack" w).2) by by rewrite E1.
  assert (A1: adds quiet_event w w1) by (rewrite F1; by apply adds_pf_begin).
  assert (Hh: host w1 = host w) by (rewrite F1; apply pf_begin_host).
  fold url. fold file. fold expected.
  destruct (download_to_fields url file w1) as (Ev & Ex & Es & _ & A2 & Er & Ef).
  destruct (download_to url file w1) as [res w2]. simpl in *.
  rewrite Hh, H3 in Er. subst res. simpl negb. cbv iota.
  destruct (validate_pack_mismatch pf expected file w2) as (R1 & R2 & R3 & R4).
  { by rewrite Es, Hh. }
  split; [done|]. split; [eapply adds_trans; [|exact R4]; by eapply adds_trans|].
  rewrite R2. split; [by rewrite Ex, Hh|]. by rewrite Ef, Hh.
Qed.

(** C7.  When the pipeline reaches the validation and the checksum
    computed for the downloaded file differs from the one the trusted
    configuration gives, [installExtPack] returns [HVE_NOT_VALIDATED];
    the only command it has run is the listing of the packs, so the
    installer has not been started and [hasExtPack] still answers
    false; the downloaded file is still in the temporary directory and
    no removal has been asked for.  In general, a removal is asked for
    on the path that ends with [HVE_OK] and on no other. *)
Theorem installExtPack_checksum_mismatch pf w :
  (reaches_validation w ->
   sha256_file (host w) (extpack_file U w) <> expected_checksum w ->
   let r := installExtPack U pf w in
   r.1 = HVE_NOT_VALIDATED /\
   (forall cmd, Exec cmd ∈ log r.2 -> Exec cmd ∈ log w \/ cmd = "list extpacks") /\
   (hasExtPack r.2).1 = false /\
   extpack_file U w ∈ files (host r.2) /\
   (forall f, Remove f ∈ log r.2 -> Remove f ∈ log w)) /\
  (forall f, Remove f ∈ log (installExtPack U pf w).2 ->
             Remove f ∈ log w \/ (installExtPack U pf w).1 = HVE_OK).
Proof.
  split.
  - intros (H1 & H2 & H3 & H4 & H5) Hs. unfold installExtPack. cbv zeta.
    rewrite hasExtPack_eq, !pf_emit_host, H1. cbv iota.
    set (w0 := emit (Exec "list extpacks") _).
    assert (A0: adds quiet_event w w0) by (unfold w0; adds_steps).
    assert (Hh0: host w0 = host w) by (unfold w0; simpl; by rewrite !pf_emit_host).
    assert (Hv0: version w0 = version w)
      by (unfold w0; simpl; by rewrite !pf_emit_version).
    destruct (pf_begin pf _ w0) as [dpf w1] eqn:E1.
    assert (F1: w1 = (pf_begin pf "Downloading hypervisor configuration" w0).2)
      by by rewrite E1.
    assert (A1: adds quiet_event w0 w1) by (rewrite F1; by apply adds_pf_begin).
    assert (Hh1: host w1 = host w) by (rewrite F1, pf_begin_host; exact Hh0).
    assert (Hv1: version w1 = version w) by (rewrite F1, pf_begin_version; exact Hv0).
    change (host (emit FetchConfig w1)) with (host w1). rewrite Hh1.
    unfold extpack_file, expected_checksum in *.
    destruct (hvConfig (host w)) as [res data]. simpl in H2, H3, H4, Hs. subst res.
    cbn [fst snd].
    simpl negb. cbv iota.
    destruct (download_pack_mismatch pf data (emit FetchConfig w1))
      as (R1 & R2 & R3 & R4).
    { change (version (emit FetchConfig w1)) with (version w1). by rewrite Hv1. }
    { change (version (emit FetchConfig w1)) with (version w1). by rewrite Hv1. }
    { change (host (emit FetchConfig w1)) with (host w1). by rewrite Hh1. }
    { change (version (emit FetchConfig w1)) with (version w1).
      change (host (emit FetchConfig w1)) with (host w1). by rewrite Hv1, Hh1. }
    change (version (emit FetchConfig w1)) with (version w1) in R4.
    change (host (emit FetchConfig w1)) with (host w1) in R3, R4.
    rewrite Hv1, Hh1 in R4. rewrite Hh1 in R3.
    assert (A: adds quiet_event w (download_pack U pf data (emit FetchConfig w1)).2).
    { eapply adds_trans; [exact A0|]. eapply adds_trans; [exact A1|].
      eapply adds_trans; [|exact R2]. by apply adds_emit. }
    split; [done|]. split_and!.
    + intros cmd [?|Hq]%(adds_elem _ _ _ _ A); [by left|right].
      by apply String.eqb_eq.
    + rewrite hasExtPack_eq. simpl. unfold pack_listed. by rewrite R3.
    + rewrite R4. by left.
    + by intros f [?|?]%(adds_elem _ _ _ _ A).
  - intros f Hf. destruct (installExtPack_keeps pf w) as [H|H]; [by right|left].
    by destruct (adds_elem _ _ _ _ H Hf).
Qed.

End ExtPackFacts.

Lemma installExtPack_checksum_mismatch_witness :
  let r := installExtPack Sample.utilities (Some []) (Sample.fresh tampered_host) in
  r.1 = HVE_NOT_VALIDATED /\
  (forall cmd, Exec cmd ∈ log r.2 ->
               Exec cmd ∈ log (Sample.fresh tampered_host) \/ cmd = "list extpacks") /\
  (hasExtPack r.2).1 = false /\
  extpack_file Sample.utilities (Sample.fresh tampered_host) ∈ files (host r.2) /\
  (forall f, Remove f ∈ log r.2 -> Remove f ∈ log (Sample.fresh tampered_host)).
Proof.
  apply (proj1 (installExtPack_checksum_mismatch Sample.utilities (Some [])
                  (Sample.fresh tampered_host))).
  - repeat split; vm_compute; reflexivity.
  - vm_compute. discriminate.
Defined.

(* ================================================================== *)
(** * The readiness workflow: statements *)
(* ================================================================== *)




Definition driver_missing (h : Host) : World :=
  set_vboxDrvKernelLoaded false (Sample.fresh h).

Section ReadinessFacts.

Context (U : Utilities) (linux : bool).

Local Arguments installExtPack : simpl never.
Local Arguments check_driver : simpl never.
Local Arguments load_phase : simpl never.




End ReadinessFacts.




(* ================================================================== *)
(** * Further properties of the guest-property functions *)
(* ================================================================== *)

(** The line has the three anchors, and ", value:" is followed by
    nothing: the value would start past the end of the line. *)
Definition value_cut_off (line : string) : Prop :=
  has_text line "Name: " /\ has_text line ", timestamp:" /\
  exists j, Str.find line ", value:" = Some j /\ String.length line < j + 9.

(** The command line of [getAllProperties]. *)
Definition getAllProperties_cmd (uuid : string) : string :=
  "guestproperty enumerate " +:+ uuid.

(** A hypervisor that prints a property line cut after ", value:". *)
Definition cut_off_host : Host :=
  Sample.host_with
    (fun _ => mkExec 0 ["Name: a, value: 1, timestamp: 5";
                        "Name: b, timestamp: 7, value:"] "") [].

(** A hypervisor that prints the same property twice. *)
Definition twice_host : Host :=
  Sample.host_with
    (fun _ => mkExec 0 ["Name: a, value: 1, timestamp: 5";
                        "Name: a, value: 2, timestamp: 6"] "") [].

Section MorePropertyFacts.
Import Str StrFacts.

Lemma substr_throws s pos n :
  (size s < pos)%Z -> substr s pos n = Throw out_of_range.
Proof.
  intros H. unfold substr. by destruct (Z.ltb_spec (size s) pos); [|lia].
Qed.

(** What one line comes to: it is skipped, or read, or it makes
    [substr] throw. *)
Lemma parse_property_outcome line :
  (size line < npos)%Z ->
  (parse_property line = Throw out_of_range <-> value_cut_off line) /\
  (forall e, parse_property line = Throw e -> e = out_of_range).
Proof.
  intros Hsz. unfold value_cut_off. rewrite !has_text_find. unfold parse_property.
  destruct (find line "Name: ") as [i|] eqn:Hi.
  2:{ split; [|done]. split; [done|]. by intros [[? ?] _]. }
  destruct (find line ", value:") as [j|] eqn:Hj.
  2:{ split; [|done]. split; [done|]. by intros (_ & _ & ? & ? & _). }
  destruct (find line ", timestamp:") as [k|] eqn:Hk.
  2:{ split; [|done]. split; [done|]. by intros (_ & [? ?] & _). }
  pose proof Hi as [Hib%occurs_at_bound _]%find_Some.
  pose proof Hj as [Hjb%occurs_at_bound _]%find_Some. simpl in Hib, Hjb.
  unfold size, npos in Hsz.
  rewrite (size_t_small (Z.of_nat i + 6)) by lia.
  rewrite (size_t_small (Z.of_nat j + 9)) by lia.
  destruct (substr_defined line (Z.of_nat i + 6)
              (size_t (Z.of_nat j - (Z.of_nat i + 6)))) as [key ->];
    [unfold size; lia|]. rewrite bind_Ok.
  destruct (Z.lt_ge_cases (Z.of_nat (String.length line)) (Z.of_nat j + 9)) as [Hlt|Hge].
  - rewrite substr_throws by (unfold size; lia). rewrite bind_Throw.
    split; [|by intros e [= <-]]. split; [|done]. intros _.
    split; [by eexists|]. split; [by eexists|]. exists j. split; [done|lia].
  - destruct (substr_defined line (Z.of_nat j + 9)
                (size_t (Z.of_nat k - (Z.of_nat j + 9)))) as [value ->];
      [unfold size; lia|]. rewrite bind_Ok. split; [|done]. split; [done|].
    intros (_ & _ & j' & [= <-] & Hlen). lia.
Qed.

(** X1.  [getAllProperties] throws [std::out_of_range] exactly when the
    query succeeds and one of the printed lines has the three anchors
    with nothing after ", value:"; a failed query gives the empty map
    whatever was printed. *)
Theorem getAllProperties_outcome uuid w :
  let r := hv_answer (host w) (getAllProperties_cmd uuid) in
  Forall (fun l => (size l < npos)%Z) (out_lines r) ->
  (getAllProperties uuid w = Throw out_of_range <->
   exit_code r = 0%Z /\ Exists value_cut_off (out_lines r)) /\
  (exit_code r <> 0%Z ->
   getAllProperties uuid w = Ok (∅, emit (Exec (getAllProperties_cmd uuid)) w)).
Proof.
  intros r Hsz. unfold getAllProperties. fold (getAllProperties_cmd uuid).
  rewrite exec_query by done. fold r.
  assert (Hc: forall ans,
    (collect_properties (out_lines r) ans = Throw out_of_range <->
     Exists value_cut_off (out_lines r))).
  { induction Hsz as [|line rest Hl Hrest IH]; intros ans; simpl.
    - split; [done|]. by intros ?%Exists_nil.
    - rewrite Exists_cons.
      destruct (parse_property_outcome line Hl) as [Ht He].
      destruct (parse_property line) as [o|e] eqn:Ep.
      + rewrite bind_Ok, IH. split; [by right|]. intros [Hcut|?]; [|done].
        by apply Ht in Hcut.
      + rewrite bind_Throw. rewrite (He e eq_refl) in *.
        split; [intros _; left; by apply Ht|done]. }
  destruct (Z.eqb_spec (exit_code r) 0) as [E|N]; split.
  - destruct (collect_properties (out_lines r) ∅) as [m|e] eqn:Em.
    + rewrite bind_Ok. split; [done|]. intros [_ Hex].
      apply (proj2 (Hc ∅)) in Hex. congruence.
    + rewrite bind_Throw. split.
      * intros [= ->]. split; [done|]. by apply (proj1 (Hc ∅)).
      * intros [_ Hex]. apply (proj2 (Hc ∅)) in Hex. congruence.
  - done.
  - split; [done|]. by intros [? _].
  - done.
Qed.

Lemma getAllProperties_outcome_witness :
  getAllProperties "b7a1" (Sample.fresh cut_off_host) = Throw out_of_range.
Proof.
  assert (Hsz: Forall (fun l => (size l < npos)%Z)
                 (out_lines (hv_answer (host (Sample.fresh cut_off_host))
                               (getAllProperties_cmd "b7a1"))))
    by (repeat constructor; by vm_compute).
  apply (proj1 (getAllProperties_outcome "b7a1" (Sample.fresh cut_off_host) Hsz)).
  - split; [reflexivity|]. apply Exists_cons. right. apply Exists_cons. left.
    split; [by exists "", "b, timestamp: 7, value:"|].
    split; [by exists "Name: b", " 7, value:"|].
    exists 21. split; [reflexivity|]. simpl. lia.
Defined.

(** A key that no line sets keeps its value through the loop. *)
Lemma collect_properties_keeps lines ans m k v :
  collect_properties lines ans = Ok m -> ans !! k = Some v ->
  (forall line' v', line' ∈ lines -> parse_property line' <> Ok (Some (k, v'))) ->
  m !! k = Some v.
Proof.
  revert ans m; induction lines as [|x ls IH]; intros a m; simpl;
    [by intros [= <-]|].
  destruct (parse_property x) as [[[k' v']|]|] eqn:Ex; [| |done];
    rewrite bind_Ok; intros Hc Ha Hno.
  - apply (IH _ _ Hc).
    + destruct (decide (k' = k)) as [->|N].
      * destruct (Hno x v'); [by left|done].
      * by rewrite lookup_insert_ne.
    + intros line' v'' Hin. apply Hno. by right.
  - apply (IH _ _ Hc); [done|]. intros line' v'' Hin. apply Hno. by right.
Qed.

(** X2.  In the map [getAllProperties] builds, a key holds the value of
    the last line that carries it, and every key comes from a line that
    was read (or from the map the loop started with). *)
Theorem collect_properties_last_wins lines ans m :
  collect_properties lines ans = Ok m ->
  (forall l1 line l2 k v,
      lines = l1 ++ line :: l2 ->
      parse_property line = Ok (Some (k, v)) ->
      (forall line' v', line' ∈ l2 -> parse_property line' <> Ok (Some (k, v'))) ->
      m !! k = Some v) /\
  (forall k v, m !! k = Some v ->
      ans !! k = Some v \/
      exists line, line ∈ lines /\ parse_property line = Ok (Some (k, v))).
Proof.
  revert ans m; induction lines as [|l lines IH]; intros ans m; simpl.
  - intros [= <-]. split; [by intros [|] ? ? ? ? ?|]. by left.
  - destruct (parse_property l) as [o|] eqn:Ep; [|done]. rewrite bind_Ok.
    intros Hm. destruct (IH _ _ Hm) as [IH1 IH2]. split.
    + intros l1 line l2 k v Hl Hp Hn. destruct l1 as [|l' l1]; simpl in Hl.
      * injection Hl as -> ->. rewrite Hp in Ep. injection Ep as <-.
        eapply collect_properties_keeps; [exact Hm|apply lookup_insert_eq|exact Hn].
      * injection Hl as -> ->. by eapply IH1.
    + intros k v Hk. destruct (IH2 k v Hk) as [H|(line & Hin & Hp)].
      * destruct o as [[k' v']|]; [|by left].
        destruct (decide (k' = k)) as [->|N].
        -- rewrite lookup_insert_eq in H. injection H as ->.
           right. exists l. split; [by left|done].
        -- rewrite lookup_insert_ne in H by done. by left.
      * right. exists line. split; [by right|done].
Qed.

Lemma collect_properties_last_wins_witness :
  (<["a" := "2"]> (<["a" := "1"]> ∅) : gmap string string) !! "a" = Some "2".
Proof.
  assert (Hm: collect_properties
                ["Name: a, value: 1, timestamp: 5"; "Name: a, value: 2, timestamp: 6"] ∅
              = Ok (<["a" := "2"]> (<["a" := "1"]> ∅)))
    by (vm_compute; reflexivity).
  apply (proj1 (collect_properties_last_wins _ _ _ Hm)
           ["Name: a, value: 1, timestamp: 5"] "Name: a, value: 2, timestamp: 6" []).
  - reflexivity.
  - reflexivity.
  - by intros line' v' ?%elem_of_nil.
Defined.

(** X3.  [getProperty] changes nothing but the log, where it records its
    command, and answers:
    - the empty string when the query fails, prints nothing, or prints a
      first line that does not begin with "Value:";
    - the first line from its eighth character on when that line begins
      with "Value:" and has at least seven characters;
    - nothing, throwing [std::out_of_range], when the first line is
      "Value:" alone. *)
Theorem getProperty_outcome uuid name w :
  let r := hv_answer (host w) (getProperty_cmd uuid name) in
  let w' := emit (Exec (getProperty_cmd uuid name)) w in
  (exit_code r <> 0%Z \/ out_lines r = [] \/
     (exists l rest, out_lines r = l :: rest /\ starts_with "Value:" l = false) ->
   getProperty uuid name w = Ok ("", w')) /\
  (forall l rest,
      exit_code r = 0%Z -> out_lines r = l :: rest ->
      starts_with "Value:" l = true -> 7 <= String.length l -> (size l <= npos)%Z ->
      getProperty uuid name w = Ok (drop 7 l, w')) /\
  (forall rest,
      exit_code r = 0%Z -> out_lines r = "Value:" :: rest ->
      getProperty uuid name w = Throw out_of_range).
Proof.
  intros r w'. split; [apply getProperty_empty|].
  split; [intros l rest; apply getProperty_value|intros rest; apply getProperty_throws].
Qed.

Lemma getProperty_outcome_witness :
  getProperty "b7a1" "/VirtualBox/GuestInfo/OS/Product" (Sample.fresh foo_bar_host)
  = Ok ("", emit (Exec (getProperty_cmd "b7a1" "/VirtualBox/GuestInfo/OS/Product"))
              (Sample.fresh foo_bar_host)).
Proof.
  apply (proj1 (getProperty_outcome "b7a1" "/VirtualBox/GuestInfo/OS/Product"
                  (Sample.fresh foo_bar_host))).
  right. right. by eexists _, _.
Defined.

End MorePropertyFacts.

(* ================================================================== *)
(** * The process id in the log of a VM *)
(* ================================================================== *)

Definition cr : string := String (ascii_of_nat 13) EmptyString.

(** A position [find] returns, as the [size_t] it is in the source. *)
Definition pos_of (o : option nat) : Z :=
  match o with
  | Some i => Z.of_nat i
  | None => Str.npos
  end.

(** The body of the loop of [__getPIDFromFile] on one line of the log:
    the text it hands to [ston<int>], [None] when the line does not show
    "Process ID:" and the loop goes on to the next line. *)
Definition pid_text (inBufferLine : string) : result (option string) :=
  match Str.find inBufferLine "Process ID:" with
  | None => Ok None
  | Some iStart =>
      let iEnd := Str.size inBufferLine in
      let i1 := pos_of (Str.find inBufferLine cr) in
      let i2 := pos_of (Str.find inBufferLine Str.nl) in
      let iEnd := if (i1 <? iEnd)%Z then i1 else iEnd in
      let iEnd := if (i2 <? iEnd)%Z then i2 else iEnd in
      text ← Str.substr inBufferLine (Str.size_t (Z.of_nat iStart + 12))
               (Str.size_t (iEnd - Z.of_nat iStart));
      Ok (Some text)
  end.

(** Where the source sets [iEnd]: the first carriage return or line
    feed, the end of the line when there is none. *)
Definition line_end (line : string) : nat :=
  let e1 :=
    match Str.find line cr with
    | Some c => if c <? String.length line then c else String.length line
    | None => String.length line
    end in
  match Str.find line Str.nl with
  | Some n => if n <? e1 then n else e1
  | None => e1
  end.

Section PidFacts.
Import Str StrFacts.

Lemma find_lt_length s p i :
  find s p = Some i -> p <> EmptyString -> i < String.length s.
Proof.
  intros [H%occurs_at_bound _]%find_Some Hp. destruct p; [done|]. simpl in H. lia.
Qed.

Lemma str_take_ge n s : String.length s <= n -> take n s = s.
Proof.
  revert s; induction n; intros [|c s]; simpl; intros H; try done; [lia|].
  f_equal. apply IHn. lia.
Qed.

Lemma line_end_Z line :
  String.length line < 1024 ->
  let iEnd := size line in
  let i1 := pos_of (find line cr) in
  let i2 := pos_of (find line nl) in
  let iEnd1 := if (i1 <? iEnd)%Z then i1 else iEnd in
  (if (i2 <? iEnd1)%Z then i2 else iEnd1) = Z.of_nat (line_end line).
Proof.
  intros Hlen. unfold line_end, size, pos_of, npos.
  destruct (find line cr) as [c|], (find line nl) as [n|]; cbv zeta;
    repeat match goal with
           | |- context [(?a <? ?b)%Z] =>
               lazymatch b with
               | context [if _ then _ else _] => fail
               | _ => destruct (Z.ltb_spec a b)
               end
           | |- context [?a <? ?b] =>
               lazymatch b with
               | context [if _ then _ else _] => fail
               | _ => destruct (Nat.ltb_spec a b)
               end
           end; lia.
Qed.

Lemma line_end_le line : line_end line <= String.length line.
Proof.
  unfold line_end.
  destruct (find line cr) as [c|], (find line nl) as [n|];
    repeat match goal with
           | |- context [?a <? ?b] =>
               lazymatch b with
               | context [if _ then _ else _] => fail
               | _ => destruct (Nat.ltb_spec a b)
               end
           end; lia.
Qed.

Lemma pid_text_eq line i :
  String.length line < 1024 ->
  find line "Process ID:" = Some i ->
  pid_text line =
    (text ← substr line (Z.of_nat (i + 12))
              (size_t (Z.of_nat (line_end line) - Z.of_nat i));
     Ok (Some text)).
Proof.
  intros Hlen Hi. unfold pid_text. rewrite Hi. cbv zeta.
  rewrite (line_end_Z line Hlen).
  pose proof (find_lt_length _ _ _ Hi ltac:(done)) as Hlt.
  rewrite size_t_small; [|lia]. do 3 f_equal. lia.
Qed.

(** X4.  On a line of the log (at most 1023 characters, the buffer of
    [getline]) the loop body of [__getPIDFromFile] passes the line by
    exactly when it does not show "Process ID:", and throws
    [std::out_of_range] exactly when the first "Process ID:" is the end
    of the line: the text is taken twelve characters after the start of
    the marker, which has eleven. *)
Theorem pid_text_outcome line :
  String.length line < 1024 ->
  (pid_text line = Ok None <-> ~ has_text line "Process ID:") /\
  (pid_text line = Throw out_of_range <->
   exists i, find line "Process ID:" = Some i /\ String.length line = i + 11).
Proof.
  intros Hlen. split.
  - split.
    + intros H [a [b Hab]].
      destruct (find_is_Some _ _ _ _ Hab) as [i Hi].
      rewrite (pid_text_eq _ _ Hlen Hi) in H.
      destruct (substr _ _ _); discriminate.
    + intros H. unfold pid_text.
      destruct (find line "Process ID:") as [i|] eqn:Hi; [|done].
      exfalso. apply H. apply find_Some in Hi as [Hi _].
      apply occurs_at_split in Hi as (a & b & -> & _). by exists a, b.
  - split.
    + intros H. destruct (find line "Process ID:") as [i|] eqn:Hi.
      * exists i. split; [done|].
        rewrite (pid_text_eq _ _ Hlen Hi) in H.
        pose proof (find_Some _ _ _ Hi) as [Hb%occurs_at_bound _]. simpl in Hb.
        unfold substr, size in H.
        destruct (Z.ltb_spec (Z.of_nat (String.length line)) (Z.of_nat (i + 12)));
          [lia|discriminate].
      * unfold pid_text in H. rewrite Hi in H. discriminate.
    + intros (i & Hi & Hl). rewrite (pid_text_eq _ _ Hlen Hi).
      unfold substr, size.
      destruct (Z.ltb_spec (Z.of_nat (String.length line)) (Z.of_nat (i + 12)));
        [done|lia].
Qed.

Lemma pid_text_outcome_witness :
  pid_text "00:00:01.2 VirtualBox 4.3.12" = Ok None /\
  pid_text "00:00:01.2 Process ID:" = Throw out_of_range.
Proof.
  split.
  - apply (proj1 (pid_text_outcome "00:00:01.2 VirtualBox 4.3.12" ltac:(simpl; lia))).
    intros [a [b Hab]].
    pose proof (find_is_Some _ _ _ _ Hab) as [i Hi]. by vm_compute in Hi.
  - apply (proj2 (pid_text_outcome "00:00:01.2 Process ID:" ltac:(simpl; lia))).
    exists 11. split; [by vm_compute|reflexivity].
Defined.

(** X5.  When characters follow the marker, the text handed to [ston] is
    the line from twelve characters after the start [i] of
    "Process ID:" on, cut to [iEnd - i] characters, where [iEnd] is the
    first carriage return or line feed, or the end of the line.  The count
    is measured from [i], not from [i + 12], so up to twelve characters
    from the line end on are kept; and when the line end comes before the
    marker the count wraps around and the rest of the line is taken. *)
Theorem pid_text_extracts line i :
  String.length line < 1024 ->
  find line "Process ID:" = Some i ->
  i + 12 <= String.length line ->
  pid_text line =
    Ok (Some (if i <=? line_end line
              then take (line_end line - i) (drop (i + 12) line)
              else drop (i + 12) line)).
Proof.
  intros Hlen Hi Hl. rewrite (pid_text_eq _ _ Hlen Hi).
  pose proof (line_end_le line) as Hle.
  destruct (Nat.leb_spec i (line_end line)) as [Hie|Hie].
  - rewrite size_t_small; [|lia].
    unfold substr, size.
    destruct (Z.ltb_spec (Z.of_nat (String.length line)) (Z.of_nat (i + 12))); [lia|].
    rewrite Nat2Z.id. simpl. do 2 f_equal.
    destruct (Z.min_spec (Z.of_nat (line_end line) - Z.of_nat i)
                (Z.of_nat (String.length line) - Z.of_nat (i + 12))) as [[_ ->]|[Hm ->]].
    + f_equal. lia.
    + rewrite !str_take_ge; [done| |]; rewrite length_drop; lia.
  - rewrite substr_to_end; [done|lia|].
    unfold size_t.
    replace (Z.of_nat (line_end line) - Z.of_nat i)%Z
      with ((2 ^ 64 - (Z.of_nat i - Z.of_nat (line_end line))) + (-1) * 2 ^ 64)%Z by lia.
    rewrite Z.mod_add by lia. rewrite Z.mod_small; lia.
Qed.

Lemma pid_text_extracts_witness :
  pid_text ("00:00:01.2 Process ID: 4242" +:+ cr +:+ "main Log") =
  Ok (Some ("4242" +:+ cr +:+ "main Log")).
Proof.
  apply (pid_text_extracts ("00:00:01.2 Process ID: 4242" +:+ cr +:+ "main Log") 11).
  - simpl; lia.
  - by vm_compute.
  - simpl; lia.
Defined.

End PidFacts.

(* ================================================================== *)
(** * Looking a session up by the id of its VM; deleting a session *)
(* ================================================================== *)

(** The loop of [sessionByVBID] over the entries of the registry. *)
Fixpoint sessionByVBID_in (w : World) (virtualBoxGUID : string)
  (m : list (string * ptr)) : option ptr :=
  match m with
  | [] => None
  | (_, sess) :: m' =>
      if String.eqb (Cfg.get_or (parameters (deref w sess)) "vboxid" "")
           virtualBoxGUID
      then Some sess
      else sessionByVBID_in w virtualBoxGUID m'
  end.

(** [VBoxInstance::sessionByVBID]; [None] is the empty [HVSessionPtr]. *)
Definition sessionByVBID (virtualBoxGUID : string) (w : World) : option ptr :=
  sessionByVBID_in w virtualBoxGUID (sessions w).

Section LookupFacts.

Context (U : Utilities).

Lemma sessionByVBID_in_elem w guid m :
  match sessionByVBID_in w guid m with
  | Some sess => exists k, (k, sess) ∈ m /\ vboxid_of w sess = guid
  | None => forall e, e ∈ m -> vboxid_of w e.2 <> guid
  end.
Proof.
  induction m as [|[k p] m IH]; simpl.
  - by intros e ?%elem_of_nil.
  - unfold vboxid_of, Cfg.get in *.
    destruct (String.eqb_spec (Cfg.get_or (parameters (deref w p)) "vboxid" "") guid)
      as [E|N].
    + exists k. split; [by left|done].
    + destruct (sessionByVBID_in w guid m) as [sess|].
      * destruct IH as (k' & Hin & Hv). exists k'. split; [by right|done].
      * intros e [->|He]%elem_of_cons; [done|by apply IH].
Qed.

(** X6.  [sessionByVBID] returns the first session of the registry, in
    the order of the keys, whose "vboxid" parameter is the id asked for,
    and the empty pointer exactly when no session of the registry has it.
    A session without a "vboxid" counts as having the empty id. *)
Theorem sessionByVBID_first_match guid w :
  match sessionByVBID guid w with
  | Some sess =>
      exists i k, sessions w !! i = Some (k, sess) /\ vboxid_of w sess = guid /\
                  forall j e, j < i -> sessions w !! j = Some e ->
                              vboxid_of w e.2 <> guid
  | None => forall e, e ∈ sessions w -> vboxid_of w e.2 <> guid
  end.
Proof.
  unfold sessionByVBID. induction (sessions w) as [|[k p] m IH]; simpl.
  - by intros e ?%elem_of_nil.
  - unfold vboxid_of, Cfg.get in *.
    destruct (String.eqb_spec (Cfg.get_or (parameters (deref w p)) "vboxid" "") guid)
      as [E|N].
    + exists 0, k. split_and!; [done|done|]. intros j e Hj; lia.
    + destruct (sessionByVBID_in w guid m) as [sess|].
      * destruct IH as (i & k' & Hi & Hv & Hfirst).
        exists (S i), k'. split_and!; [done|done|].
        intros [|j] e Hj; simpl; [by intros [= <-]|].
        apply Hfirst. lia.
      * intros e [->|He]%elem_of_cons; [done|by apply IH].
Qed.

(** X7.  A session that [allocateSession] has just made, from a
    descriptor without a "vboxid", is what [sessionByVBID] returns for
    the empty id, when every other session of the registry has a VM. *)
Theorem sessionByVBID_finds_allocated guid w :
  consistent w ->
  (forall e, e ∈ sessions w -> vboxid_of w e.2 <> "") ->
  Cfg.contains (forRuntime ("vbsess-" +:+ guid) w) "vboxid" = false ->
  sessionByVBID "" (allocateSession U guid w).2 = Some (allocateSession U guid w).1.
Proof.
  intros Hc Hvm Hnone.
  destruct (allocateSession_fields U guid w) as (Ep & En & Es & Eo & Eh & Eu & _).
  assert (Hnew: vboxid_of (allocateSession U guid w).2 (allocateSession U guid w).1 = "").
  { unfold vboxid_of, allocateSession, make_session, store, new_session, deref.
    simpl. rewrite Nat.eqb_refl. simpl.
    unfold Cfg.get, Cfg.get_or, Cfg.set, Cfg.contains in *.
    rewrite lookup_insert_ne by done.
    by destruct (forRuntime _ w !! "vboxid"). }
  set (p := (allocateSession U guid w).1) in *.
  set (w' := (allocateSession U guid w).2) in *.
  pose proof (sessionByVBID_in_elem w' "" (sessions w')) as H.
  change (sessionByVBID_in w' "" (sessions w')) with (sessionByVBID "" w') in H.
  destruct (sessionByVBID "" w') as [sess|].
  - destruct H as (k & Hi & Hv). f_equal.
    rewrite Es in Hi.
    apply elem_of_assign in Hi as [[= _ ->]|Hi]; [done|].
    exfalso. apply (Hvm _ Hi). simpl.
    destruct (reg_keys w Hc _ _ Hi) as [Hlt _].
    unfold vboxid_of, deref in *. rewrite <- Eh; [done|]. rewrite Ep. lia.
  - exfalso. apply (H (guid, p)); [|done].
    rewrite Es. apply elem_of_assign_new.
Qed.

Lemma forRuntime_in_cleared d name :
  forRuntime_in (List.filter (fun e => negb (String.eqb name e.1)) d) name = ∅.
Proof.
  induction d as [|[n c] d IH]; simpl; [done|].
  destruct (String.eqb_spec name n); simpl; [done|].
  by destruct (String.eqb_spec name n).
Qed.

(** X8.  In a consistent instance [sessionDelete] leaves no registration
    and no open handle under the uuid of the session and touches no other
    registration; when the session was registered its descriptor is
    cleared; and deleting again changes nothing. *)
Theorem sessionDelete_removes session w :
  consistent w ->
  let u := uuid (deref w session) in
  let w' := sessionDelete session w in
  Reg.find (sessions w') u = None /\
  (u ∉ uuids w' (openSessions w')) /\
  (forall k, k <> u -> Reg.find (sessions w') k = Reg.find (sessions w) k) /\
  (registered w session -> forRuntime ("vbsess-" +:+ u) w' = ∅) /\
  sessionDelete session w' = w'.
Proof.
  intros Hc u w'.
  destruct (sessionDelete_fields session w) as (Eh & En & Es & Eo).
  fold u in Es, Eo. fold w' in Eh, En, Es, Eo.
  assert (Eu: uuid_same w w') by (intros p; unfold deref; by rewrite Eh).
  assert (Hgone: Reg.find (sessions w') u = None).
  { rewrite Es. apply find_erase_eq. apply (reg_sorted w Hc). }
  split_and!.
  - done.
  - rewrite (uuids_ext w w') by done. rewrite Eo.
    destruct (Reg.find (sessions w) u) as [q|] eqn:E.
    + apply erase_open_gone. apply (open_nodup w Hc).
    + intros (p & Hu & Hp)%list_elem_of_fmap.
      destruct (open_reg w Hc p Hp) as [q Hq]. congruence.
  - intros k Hk. rewrite Es. by apply find_erase_ne.
  - intros [q Hq]. fold u in Hq. unfold w', sessionDelete. cbv zeta. fold u.
    rewrite Hq.
    unfold forRuntime, config_clear, emit, set_log, set_host, set_disk.
    cbn [host disk]. apply forRuntime_in_cleared.
  - unfold sessionDelete at 1.
    replace (uuid (deref w' session)) with u by (unfold u, deref; by rewrite Eh).
    by rewrite Hgone.
Qed.

End LookupFacts.

Lemma sessionByVBID_finds_allocated_witness :
  sessionByVBID ""
    (allocateSession Sample.utilities "s1" (Sample.fresh foo_bar_host)).2
  = Some (allocateSession Sample.utilities "s1" (Sample.fresh foo_bar_host)).1.
Proof.
  apply (sessionByVBID_finds_allocated Sample.utilities "s1" (Sample.fresh foo_bar_host)).
  - apply fresh_consistent.
  - by intros e ?%elem_of_nil.
  - by vm_compute.
Defined.

Lemma sessionDelete_removes_witness :
  Reg.find (sessions (sessionDelete 0 one_allocated_session)) "a" = None.
Proof.
  assert (Hc: consistent one_allocated_session).
  { apply (consistent_allocate Sample.utilities), fresh_consistent. }
  exact (proj1 (sessionDelete_removes 0 one_allocated_session Hc)).
Defined.

(* ================================================================== *)
(** * The two clean-up loops of [loadSessions] *)
(* ================================================================== *)

(** The VM of the session of a registry entry is in the map of VMs. *)
Definition live (vboxVms : gmap string string) (w : World) (e : string * ptr)
  : bool :=
  if vboxVms !! vboxid_of w e.2 is Some _ then true else false.

(** The session is in the registry under its uuid. *)
Definition kept (w : World) (p : ptr) : bool :=
  if Reg.find (sessions w) (uuid (deref w p)) is Some _ then true else false.

(** What a loop that removes the elements failing [f], and after each
    removal goes back to the start and then one step forward, leaves of
    a list: the element that follows a removed first element is never
    looked at. *)
Definition swept {A} (f : A -> bool) (l : list A) : list A :=
  match l with
  | [] => []
  | x0 :: rest =>
      if f x0 then x0 :: List.filter f rest
      else match rest with
           | [] => []
           | x1 :: rest' => x1 :: List.filter f rest'
           end
  end.

Definition vm_name (name : string) : string :=
  if 3 <=? String.length name
  then Str.take (String.length name - 3) (Str.drop 1 name)
  else Str.drop 1 name.

Definition vm_uuid (uuid : string) : string :=
  Str.take (String.length uuid - 1) uuid.

Section CollectFacts.
Import Str StrFacts.

Lemma collect_vms_cons name uuid rest m :
  collect_vms ((name, uuid) :: rest) m =
  (name' ← substr name 1 (size_t (size name - 3));
   uuid' ← substr uuid 0 (size_t (size uuid - 1));
   if find name' "<inaccessible>" is Some _ then collect_vms rest m
   else collect_vms rest (<[uuid' := name']> (delete uuid' m))).
Proof. reflexivity. Qed.

Lemma substr_1_throws name n :
  (exists r, substr name 1 n = Ok r /\ name <> EmptyString) \/
  (substr name 1 n = Throw out_of_range /\ name = EmptyString).
Proof.
  unfold substr, size. destruct name as [|c name]; [by right|left].
  destruct (Z.ltb_spec (Z.of_nat (String.length (String c name))) 1) as [H|H];
    [simpl in H; lia|]. eauto.
Qed.

Lemma substr_0_ok uuid n : exists r, substr uuid 0 n = Ok r.
Proof. apply substr_defined. unfold size. lia. Qed.

Lemma collect_vms_throws vms m :
  (Exists (fun e => e.1 = EmptyString) vms <-> collect_vms vms m = Throw out_of_range) /\
  (forall e, collect_vms vms m = Throw e -> e = out_of_range).
Proof.
  revert m; induction vms as [|[name uuid] rest IH]; intros m.
  - simpl. split; [|done]. split; [by intros ?%Exists_nil|done].
  - rewrite collect_vms_cons.
    destruct (substr_1_throws name (size_t (size name - 3))) as [(n' & -> & Hn)|[-> ->]].
    + rewrite bind_Ok.
      destruct (substr_0_ok uuid (size_t (size uuid - 1))) as [u' ->]. rewrite bind_Ok.
      rewrite Exists_cons. simpl.
      destruct (find n' "<inaccessible>");
        [destruct (IH m) as [IH1 IH2]|destruct (IH (<[u':=n']> (delete u' m))) as [IH1 IH2]];
        (split; [|done]); rewrite <- IH1;
        (split; [by intros [?|?]|by right]).
    + rewrite bind_Throw. split; [|by intros e [= <-]].
      split; [done|]. intros _. by left.
Qed.

Lemma vm_name_eq name :
  (size name < npos)%Z -> name <> EmptyString ->
  substr name 1 (size_t (size name - 3)) = Ok (vm_name name).
Proof.
  intros Hs Hn. unfold vm_name, size, npos in *.
  assert (1 <= String.length name) by (destruct name; [done|simpl; lia]).
  destruct (Nat.leb_spec 3 (String.length name)) as [H3|H3].
  - rewrite size_t_small by lia. unfold substr, size.
    destruct (Z.ltb_spec (Z.of_nat (String.length name)) 1); [lia|].
    rewrite Z.min_l by lia. change (Z.to_nat 1) with 1. do 2 f_equal. lia.
  - apply (substr_to_end name 1); [done|].
    unfold size_t.
    replace (Z.of_nat (String.length name) - 3)%Z
      with ((2 ^ 64 - (3 - Z.of_nat (String.length name))) + (-1) * 2 ^ 64)%Z by lia.
    rewrite Z.mod_add by lia. rewrite Z.mod_small; lia.
Qed.

Lemma vm_uuid_eq uuid :
  (size uuid < npos)%Z ->
  substr uuid 0 (size_t (size uuid - 1)) = Ok (vm_uuid uuid).
Proof.
  intros Hs. unfold vm_uuid, size, npos in *.
  destruct (decide (uuid = EmptyString)) as [->|Hne]; [done|].
  assert (1 <= String.length uuid) by (destruct uuid; [done|simpl; lia]).
  rewrite size_t_small by lia. unfold substr, size.
  destruct (Z.ltb_spec (Z.of_nat (String.length uuid)) 0); [lia|].
  rewrite Z.min_l by lia. change (Z.to_nat 0) with 0. do 2 f_equal. lia.
Qed.

(** X9.  What step 2 of [loadSessions] puts in the map of VMs: under
    the second text of a pair without its last character, the first text
    without its first character and its last two (without the first one
    only, when it has fewer than three); and never a name that shows
    "<inaccessible>". *)
Theorem collect_vms_sound vms m m' u n :
  Forall (fun e => (size e.1 < npos)%Z /\ (size e.2 < npos)%Z) vms ->
  collect_vms vms m = Ok m' ->
  m' !! u = Some n ->
  m !! u = Some n \/
  exists name uuid,
    (name, uuid) ∈ vms /\ n = vm_name name /\ u = vm_uuid uuid /\
    find n "<inaccessible>" = None.
Proof.
  intros Hsz. revert m. induction Hsz as [|[name uuid] rest [Hs1 Hs2] _ IH]; intros m.
  - simpl. intros [= <-]. by left.
  - rewrite collect_vms_cons. simpl in Hs1, Hs2.
    destruct (substr_1_throws name (size_t (size name - 3))) as [(n' & En & Hn)|[-> ->]];
      [|by rewrite bind_Throw].
    rewrite (vm_name_eq name Hs1 Hn), bind_Ok, (vm_uuid_eq uuid Hs2), bind_Ok.
    destruct (find (vm_name name) "<inaccessible>") eqn:Ef.
    + intros Hc Hu. destruct (IH m Hc Hu) as [?|(a & b & Hin & ?)]; [by left|].
      right. exists a, b. split; [by right|done].
    + intros Hc Hu. destruct (IH _ Hc Hu) as [Hl|(a & b & Hin & ?)].
      * destruct (decide (u = vm_uuid uuid)) as [->|Hne].
        -- rewrite lookup_insert_eq in Hl. injection Hl as <-.
           right. exists name, uuid. split; [by left|done].
        -- rewrite lookup_insert_ne, lookup_delete_ne in Hl by done. by left.
      * right. exists a, b. split; [by right|done].
Qed.

Lemma collect_vms_sound_witness :
  (∅ : gmap string string) !! "41f2-9c"%string = Some "cernvm"%string \/
  exists name uuid,
    (name, uuid) ∈ [(dquote +:+ "cernvm" +:+ dquote +:+ " ",
                     "41f2-9c}")] /\
    "cernvm" = vm_name name /\ "41f2-9c" = vm_uuid uuid /\
    find "cernvm" "<inaccessible>" = None.
Proof.
  apply (collect_vms_sound
           [(dquote +:+ "cernvm" +:+ dquote +:+ " ", "41f2-9c}")]
           ∅ (<["41f2-9c" := "cernvm"]> ∅) "41f2-9c" "cernvm").
  - repeat constructor; by vm_compute.
  - by vm_compute.
  - by rewrite lookup_insert_eq.
Defined.

End CollectFacts.

Section SweepFacts.

Lemma filter_delete_false {A} (f : A -> bool) l i x :
  l !! i = Some x -> f x = false -> List.filter f (delete i l) = List.filter f l.
Proof.
  revert i; induction l as [|y l IH]; intros [|i]; simpl; try done.
  - intros [= ->] ->. done.
  - intros Hi Hx. by rewrite (IH i Hi Hx).
Qed.

Lemma filter_all {A} (f : A -> bool) l :
  Forall (fun x => f x = true) l -> List.filter f l = l.
Proof. induction 1 as [|x l Hx _ IH]; simpl; [done|]. by rewrite Hx, IH. Qed.

Lemma filter_ext_in {A} (f g : A -> bool) l :
  (forall x, f x = g x) -> List.filter f l = List.filter g l.
Proof. intros H. induction l as [|x l IH]; simpl; [done|]. by rewrite H, IH. Qed.

Lemma Forall_take_S {A} (P : A -> Prop) l j x :
  l !! j = Some x -> Forall P (take j l) -> P x -> Forall P (take (S j) l).
Proof.
  intros Hj Hf Hx. rewrite (take_S_r _ _ _ Hj). apply Forall_app. split; [done|].
  by constructor.
Qed.

Lemma erase_at m i k p :
  StronglySorted str_lt m.*1 -> m !! i = Some (k, p) -> Reg.erase m k = delete i m.
Proof.
  revert i; induction m as [|[k' p'] m IH]; intros [|i] Hs; simpl; try done.
  - intros [= -> ->]. by rewrite String.eqb_refl.
  - intros Hi. inversion Hs as [|? ? Hs' Hall]; subst.
    destruct (String.eqb_spec k k') as [->|N].
    + exfalso. rewrite Forall_forall in Hall.
      apply (str_lt_irrefl k'), Hall.
      apply (list_elem_of_fmap_2 fst _ (k', p)). by eapply list_elem_of_lookup_2.
    + f_equal. by apply IH.
Qed.

Lemma kept_ext w w' p :
  sessions w' = sessions w -> heap w' = heap w -> kept w' p = kept w p.
Proof. intros Es Eh. unfold kept, deref. by rewrite Es, Eh. Qed.

Lemma live_ext vms w w' e : heap w' = heap w -> live vms w' e = live vms w e.
Proof. intros Eh. unfold live, vboxid_of, deref. by rewrite Eh. Qed.

Lemma release_lost_S fuel it w :
  release_lost (S fuel) it w =
  match openSessions w !! it with
  | None => Some w
  | Some sess =>
      if Reg.find (sessions w) (uuid (deref w sess)) is None then
        let w1 := emit (NotifyDestroyed sess) w in
        let w2 := set_openSessions (delete it (openSessions w1)) w1 in
        if Nat.eqb (length (openSessions w2)) 0 then Some w2
        else release_lost fuel 1 w2
      else release_lost fuel (S it) w
  end.
Proof. reflexivity. Qed.

Lemma release_lost_from fuel j w w' o l :
  release_lost fuel (S j) w = Some w' ->
  openSessions w = o :: l ->
  Forall (fun p => kept w p = true) (take j l) ->
  openSessions w' = o :: List.filter (kept w) l.
Proof.
  revert j w l; induction fuel as [|fuel IH]; intros j w l H Ho Hf; [done|].
  rewrite release_lost_S, Ho in H. change ((o :: l) !! S j) with (l !! j) in H.
  destruct (l !! j) as [sess|] eqn:E.
  - destruct (Reg.find (sessions w) (uuid (deref w sess))) as [q|] eqn:Ef.
    + apply (IH (S j) w l H Ho). eapply Forall_take_S; [done|done|].
      unfold kept. by rewrite Ef.
    + cbv zeta in H. cbn [openSessions emit set_log set_openSessions] in H.
      rewrite Ho in H.
      change (delete (S j) (o :: l)) with (o :: delete j l) in H.
      cbn [length Nat.eqb] in H.
      apply (IH 0 _ (delete j l)) in H; [|done|by constructor].
      rewrite H. f_equal.
      rewrite (filter_ext_in _ (kept w)) by (intros p; by apply kept_ext).
      apply (filter_delete_false _ _ _ sess E). unfold kept. by rewrite Ef.
  - injection H as <-. rewrite Ho. f_equal. symmetry. apply filter_all.
    apply lookup_ge_None in E. by rewrite take_ge in Hf by lia.
Qed.

Lemma release_lost_open fuel w w' :
  release_lost fuel 0 w = Some w' ->
  openSessions w' = swept (kept w) (openSessions w).
Proof.
  destruct fuel as [|fuel]; [done|].
  rewrite release_lost_S.
  destruct (openSessions w) as [|o l] eqn:Ho; [by intros [= <-]|].
  change ((o :: l) !! 0) with (Some o). unfold swept, kept at 1.
  destruct (Reg.find (sessions w) (uuid (deref w o))) as [q|] eqn:Ef.
  - intros H. apply (release_lost_from _ _ _ _ o l H Ho). constructor.
  - cbv zeta. cbn [openSessions emit set_log set_openSessions].
    rewrite Ho. cbn [delete]. destruct l as [|o1 l]; [by intros [= <-]|].
    cbn [length Nat.eqb]. intros H.
    apply (release_lost_from _ _ _ _ o1 l) in H; [|done|constructor].
    by rewrite H.
Qed.

(** X10.  Step 4 of [loadSessions] ends, changes neither the registry nor
    a session, and leaves of the open list: the sessions that are in the
    registry, except that, when the first session of the list was lost,
    the one that followed it stays whether it is registered or not (after
    an erasure the iterator is put on the first element and then
    advanced). *)
Theorem release_lost_result w :
  exists w',
    release_lost (loop_fuel (length (openSessions w))) 0 w = Some w' /\
    openSessions w' = swept (kept w) (openSessions w) /\
    sessions w' = sessions w /\ heap w' = heap w.
Proof.
  destruct (release_lost_terminates (loop_fuel (length (openSessions w))) 0 w)
    as [w' H]; [unfold loop_fuel; lia|].
  exists w'. split; [done|].
  destruct (release_lost_frame _ _ _ _ H) as (Eh & _ & Es).
  split; [|done]. by eapply release_lost_open.
Qed.

Lemma remove_unregistered_S fuel vboxVms it w :
  remove_unregistered (S fuel) vboxVms it w =
  match sessions w !! it with
  | None => Some w
  | Some (_, sess) =>
      if vboxVms !! Cfg.get (parameters (deref w sess)) "vboxid" is None then
        let w1 := sessionDelete sess w in
        if Nat.eqb (length (sessions w1)) 0 then Some w1
        else remove_unregistered fuel vboxVms 1 w1
      else remove_unregistered fuel vboxVms (S it) w
  end.
Proof. reflexivity. Qed.

Lemma sessionDelete_at w i k sess :
  StronglySorted str_lt (sessions w).*1 -> reg_keyed w ->
  sessions w !! i = Some (k, sess) ->
  sessions (sessionDelete sess w) = delete i (sessions w) /\
  heap (sessionDelete sess w) = heap w /\
  StronglySorted str_lt (sessions (sessionDelete sess w)).*1 /\
  reg_keyed (sessionDelete sess w).
Proof.
  intros Hs Hk Hi.
  destruct (sessionDelete_fields sess w) as (Eh & _ & Es & _).
  destruct (Hk k sess (list_elem_of_lookup_2 _ _ _ Hi)) as [_ Hu].
  rewrite Hu in Es. split_and!.
  - rewrite Es. by apply erase_at with sess.
  - done.
  - rewrite Es. by apply sorted_erase.
  - by apply reg_keyed_delete.
Qed.

Lemma remove_unregistered_from vms fuel j w w' e l :
  StronglySorted str_lt (sessions w).*1 -> reg_keyed w ->
  remove_unregistered fuel vms (S j) w = Some w' ->
  sessions w = e :: l ->
  Forall (fun x => live vms w x = true) (take j l) ->
  sessions w' = e :: List.filter (live vms w) l.
Proof.
  revert j w l; induction fuel as [|fuel IH]; intros j w l Hs Hk H Ho Hf; [done|].
  rewrite remove_unregistered_S in H.
  assert (El: sessions w !! S j = l !! j) by by rewrite Ho.
  destruct (l !! j) as [[k sess]|] eqn:E; rewrite El in H.
  - destruct (vms !! Cfg.get (parameters (deref w sess)) "vboxid") as [n|] eqn:Ef.
    + apply (IH (S j) w l Hs Hk H Ho). eapply Forall_take_S; [done|done|].
      unfold live, vboxid_of. simpl. by rewrite Ef.
    + cbv zeta in H.
      destruct (sessionDelete_at w (S j) k sess Hs Hk) as (Es & Eh & Hs' & Hk');
        [by rewrite El|].
      rewrite Ho in Es. cbn [delete] in Es. rewrite Es in H.
      cbn [length Nat.eqb] in H.
      apply (IH 0 _ (delete j l) Hs' Hk') in H; [|done|by constructor].
      rewrite H. f_equal.
      rewrite (filter_ext_in _ (live vms w)) by (intros x; by apply live_ext).
      apply (filter_delete_false _ _ _ (k, sess) E).
      unfold live, vboxid_of. simpl. by rewrite Ef.
  - injection H as <-. rewrite Ho. f_equal. symmetry. apply filter_all.
    apply lookup_ge_None in E. by rewrite take_ge in Hf by lia.
Qed.

Lemma remove_unregistered_sessions vms fuel w w' :
  StronglySorted str_lt (sessions w).*1 -> reg_keyed w ->
  remove_unregistered fuel vms 0 w = Some w' ->
  sessions w' = swept (live vms w) (sessions w).
Proof.
  intros Hs Hk. destruct fuel as [|fuel]; [done|].
  rewrite remove_unregistered_S.
  destruct (sessions w) as [|[k0 s0] l] eqn:Ho; [by intros [= <-]|].
  change (((k0, s0) :: l) !! 0) with (Some (k0, s0)). unfold swept, live at 1.
  unfold vboxid_of. simpl snd.
  destruct (vms !! Cfg.get (parameters (deref w s0)) "vboxid") as [n|] eqn:Ef.
  - intros H.
    apply (remove_unregistered_from _ _ _ _ _ (k0, s0) l) in H;
      [done|by rewrite Ho|done|done|constructor].
  - cbv zeta.
    destruct (sessionDelete_at w 0 k0 s0) as (Es & Eh' & Hs' & Hk');
      [by rewrite Ho|done|by rewrite Ho|].
    rewrite Ho in Es. cbn [delete] in Es. rewrite Es.
    destruct l as [|e1 l]; [by intros [= <-]|].
    cbn [length Nat.eqb]. intros H.
    apply (remove_unregistered_from _ _ _ _ _ e1 l) in H; [|done|done|done|constructor].
    rewrite H. f_equal. apply filter_ext_in. intros x. by apply live_ext.
Qed.

(** X11.  Step 3 of [loadSessions], on a registry that files each
    session under its uuid: the loop ends, changes no session, and leaves
    the entries whose VM is in the map of VMs, except that, when the
    first entry had no VM, the entry that followed it stays whether it
    has one or not. *)
Theorem remove_unregistered_result vms w :
  StronglySorted str_lt (sessions w).*1 -> reg_keyed w ->
  exists w',
    remove_unregistered (loop_fuel (length (sessions w))) vms 0 w = Some w' /\
    sessions w' = swept (live vms w) (sessions w) /\ heap w' = heap w.
Proof.
  intros Hs Hk.
  destruct (remove_unregistered_terminates vms (loop_fuel (length (sessions w))) 0 w)
    as [w' H]; [done|unfold loop_fuel; lia|].
  exists w'. split; [done|].
  destruct (remove_unregistered_frame _ _ _ _ _ H) as (Eh & _).
  split; [|done]. by eapply remove_unregistered_sessions.
Qed.

Context (U : Utilities).

Lemma load_from_disk_sorted names w :
  StronglySorted str_lt (sessions w).*1 ->
  StronglySorted str_lt (sessions (load_from_disk U names w)).*1.
Proof.
  revert w; induction names as [|n names IH]; intros w Hs; [done|].
  rewrite load_from_disk_cons. apply IH.
  destruct (load_one_fields U n w) as (_ & _ & _ & _ & _ & _ & [(Es & _)|(Es & _)]);
    rewrite Es; [done|by apply sorted_assign].
Qed.

Lemma loaded_sorted pf w : StronglySorted str_lt (sessions (loaded U pf w)).*1.
Proof. apply load_from_disk_sorted. simpl. constructor. Qed.

Lemma loadSessions_completes pf w vms :
  let r := hv_answer (host w) "list vms" in
  let w1 := loaded U pf w in
  exit_code r = 0%Z ->
  collect_vms (tokenize U (out_lines r) "{"%char) ∅ = Ok vms ->
  exists w',
    loadSessions U pf w = Ok (HVE_OK, w') /\
    sessions w' = swept (live vms w1) (sessions w1) /\ heap w' = heap w1.
Proof.
  intros r w1 Hx Hc. rewrite loadSessions_eq. fold r. rewrite Hx. cbn [Z.eqb negb].
  fold w1. unfold reconcile. rewrite Hc, bind_Ok.
  destruct (loaded_fields U pf w) as (_ & _ & _ & _ & _ & _ & Hk & _). fold w1 in Hk.
  pose proof (loaded_sorted pf w) as Hs. fold w1 in Hs.
  match goal with |- context [remove_unregistered _ vms 0 ?x] => set (w2 := x) end.
  match goal with |- context [remove_unregistered ?f vms 0 w2] => set (fuel3 := f) end.
  assert (E2: sessions w2 = sessions w1 /\ heap w2 = heap w1 /\ next w2 = next w1)
    by (unfold w2; by destruct pf).
  destruct E2 as (E2s & E2h & E2n).
  assert (Hk2: reg_keyed w2).
  { intros k p. unfold deref. rewrite E2s, E2h, E2n. apply Hk. }
  destruct (remove_unregistered_terminates vms fuel3 0 w2 Hk2) as [w3 H3];
    [unfold fuel3, loop_fuel; lia|].
  rewrite H3. simpl run_loop. rewrite bind_Ok.
  pose proof (remove_unregistered_sessions vms fuel3 w2 w3) as E3.
  rewrite E2s in E3. specialize (E3 Hs Hk2 H3).
  destruct (remove_unregistered_frame _ _ _ _ _ H3) as (E3h & _).
  match goal with |- context [release_lost _ 0 ?x] => set (w4 := x) end.
  match goal with |- context [release_lost ?f 0 w4] => set (fuel4 := f) end.
  assert (E4: sessions w4 = sessions w3 /\ heap w4 = heap w3)
    by (unfold w4; by destruct pf).
  destruct E4 as (E4s & E4h).
  destruct (release_lost_terminates fuel4 0 w4) as [w5 H5];
    [unfold fuel4, loop_fuel; lia|].
  rewrite H5. simpl run_loop. rewrite bind_Ok.
  destruct (release_lost_frame _ _ _ _ H5) as (E5h & _ & E5s).
  eexists. split; [done|]. split.
  - transitivity (sessions w5); [by destruct pf|].
    rewrite E5s, E4s, E3. destruct (sessions w1) as [|e0 l]; [done|]. simpl.
    rewrite (live_ext vms w1 w2 e0 E2h).
    destruct (live vms w1 e0).
    + f_equal. apply filter_ext_in. intros x. by apply live_ext.
    + destruct l as [|e1 l]; [done|]. f_equal. apply filter_ext_in.
      intros x. by apply live_ext.
  - transitivity (heap w5); [by destruct pf|]. by rewrite E5h, E4h, E3h.
Qed.

(** X12.  When the hypervisor lists its VMs and every name of the list
    is well formed, [loadSessions] returns HVE_OK with a registry made of
    the sessions of the descriptors on disk whose VM is listed, except
    that the second session stays, listed or not, when the first one is
    not; so no session without a VM is left when the first session
    loaded has one. *)
Theorem loadSessions_registry pf w vms :
  let r := hv_answer (host w) "list vms" in
  let w1 := loaded U pf w in
  exit_code r = 0%Z ->
  collect_vms (tokenize U (out_lines r) "{"%char) ∅ = Ok vms ->
  exists w',
    loadSessions U pf w = Ok (HVE_OK, w') /\
    sessions w' = swept (live vms w1) (sessions w1) /\
    (forall e l, sessions w1 = e :: l -> live vms w1 e = true -> no_orphans vms w').
Proof.
  intros r w1 Hx Hc.
  destruct (loadSessions_completes pf w vms Hx Hc) as (w' & H & Es & Eh).
  fold w1 in Es, Eh. exists w'. split_and!; [done|done|].
  intros e l El Hlive k p. rewrite Es, El. simpl. rewrite Hlive.
  intros Hin.
  assert (Hl: live vms w1 (k, p) = true).
  { apply elem_of_cons in Hin as [->|Hin]; [done|].
    apply list_elem_of_In, List.filter_In in Hin. tauto. }
  unfold live in Hl. unfold vboxid_of, deref in *. rewrite Eh. simpl in Hl.
  by destruct (vms !! _).
Qed.

(** X13.  [loadSessions] always comes back: with a status, or with
    [std::out_of_range] thrown in step 2, which happens exactly when the
    hypervisor answers the query and [tokenize] returns an empty name. *)
Theorem loadSessions_outcome pf w :
  let r := hv_answer (host w) "list vms" in
  ((exists c w', loadSessions U pf w = Ok (c, w')) \/
   loadSessions U pf w = Throw out_of_range) /\
  (loadSessions U pf w = Throw out_of_range <->
   exit_code r = 0%Z /\
   Exists (fun e => e.1 = EmptyString) (tokenize U (out_lines r) "{"%char)).
Proof.
  intros r. rewrite loadSessions_eq. fold r.
  destruct (Z.eqb_spec (exit_code r) 0) as [Hx|Hx]; cbn [negb].
  2:{ split; [left; eauto|]. split; [done|]. by intros [? _]. }
  pose proof (collect_vms_throws (tokenize U (out_lines r) "{"%char) ∅) as [Ht He].
  destruct (collect_vms (tokenize U (out_lines r) "{"%char) ∅) as [vms|e] eqn:Ec.
  - destruct (loadSessions_completes pf w vms Hx Ec) as (w' & H & _).
    rewrite loadSessions_eq in H. fold r in H. rewrite Hx in H. cbn [Z.eqb negb] in H.
    rewrite H. split; [left; eauto|]. split; [done|].
    intros [_ Hex]. apply Ht in Hex. discriminate.
  - assert (e = out_of_range) as -> by by apply He.
    unfold reconcile. rewrite Ec, bind_Throw. split; [by right|].
    split; [|done]. intros _. split; [done|]. by apply Ht.
Qed.

End SweepFacts.

(* ================================================================== *)
(** * Capabilities: statuses, partial results, the fields of EAX *)
(* ================================================================== *)

(** The six fields of the EAX register of leaf 1: stepping, model,
    family, type, extended model, extended family. *)
Definition eax_fields (v : Z) : Z * Z * Z * Z * Z * Z :=
  (v mod 16, (v / 16) mod 16, (v / 256) mod 16, (v / 4096) mod 4,
   (v / 65536) mod 16, (v / 1048576) mod 256)%Z.

Definition fields_of (c : HVINFO_CPUID) : Z * Z * Z * Z * Z * Z :=
  (stepping c, model c, family c, type c, exmodel c, exfamily c).

(** The limits of a capability record. *)
Definition limits_of (caps : HVINFO_CAPS) : Z * Z * Z :=
  (max_cpus caps, max_memory caps, max_disk caps).

Section MoreCapabilityFacts.

Context (U : Utilities).

Lemma field_mask v n k :
  (0 <= k)%Z -> (0 <= n)%Z ->
  Z.shiftr (Z.land v (Z.shiftl (Z.ones n) k)) k = ((v / 2 ^ k) mod 2 ^ n)%Z.
Proof.
  intros Hk Hn. rewrite Z.shiftr_land, Z.shiftr_shiftl_l by lia.
  rewrite Z.sub_diag, Z.shiftl_0_r, Z.land_ones, Z.shiftr_div_pow2 by lia.
  done.
Qed.

Lemma eax_fields_eq v :
  (Z.land v 0xF, Z.shiftr (Z.land v 0xF0) 4, Z.shiftr (Z.land v 0xF00) 8,
   Z.shiftr (Z.land v 0x3000) 12, Z.shiftr (Z.land v 0xF0000) 16,
   Z.shiftr (Z.land v 0xFF00000) 20) = eax_fields v.
Proof.
  unfold eax_fields.
  change 0xF%Z with (Z.ones 4). rewrite Z.land_ones by lia.
  change 0xF0%Z with (Z.shiftl (Z.ones 4) 4).
  change 0xF00%Z with (Z.shiftl (Z.ones 4) 8).
  change 0x3000%Z with (Z.shiftl (Z.ones 2) 12).
  change 0xF0000%Z with (Z.shiftl (Z.ones 4) 16).
  change 0xFF00000%Z with (Z.shiftl (Z.ones 8) 20).
  by rewrite !field_mask by lia.
Qed.

(** One line of the listing: it is read when its row has the fields the
    code indexes, and reads past the end of the fields otherwise. *)
Lemma cpuid_line_cases line c :
  (row_ok U line /\
   exists c1, cpuid_line U line c = Ok c1 /\
     fields_of c1
     = from_option (fun row => eax_fields (hex_ston U (nth 1 row EmptyString)))
         (fields_of c) (row_of U "00000001" line) /\
     featuresB c1
     = from_option (fun row => hex_ston U (nth 4 row EmptyString))
         (featuresB c) (row_of U "00000001" line) /\
     featuresD c1
     = from_option (fun row => hex_ston U (nth 4 row EmptyString))
         (featuresD c) (row_of U "80000001" line)) \/
  (~ row_ok U line /\ cpuid_line U line c = Throw index_out_of_bounds).
Proof.
  unfold cpuid_line, row_ok, row_of.
  destruct (trimSplit U line) as [|p0 ps]; [left; split; [done|by exists c]|].
  simpl length. simpl Nat.eqb. cbv iota.
  change (at_index (p0 :: ps) 0) with (Ok (A:=string) p0). rewrite bind_Ok.
  destruct (String.eqb_spec p0 "00000000") as [->|N0].
  { destruct ps as [|eax [|ebx [|ecx [|edx rest]]]];
      try (right; split; [|reflexivity]; intros H;
           specialize (H "00000000" ltac:(simpl; tauto) _ eq_refl); simpl in H; lia).
    left. split.
    - intros leaf Hin row.
      destruct (String.eqb _ leaf); [|done]. intros [= <-]. simpl; lia.
    - eexists. split; [reflexivity|]. by simpl. }
  destruct (String.eqb_spec p0 "00000001") as [->|N1].
  { destruct ps as [|eax [|ebx [|ecx [|edx rest]]]];
      try (right; split; [|reflexivity]; intros H;
           specialize (H "00000001" ltac:(simpl; tauto) _ eq_refl); simpl in H; lia).
    left. split.
    - intros leaf Hin row.
      destruct (String.eqb _ leaf); [|done]. intros [= <-]. simpl; lia.
    - eexists. split; [reflexivity|]. cbn [from_option nth].
      unfold fields_of at 1. cbn [stepping model family type exmodel exfamily
                                   featuresB featuresD].
      by rewrite eax_fields_eq. }
  destruct (String.eqb_spec p0 "80000001") as [->|N2].
  { destruct ps as [|eax [|ebx [|ecx [|edx rest]]]];
      try (right; split; [|reflexivity]; intros H;
           specialize (H "80000001" ltac:(simpl; tauto) _ eq_refl); simpl in H; lia).
    left. split.
    - intros leaf Hin row.
      destruct (String.eqb _ leaf); [|done]. intros [= <-]. simpl; lia.
    - eexists. split; [reflexivity|]. by simpl. }
  left. split.
  - intros leaf [<-|[<-|[<-|[]]]] row.
    + by destruct (String.eqb_spec p0 "00000000").
    + by destruct (String.eqb_spec p0 "00000001").
    + by destruct (String.eqb_spec p0 "80000001").
  - exists c. split; [done|].
    destruct (String.eqb_spec p0 "00000001"); [done|].
    by destruct (String.eqb_spec p0 "80000001").
Qed.

Lemma cpuid_lines_cases lines c :
  (Forall (row_ok U) lines /\
   exists c', cpuid_lines U lines c = Ok c' /\
     fields_of c'
     = from_option (fun row => eax_fields (hex_ston U (nth 1 row EmptyString)))
         (fields_of c) (last_row U "00000001" lines) /\
     featuresB c'
     = from_option (fun row => hex_ston U (nth 4 row EmptyString))
         (featuresB c) (last_row U "00000001" lines) /\
     featuresD c'
     = from_option (fun row => hex_ston U (nth 4 row EmptyString))
         (featuresD c) (last_row U "80000001" lines)) \/
  (~ Forall (row_ok U) lines /\ cpuid_lines U lines c = Throw index_out_of_bounds).
Proof.
  revert c; induction lines as [|line rest IH]; intros c.
  - left. split; [constructor|by exists c].
  - simpl cpuid_lines.
    destruct (cpuid_line_cases line c) as [(Hok & c1 & -> & F1 & B1 & D1)|[Hbad ->]].
    + rewrite bind_Ok.
      destruct (IH c1) as [(Hrest & c' & -> & F' & B' & D')|[Hbad ->]].
      * left. split; [by constructor|]. exists c'. split; [done|].
        rewrite F', B', D', F1, B1, D1. simpl.
        by destruct (last_row U "00000001" rest), (last_row U "80000001" rest).
      * right. split; [|done]. intros H. apply Hbad. by inversion H.
    + right. split; [|done]. intros H. apply Hbad. by inversion H.
Qed.

Lemma getCapabilities_eq caps w :
  let r := hv_answer (host w) "list hostcpuids" in
  let r2 := hv_answer (host w) "list systemproperties" in
  let w1 := emit (Exec "list hostcpuids") w in
  let w2 := emit (Exec "list systemproperties") w1 in
  getCapabilities U caps w =
  if negb (exit_code r =? 0)%Z then Ok (HVE_QUERY_ERROR, caps, w1)
  else if Nat.eqb (length (out_lines r)) 0 then Ok (HVE_EXTERNAL_ERROR, caps, w1)
  else
    c ← cpuid_lines U (out_lines r) (cpu caps);
    let caps1 :=
      mkCaps (update_flags c) (max_cpus caps) (max_memory caps) (max_disk caps) in
    if negb (exit_code r2 =? 0)%Z then Ok (HVE_QUERY_ERROR, caps1, w2)
    else if Nat.eqb (length (out_lines r2)) 0 then Ok (HVE_EXTERNAL_ERROR, caps1, w2)
    else Ok (HVE_OK, limits U (parseLines U (out_lines r2)) (update_flags c), w2).
Proof.
  intros r r2 w1 w2. unfold getCapabilities.
  rewrite (exec_query "list hostcpuids") by done. fold r w1.
  destruct (negb _); [done|]. destruct (Nat.eqb _ 0); [done|].
  destruct (cpuid_lines U (out_lines r) (cpu caps)) as [c|e]; [|done].
  rewrite !bind_Ok. by rewrite (exec_query "list systemproperties") by done.
Qed.

(** X14.  [getCapabilities] has no defined result exactly when the first
    query succeeds and one of the rows of a leaf that is read has fewer
    than five fields: the code indexes the fields without looking at
    their number.  Nothing else goes wrong. *)
Theorem getCapabilities_defined caps w :
  let r := hv_answer (host w) "list hostcpuids" in
  (getCapabilities U caps w = Throw index_out_of_bounds <->
   exit_code r = 0%Z /\ ~ Forall (row_ok U) (out_lines r)) /\
  (forall e, getCapabilities U caps w = Throw e -> e = index_out_of_bounds).
Proof.
  intros r. rewrite getCapabilities_eq. fold r. cbv zeta.
  destruct (Z.eqb_spec (exit_code r) 0) as [Hx|Hx]; cbn [negb].
  2:{ split; [|done]. split; [done|by intros [? _]]. }
  destruct (out_lines r) as [|l0 ls] eqn:El.
  { simpl. split; [|done]. split; [done|]. intros [_ H]. by destruct H. }
  cbn [length Nat.eqb].
  destruct (cpuid_lines_cases (l0 :: ls) (cpu caps)) as [(Hok & c' & -> & _)|[Hbad ->]].
  - rewrite bind_Ok. destruct (negb _); [|destruct (Nat.eqb _ 0)];
      (split; [split; [done|by intros [_ ?]]|done]).
  - rewrite bind_Throw. split; [by split|by intros e [= <-]].
Qed.

(** X15.  What [getCapabilities] leaves in [*caps] with each status.
    The status is one of HVE_OK, HVE_QUERY_ERROR and HVE_EXTERNAL_ERROR;
    when the first query fails or prints nothing the record is untouched
    and the second query is not made; with any status but HVE_OK the
    limits are untouched, while the CPU part may have been rewritten; and
    HVE_OK needs both queries to succeed with output, and leaves the
    [hasVM] flag off. *)
Theorem getCapabilities_status caps w code caps' w' :
  let r := hv_answer (host w) "list hostcpuids" in
  let r2 := hv_answer (host w) "list systemproperties" in
  getCapabilities U caps w = Ok (code, caps', w') ->
  (code = HVE_OK \/ code = HVE_QUERY_ERROR \/ code = HVE_EXTERNAL_ERROR) /\
  (exit_code r <> 0%Z \/ out_lines r = [] ->
   code <> HVE_OK /\ caps' = caps /\ w' = emit (Exec "list hostcpuids") w) /\
  (code <> HVE_OK -> limits_of caps' = limits_of caps) /\
  (code = HVE_OK ->
   exit_code r = 0%Z /\ out_lines r <> [] /\ exit_code r2 = 0%Z /\
   out_lines r2 <> [] /\ hasVM (cpu caps') = false).
Proof.
  intros r r2. rewrite getCapabilities_eq. fold r r2. cbv zeta.
  destruct (Z.eqb_spec (exit_code r) 0) as [Hx|Hx]; cbn [negb].
  2:{ intros [= <- <- <-]. split_and!; [by auto|done|done|done]. }
  destruct (out_lines r) as [|l0 ls] eqn:El.
  { simpl. intros [= <- <- <-]. split_and!; [by auto|done|done|done]. }
  cbn [length Nat.eqb].
  destruct (cpuid_lines U (l0 :: ls) (cpu caps)) as [c|e]; [|done].
  rewrite bind_Ok.
  destruct (Z.eqb_spec (exit_code r2) 0) as [Hx2|Hx2]; cbn [negb].
  2:{ intros [= <- <- <-]. split_and!; [by auto|by intros [?|?]|done|done]. }
  destruct (out_lines r2) as [|m0 ms] eqn:El2.
  { simpl. intros [= <- <- <-]. split_and!; [by auto|by intros [?|?]|done|done]. }
  cbn [length Nat.eqb]. intros [= <- <- <-].
  split_and!; [by auto|by intros [?|?]|done|done].
Qed.


End MoreCapabilityFacts.

Lemma getCapabilities_status_witness :
  exists caps' w',
    getCapabilities Sample.utilities blank_caps (Sample.fresh intel_host)
    = Ok (HVE_OK, caps', w') /\
    hasVM (cpu caps') = false.
Proof.
  destruct (getCapabilities Sample.utilities blank_caps (Sample.fresh intel_host))
    as [[[code caps'] w']|e] eqn:E; [|by vm_compute in E].
  assert (Hc: code = HVE_OK) by (vm_compute in E; by injection E as <- _ _).
  subst code. exists caps', w'. split; [done|].
  by apply (getCapabilities_status Sample.utilities blank_caps
              (Sample.fresh intel_host) HVE_OK caps' w' E).
Defined.


(* ================================================================== *)
(** * The extension pack: the paths that end well, or in the installer *)
(* ================================================================== *)

(** An event that reaches neither the network nor the file system, and
    is no command but the listing of the packs. *)
Definition offline_event (e : Event) : bool :=
  match e with
  | Exec cmd => String.eqb cmd "list extpacks"
  | FetchConfig | Download _ _ | Sha256 _ | Remove _ | System _ => false
  | _ => true
  end.

(** How the installation ends once the checksum has been found right:
    [h] is the host and [fs] the temporary files before the installer is
    started. *)
Definition install_outcome (pf : option Task) (file : string) (h : Host)
  (fs : list string) (r : HVE * World) : Prop :=
  ((hv_installer h).1 = 0%Z ->
   r.1 = HVE_OK /\ hv_extpacks (host r.2) = (hv_installer h).2 /\
   files (host r.2) = List.filter (fun f => negb (String.eqb file f)) fs /\
   Remove file ∈ log r.2) /\
  ((hv_installer h).1 <> 0%Z ->
   r.1 = HVE_EXTERNAL_ERROR /\ hv_extpacks (host r.2) = hv_extpacks h /\
   files (host r.2) = fs /\
   forall t, pf = Some t -> last (log r.2) = Some (PfMarkLengthy t false)).

(** A host whose download is the file the configuration vouches for,
    and whose installer fails. *)
Definition broken_installer_host : Host :=
  mkHost true Sample.no_answer [] (1%Z, []) [] []
    (HVE_OK,
     <["vbox-4.3.12-extpack" := "http://cernvm.cern.ch/releases/ext-4.3.12.vbox-extpack"]>
       (<["vbox-4.3.12-extpackChecksum" := "9f1a"]> ∅))
    HVE_OK (fun _ => "9f1a") true true "xterm -e " 0%Z Sample.no_answer.

(** A host that lists the pack. *)
Definition equipped_host : Host :=
  set_hv_extpacks ["Pack no. 1: Oracle VM VirtualBox Extension Pack"]
    broken_installer_host.

Section MoreExtPackFacts.

Context (U : Utilities).

Lemma HVE_eqb_OK res : HVE_eqb res HVE_OK = true <-> res = HVE_OK.
Proof. by destruct res. Qed.

Lemma pf_emit_files pf k w : files (host (pf_emit pf k w)) = files (host w).
Proof. by destruct pf. Qed.

(** The last phase: the installer decides. *)
Lemma install_pack_fields pf file w :
  let r := install_pack pf file w in
  let code := (hv_installer (host w)).1 in
  (code = 0%Z ->
   r.1 = HVE_OK /\ hv_extpacks (host r.2) = (hv_installer (host w)).2 /\
   files (host r.2)
   = List.filter (fun f => negb (String.eqb file f)) (files (host w)) /\
   Remove file ∈ log r.2) /\
  (code <> 0%Z ->
   r.1 = HVE_EXTERNAL_ERROR /\ host r.2 = host w /\
   forall t, pf = Some t -> last (log r.2) = Some (PfMarkLengthy t false)).
Proof.
  unfold install_pack. cbv zeta. rewrite exec_install, !pf_emit_host.
  cbn [exit_code].
  destruct (Z.eqb_spec (hv_installer (host w)).1 0) as [E|E]; cbn [negb].
  - split; [intros _|done].
    destruct pf; cbn; (split_and!; [done|done|done|]).
    + rewrite !elem_of_app. left. left. right. by apply list_elem_of_singleton.
    + rewrite !elem_of_app. right. by apply list_elem_of_singleton.
  - split; [done|intros _].
    destruct pf as [t|]; cbn; (split_and!; [done|done|]).
    + intros t' [= <-]. by rewrite last_snoc.
    + done.
Qed.

Lemma validate_pack_match pf expected file w :
  sha256_file (host w) file = expected ->
  validate_pack pf expected file w
  = install_pack pf file
      (pf_emit pf (fun t => PfDone t "Extension pack integrity validated")
         (emit (Sha256 file)
            (pf_emit pf (fun t => PfDoing t "Validating extension pack integrity") w))).
Proof.
  intros Hs. unfold validate_pack. cbv zeta.
  assert (E: sha256_file
               (host (emit (Sha256 file)
                 (pf_emit pf (fun t => PfDoing t "Validating extension pack integrity") w)))
               file = sha256_file (host w) file) by by destruct pf.
  by rewrite E, Hs, String.eqb_refl.
Qed.

Lemma validate_pack_cases pf expected file w :
  let r := validate_pack pf expected file w in
  (sha256_file (host w) file <> expected /\ r.1 = HVE_NOT_VALIDATED) \/
  (sha256_file (host w) file = expected /\
   install_outcome pf file (host w) (files (host w)) r).
Proof.
  cbv zeta. destruct (decide (sha256_file (host w) file = expected)) as [Hs|Hs].
  - right. split; [done|]. rewrite (validate_pack_match pf expected file w Hs).
    match goal with |- context [install_pack pf file ?x] =>
      pose proof (install_pack_fields pf file x) as [H0 H1];
      assert (Hh: host x = host w) by (by destruct pf) end.
    rewrite Hh in H0, H1. split.
    + intros Hc. by destruct (H0 Hc) as (? & ? & ? & ?).
    + intros Hc. destruct (H1 Hc) as (? & Hh' & ?). by rewrite Hh'.
  - left. split; [done|]. by destruct (validate_pack_mismatch pf expected file w Hs).
Qed.

Local Arguments install_pack : simpl never.
Local Arguments validate_pack : simpl never.
Local Arguments download_pack : simpl never.
Local Arguments version_key : simpl never.
Local Arguments download_to : simpl never.

Lemma download_pack_cases pf data w :
  let url := Cfg.get data (version_key (version w) +:+ "-extpack") in
  let expected := Cfg.get data (version_key (version w) +:+ "-extpackChecksum") in
  let file := getTmpDir U +:+ "/" +:+ getFilename U url in
  let r := download_pack U pf data w in
  ((Cfg.contains data (version_key (version w) +:+ "-extpack") = false \/
    Cfg.contains data (version_key (version w) +:+ "-extpackChecksum") = false) /\
   r.1 = HVE_EXTERNAL_ERROR) \/
  (Cfg.contains data (version_key (version w) +:+ "-extpack") = true /\
   Cfg.contains data (version_key (version w) +:+ "-extpackChecksum") = true /\
   ((downloadFile (host w) <> HVE_OK /\ r.1 = downloadFile (host w)) \/
    (downloadFile (host w) = HVE_OK /\
     ((sha256_file (host w) file <> expected /\ r.1 = HVE_NOT_VALIDATED) \/
      (sha256_file (host w) file = expected /\
       install_outcome pf file (host w) (file :: files (host w)) r))))).
Proof.
  intros url expected file. unfold download_pack. cbv zeta.
  destruct (Cfg.contains data (version_key (version w) +:+ "-extpack")) eqn:H1;
    cbn [negb]; [|left; by split; [left|]].
  destruct (Cfg.contains data (version_key (version w) +:+ "-extpackChecksum")) eqn:H2;
    cbn [negb]; [|left; by split; [right|]].
  right. split; [done|]. split; [done|].
  destruct (pf_begin pf _ w) as [dpf w1] eqn:E1.
  assert (F1: w1 = (pf_begin pf "Downloading extension pack" w).2) by by rewrite E1.
  assert (Hh: host w1 = host w) by (rewrite F1; apply pf_begin_host).
  fold url. fold file. fold expected.
  destruct (download_to_fields url file w1) as (Ev & Ex & Es & Ei & _ & Er & Ef).
  destruct (download_to url file w1) as [res w2]. simpl in Ev, Ex, Es, Ei, Er, Ef.
  rewrite Hh in Er, Ef, Ex.
  destruct (HVE_eqb res HVE_OK) eqn:Eq; cbn [negb].
  - apply HVE_eqb_OK in Eq. subst res. right. split; [done|].
    specialize (Ef Eq).
    destruct (validate_pack_cases pf expected file w2) as [[Hs ?]|[Hs Ho]].
    + left. split; [|done]. by rewrite <- Hh, <- Es.
    + right. split; [by rewrite <- Hh, <- Es|].
      unfold install_outcome in *. rewrite Ei, Ex, Ef, Hh in Ho. exact Ho.
  - subst res. left. split; [|by simpl]. intros H. by rewrite H in Eq.
Qed.

Ltac adds_offline :=
  repeat (first [apply adds_refl
                | eapply adds_trans; [|by apply adds_pf_emit]
                | eapply adds_trans; [|by apply adds_pf_begin]
                | eapply adds_trans; [|by apply adds_emit]]).

(** Every way [installExtPack] ends. *)
Lemma installExtPack_cases pf w :
  let r := installExtPack U pf w in
  let file := extpack_file U w in
  let kUrl := version_key (version w) +:+ "-extpack" in
  let kSum := version_key (version w) +:+ "-extpackChecksum" in
  (pack_listed (host w) = true /\ r.1 = HVE_ALREADY_EXISTS /\
   host r.2 = host w /\ adds offline_event w r.2) \/
  (pack_listed (host w) = false /\
   (((hvConfig (host w)).1 <> HVE_OK /\ r.1 = (hvConfig (host w)).1) \/
    ((hvConfig (host w)).1 = HVE_OK /\
     (((Cfg.contains (hvConfig (host w)).2 kUrl = false \/
        Cfg.contains (hvConfig (host w)).2 kSum = false) /\
       r.1 = HVE_EXTERNAL_ERROR) \/
      (Cfg.contains (hvConfig (host w)).2 kUrl = true /\
       Cfg.contains (hvConfig (host w)).2 kSum = true /\
       ((downloadFile (host w) <> HVE_OK /\ r.1 = downloadFile (host w)) \/
        (downloadFile (host w) = HVE_OK /\
         ((sha256_file (host w) file <> expected_checksum w /\
           r.1 = HVE_NOT_VALIDATED) \/
          (sha256_file (host w) file = expected_checksum w /\
           install_outcome pf file (host w) (file :: files (host w)) r))))))))).
Proof.
  intros r file kUrl kSum. unfold r, installExtPack. cbv zeta.
  rewrite hasExtPack_eq, !pf_emit_host.
  destruct (pack_listed (host w)) eqn:Hp.
  { left. simpl. split_and!; [done|done|by destruct pf|adds_offline]. }
  right. split; [done|].
  set (w0 := emit (Exec "list extpacks") _).
  assert (Hh0: host w0 = host w) by (unfold w0; simpl; by rewrite !pf_emit_host).
  assert (Hv0: version w0 = version w)
    by (unfold w0; simpl; by rewrite !pf_emit_version).
  destruct (pf_begin pf _ w0) as [dpf w1] eqn:E1.
  assert (F1: w1 = (pf_begin pf "Downloading hypervisor configuration" w0).2)
    by by rewrite E1.
  assert (Hh1: host w1 = host w) by (rewrite F1, pf_begin_host; exact Hh0).
  assert (Hv1: version w1 = version w) by (rewrite F1, pf_begin_version; exact Hv0).
  change (host (emit FetchConfig w1)) with (host w1). rewrite Hh1.
  unfold file, extpack_file, expected_checksum. fold kUrl kSum.
  destruct (hvConfig (host w)) as [res data]. cbn [fst snd].
  destruct (HVE_eqb res HVE_OK) eqn:Eq; cbn [negb].
  - apply HVE_eqb_OK in Eq. subst res. right. split; [done|].
    pose proof (download_pack_cases pf data (emit FetchConfig w1)) as H.
    cbv zeta in H.
    change (version (emit FetchConfig w1)) with (version w1) in H.
    change (host (emit FetchConfig w1)) with (host w1) in H.
    rewrite Hv1, Hh1 in H. exact H.
  - left. split; [intros ->; done|]. by destruct (_ || _).
Qed.

(** X17.  [installExtPack] returns HVE_OK exactly when no pack is
    listed, the configuration is fetched and names a URL and a checksum
    for the running version, the download succeeds, the checksum of the
    downloaded file is the one of the configuration, and the installer
    exits with 0.  Then the listing of the packs is what the installer
    left, and the downloaded file has been removed. *)
Theorem installExtPack_ok pf w :
  let r := installExtPack U pf w in
  (r.1 = HVE_OK <->
   reaches_validation w /\
   sha256_file (host w) (extpack_file U w) = expected_checksum w /\
   (hv_installer (host w)).1 = 0%Z) /\
  (r.1 = HVE_OK ->
   hv_extpacks (host r.2) = (hv_installer (host w)).2 /\
   (extpack_file U w ∉ files (host r.2)) /\
   Remove (extpack_file U w) ∈ log r.2).
Proof.
  intros r. pose proof (installExtPack_cases pf w) as H. cbv zeta in H. fold r in H.
  unfold reaches_validation.
  destruct H as [(Hp & Hr & _)|(Hp & [[Hc Hr]|(Hc & [[Hk Hr]|(Hu & Hs & [[Hd Hr]|(Hd & [[Hm Hr]|[Hm Ho]])])])])].
  - rewrite Hr, Hp. split; [|done]. split; [done|]. by intros [[? _] _].
  - rewrite Hr. split; [|done]. split; [done|]. by intros [(_ & ? & _) _].
  - rewrite Hr. split; [|done]. split; [done|].
    intros [(_ & _ & ? & ? & _) _]. destruct Hk; congruence.
  - rewrite Hr. split; [|done]. split; [done|]. by intros [(_ & _ & _ & _ & ?) _].
  - rewrite Hr. split; [|done]. split; [done|]. by intros (_ & ? & _).
  - destruct Ho as [Ho0 Ho1].
    destruct (decide ((hv_installer (host w)).1 = 0%Z)) as [Hi|Hi].
    + destruct (Ho0 Hi) as (Hr & Hx & Hf & Hl). rewrite Hr.
      split; [by split|]. intros _. split_and!; [done| |done].
      rewrite Hf. intros (_ & Hn)%list_elem_of_In%List.filter_In.
      by rewrite String.eqb_refl in Hn.
    + destruct (Ho1 Hi) as (Hr & _). rewrite Hr. split; [|done].
      split; [done|]. by intros (_ & _ & ?).
Qed.

(** X18.  When everything up to the checksum goes well and the installer
    exits with another code than 0, [installExtPack] returns
    HVE_EXTERNAL_ERROR, the listing of the packs is as it was, the
    downloaded file stays in the temporary directory, and the last call
    on the progress task takes the lengthy mark back. *)
Theorem installExtPack_installer_fails pf w :
  reaches_validation w ->
  sha256_file (host w) (extpack_file U w) = expected_checksum w ->
  (hv_installer (host w)).1 <> 0%Z ->
  let r := installExtPack U pf w in
  r.1 = HVE_EXTERNAL_ERROR /\
  hv_extpacks (host r.2) = hv_extpacks (host w) /\
  files (host r.2) = extpack_file U w :: files (host w) /\
  (forall t, pf = Some t -> last (log r.2) = Some (PfMarkLengthy t false)).
Proof.
  intros (Hp & Hc & Hu & Hs & Hd) Hm Hi r.
  pose proof (installExtPack_cases pf w) as H. cbv zeta in H. fold r in H.
  destruct H as [(Hp' & _)|(_ & [[Hc' _]|(_ & [[Hk _]|(_ & _ & [[Hd' _]|(_ & [[Hm' _]|[_ Ho]])])])])];
    try congruence.
  - destruct Hk; congruence.
  - destruct Ho as [_ Ho1]. exact (Ho1 Hi).
Qed.

(** X19.  When a pack is already listed, [installExtPack] returns
    HVE_ALREADY_EXISTS and has fetched, downloaded, checked, removed and
    run nothing but the listing: the host is as it was. *)
Theorem installExtPack_already pf w :
  pack_listed (host w) = true ->
  let r := installExtPack U pf w in
  r.1 = HVE_ALREADY_EXISTS /\ host r.2 = host w /\
  (forall e, e ∈ log r.2 -> e ∈ log w \/ offline_event e = true).
Proof.
  intros Hp r.
  pose proof (installExtPack_cases pf w) as H. cbv zeta in H. fold r in H.
  destruct H as [(_ & Hr & Hh & Ha)|(Hp' & _)]; [|congruence].
  split_and!; [done|done|]. intros e He. by apply (adds_elem _ _ _ _ Ha).
Qed.

End MoreExtPackFacts.

Lemma installExtPack_installer_fails_witness :
  let w := Sample.fresh broken_installer_host in
  let r := installExtPack Sample.utilities (Some []) w in
  r.1 = HVE_EXTERNAL_ERROR /\
  hv_extpacks (host r.2) = hv_extpacks (host w) /\
  files (host r.2) = extpack_file Sample.utilities w :: files (host w) /\
  (forall t, Some [] = Some t -> last (log r.2) = Some (PfMarkLengthy t false)).
Proof.
  apply (installExtPack_installer_fails Sample.utilities (Some [])
           (Sample.fresh broken_installer_host)).
  - repeat split; vm_compute; reflexivity.
  - vm_compute. reflexivity.
  - vm_compute. discriminate.
Defined.

Lemma installExtPack_already_witness :
  let w := Sample.fresh equipped_host in
  let r := installExtPack Sample.utilities None w in
  r.1 = HVE_ALREADY_EXISTS /\ host r.2 = host w /\
  (forall e, e ∈ log r.2 -> e ∈ log w \/ offline_event e = true).
Proof.
  apply (installExtPack_already Sample.utilities None (Sample.fresh equipped_host)).
  vm_compute. reflexivity.
Defined.

(* ================================================================== *)
(** * Integrity and readiness: more of what the code does *)
(* ================================================================== *)

(** A line of the version output that does not stop the check: it shows
    no "ERROR", and a "WARNING" only on Linux and about the driver. *)
Definition clean_line (linux : bool) (sit : string) : bool :=
  if contains_text sit "WARNING"
  then linux && contains_text sit "vboxdrv kernel module is not loaded"
       && negb (contains_text sit "ERROR")
  else negb (contains_text sit "ERROR").

(** A warning that the driver is not loaded. *)
Definition driver_warning (sit : string) : bool :=
  contains_text sit "WARNING"
  && contains_text sit "vboxdrv kernel module is not loaded".

(** A Linux host without a terminal emulator. *)
Definition no_terminal_host : Host :=
  mkHost true Sample.no_answer [] (0%Z, []) [] [] (HVE_OK, ∅) HVE_OK
    (fun _ => "") true true "" 0%Z Sample.no_answer.

Section MoreReadinessFacts.

Context (U : Utilities) (linux : bool).

Lemma scan_version_spec out drv :
  (scan_version linux out drv).1 = forallb (clean_line linux) out /\
  ((scan_version linux out drv).1 = true ->
   (scan_version linux out drv).2
   = if existsb driver_warning out then false else drv).
Proof.
  revert drv; induction out as [|sit rest IH]; intros drv; [done|].
  cbn [scan_version forallb existsb]. unfold clean_line at 1, driver_warning at 1.
  destruct (contains_text sit "WARNING"); cbn [andb orb].
  - destruct linux; cbn [andb]; [|done].
    destruct (contains_text sit "vboxdrv kernel module is not loaded"); cbn [andb];
      [|done].
    destruct (contains_text sit "ERROR"); cbn [negb andb]; [done|].
    destruct (IH false) as [H1 H2]. split; [done|]. intros H. rewrite (H2 H).
    by destruct (existsb driver_warning rest).
  - destruct (contains_text sit "ERROR"); cbn [negb andb]; [done|]. apply IH.
Qed.

Lemma validateIntegrity_eq w :
  let r := hv_answer (host w) "--version" in
  let w1 := emit (Exec "--version") w in
  let drv0 := if linux then true else vboxDrvKernelLoaded w in
  let s := scan_version linux (out_lines r) drv0 in
  let w2 := set_vboxDrvKernelLoaded s.2 w1 in
  validateIntegrity U linux w =
  if negb (vboxExists (host w)) then (false, set_reflectionValid false w)
  else if negb s.1 then (false, w2)
  else if negb (String.eqb (err_text r) EmptyString) then (false, w2)
  else
    (true,
     set_reflectionValid true
       (let w3 :=
          set_hvGuestAdditions EmptyString
            match last (out_lines r) with
            | Some l => set_version (version_set U l) w2
            | None => w2
            end in
        let r2 := hv_answer (host w) "list systemproperties" in
        let w4 := emit (Exec "list systemproperties") w3 in
        if (exit_code r2 =? 0)%Z then
          match parseLines U (out_lines r2) !! "Default Guest Additions ISO" with
          | Some iso => set_hvGuestAdditions (systemPath U iso) w4
          | None => w4
          end
        else w4)).
Proof.
  intros r w1 drv0 s w2. unfold validateIntegrity.
  destruct (negb (vboxExists (host w))); [done|].
  rewrite (exec_query "--version") by done. fold r w1.
  change (vboxDrvKernelLoaded w1) with (vboxDrvKernelLoaded w). fold drv0 s.
  destruct s as [ok drv] eqn:Es. cbn [fst snd] in *. fold w2.
  destruct (negb ok); [done|]. destruct (negb (_ =? _)%string); [done|].
  rewrite (exec_query "list systemproperties") by done.
  f_equal. by destruct (last (out_lines r)).
Qed.

(** X20.  [validateIntegrity] answers true exactly when the hypervisor
    is there, no line of its version output shows "ERROR", every line
    that shows "WARNING" is, on Linux, the one about the driver, and
    nothing was written to the error stream.  Then the reflection is
    marked valid and, on Linux, the driver flag says whether that warning
    was absent.  When it answers false although the hypervisor is there,
    the validity mark, the version and the path of the guest additions
    are left as they were. *)
Theorem validateIntegrity_result w :
  let r := hv_answer (host w) "--version" in
  let v := validateIntegrity U linux w in
  v.1 = vboxExists (host w) && forallb (clean_line linux) (out_lines r)
        && String.eqb (err_text r) EmptyString /\
  (v.1 = true ->
   reflectionValid v.2 = true /\
   vboxDrvKernelLoaded v.2
   = if linux then negb (existsb driver_warning (out_lines r))
     else vboxDrvKernelLoaded w) /\
  (v.1 = false ->
   reflectionValid v.2 = vboxExists (host w) && reflectionValid w /\
   version v.2 = version w /\ hvGuestAdditions v.2 = hvGuestAdditions w).
Proof.
  intros r v. unfold v. rewrite validateIntegrity_eq. fold r. cbv zeta.
  destruct (vboxExists (host w)); cbn [negb andb]; [|done].
  match goal with |- context [scan_version linux (out_lines r) ?d] =>
    destruct (scan_version_spec (out_lines r) d) as [H1 H2] end.
  rewrite <- H1.
  destruct (scan_version linux (out_lines r) _) as [ok drv]. cbn [fst snd] in *.
  destruct ok; cbn [negb andb]; [|done].
  destruct (String.eqb (err_text r) EmptyString); cbn [negb]; [|done].
  split; [done|]. split; [|done]. intros _.
  specialize (H2 eq_refl). subst drv.
  split; [done|].
  - transitivity (if existsb driver_warning (out_lines r) then false
                  else if linux then true else vboxDrvKernelLoaded w).
    + set (r2 := hv_answer (host w) "list systemproperties").
      by destruct (exit_code r2 =? 0)%Z,
           (parseLines U (out_lines r2) !! "Default Guest Additions ISO"),
           (last (out_lines r)).
    + destruct linux; [by destruct (existsb _ _)|].
      assert (Hn: existsb driver_warning (out_lines r) = false); [|by rewrite Hn].
      symmetry in H1. clear -H1. induction (out_lines r) as [|sit rest IH]; [done|].
      simpl in *. apply andb_true_iff in H1 as [Hc Hr]. rewrite (IH Hr).
      unfold clean_line, driver_warning in *.
      by destruct (contains_text sit "WARNING").
Qed.

Local Arguments installExtPack : simpl never.
Local Arguments loadSessions : simpl never.
Local Arguments validateIntegrity : simpl never.

Lemma check_driver_no_ui pf w b w' :
  check_driver U linux pf false w = Ok (b, w') -> b = true.
Proof.
  unfold check_driver. destruct (negb linux || vboxDrvKernelLoaded w);
    [by intros [= <- _]|].
  cbv zeta. cbv iota.
  destruct (String.eqb (terminalCmdline (host w)) EmptyString); [done|].
  unfold system. cbv zeta. destruct (system_result (host w) <? 0)%Z; [done|].
  destruct (validateIntegrity U linux _) as [valid w1].
  destruct (negb valid || negb (vboxDrvKernelLoaded w1)); [done|].
  by intros [= <- _].
Qed.

Lemma extpack_phase_no_ui pf w : (extpack_phase U pf false w).1 = true.
Proof.
  unfold extpack_phase. rewrite hasExtPack_eq.
  destruct (pack_listed (host w)); cbn [negb]; [done|].
  destruct (pf_begin pf _ _) as [pfI w1]. cbv zeta. cbv iota.
  by destruct (installExtPack U pfI w1).
Qed.

(** X21.  Without a user-interaction object [waitTillReady] never
    returns false: every path that would report a failure calls
    [ui->alert] first. *)
Theorem waitTillReady_without_ui pf w b w' :
  waitTillReady U linux pf false w = Ok (b, w') -> b = true.
Proof.
  unfold waitTillReady. cbv zeta.
  destruct (check_driver U linux pf false _) as [[go w1]|e] eqn:E1; [|done].
  rewrite bind_Ok. apply check_driver_no_ui in E1. subst go. cbn [negb].
  destruct (load_phase U pf _) as [w2|e]; [|done]. rewrite bind_Ok.
  intros [= H]. pose proof (extpack_phase_no_ui pf w2) as Hp.
  by rewrite H in Hp.
Qed.

(** X22.  On Linux, with the driver not loaded and no user-interaction
    object, [waitTillReady] dereferences the empty pointer when no
    terminal emulator is found or when the repair command cannot be
    started. *)
Theorem waitTillReady_null_ui pf w :
  linux = true -> vboxDrvKernelLoaded w = false ->
  terminalCmdline (host w) = EmptyString \/ (system_result (host w) < 0)%Z ->
  waitTillReady U linux pf false w = Throw null_dereference.
Proof.
  intros -> Hd Ht. unfold waitTillReady. cbv zeta.
  assert (E: check_driver U true pf false (pf_emit pf (fun t => PfSetMax t 3) w)
             = Throw null_dereference); [|by rewrite E].
  unfold check_driver.
  replace (vboxDrvKernelLoaded (pf_emit pf (fun t => PfSetMax t 3) w)) with false
    by (by destruct pf).
  cbn [negb orb]. cbv zeta. cbv iota. rewrite pf_emit_host.
  destruct (String.eqb_spec (terminalCmdline (host w)) EmptyString) as [|Hne]; [done|].
  destruct Ht as [?|Ht]; [done|].
  unfold system. cbv zeta. rewrite pf_emit_host.
  by rewrite (proj2 (Z.ltb_lt _ _) Ht).
Qed.

(** X23.  [load_phase], the delayed loading of [waitTillReady]: once it
    has returned, with whatever status [loadSessions] had, the sessions
    count as loaded, and a later call loads nothing: it tells the
    progress task that the sessions are loaded and changes nothing
    else. *)
Theorem load_phase_once pf w w' :
  load_phase U pf w = Ok w' ->
  sessionLoaded w' = true /\
  forall pf',
    load_phase U pf' w'
    = Ok (pf_emit pf' (fun t => PfDone t "Sessions are loaded") w').
Proof.
  unfold load_phase at 1. destruct (sessionLoaded w) eqn:El; cbn [negb].
  - intros [= <-].
    assert (E: sessionLoaded (pf_emit pf (fun t => PfDone t "Sessions are loaded") w)
               = true) by (by destruct pf).
    split; [done|]. intros pf'. unfold load_phase. by rewrite E.
  - destruct (pf_begin pf "Loading sessions" w) as [pfL w1].
    destruct (loadSessions U pfL w1) as [[c w2]|e]; [|done]. rewrite bind_Ok.
    intros [= <-]. split; [done|]. intros pf'. by unfold load_phase.
Qed.

End MoreReadinessFacts.

Lemma waitTillReady_without_ui_witness :
  exists w',
    waitTillReady Sample.utilities true None false (Sample.fresh equipped_host)
    = Ok (true, w').
Proof.
  destruct (waitTillReady Sample.utilities true None false (Sample.fresh equipped_host))
    as [[b w']|e] eqn:E; [|by vm_compute in E].
  exists w'. f_equal. f_equal.
  exact (waitTillReady_without_ui Sample.utilities true None
           (Sample.fresh equipped_host) b w' E).
Defined.

Lemma waitTillReady_null_ui_witness :
  waitTillReady Sample.utilities true None false (driver_missing no_terminal_host)
  = Throw null_dereference.
Proof.
  apply (waitTillReady_null_ui Sample.utilities true None
           (driver_missing no_terminal_host)).
  - reflexivity.
  - reflexivity.
  - by left.
Defined.

Lemma load_phase_once_witness :
  exists w',
    load_phase Sample.utilities None (Sample.fresh failing_host) = Ok w' /\
    sessionLoaded w' = true /\
    forall pf',
      load_phase Sample.utilities pf' w'
      = Ok (pf_emit pf' (fun t => PfDone t "Sessions are loaded") w').
Proof.
  destruct (load_phase Sample.utilities None (Sample.fresh failing_host))
    as [w'|e] eqn:E; [|by vm_compute in E].
  exists w'. split; [done|].
  exact (load_phase_once Sample.utilities None (Sample.fresh failing_host) w' E).
Defined.

Lemma remove_unregistered_result_witness :
  let w := loaded Sample.utilities None (Sample.fresh two_orphans_host) in
  exists w',
    remove_unregistered (loop_fuel (length (sessions w))) ∅ 0 w = Some w' /\
    sessions w' = swept (live ∅ w) (sessions w) /\ heap w' = heap w.
Proof.
  apply (remove_unregistered_result ∅
           (loaded Sample.utilities None (Sample.fresh two_orphans_host))).
  - apply loaded_sorted.
  - apply loaded_fields.
Defined.

Lemma loadSessions_registry_witness :
  exists w',
    loadSessions Sample.utilities None (Sample.fresh two_orphans_host)
    = Ok (HVE_OK, w') /\
    (sessions w').*1 = ["b"].
Proof.
  destruct (loadSessions_registry Sample.utilities None
              (Sample.fresh two_orphans_host) ∅) as (w' & H & Es & _).
  - reflexivity.
  - by vm_compute.
  - exists w'. split; [done|]. rewrite Es. by vm_compute.
Defined.
